(** * python-manilaclient: version-gated request dispatch, managers and validators

    A shallow embedding of
      - [manilaclient/api_versions.py]            ([experimental_api])
      - [manilaclient/osc/utils.py]               ([extract_properties])
      - [manilaclient/v2/shares.py]               ([Share], [ShareManager])
      - [manilaclient/v2/share_group_replicas.py]
      - [manilaclient/v2/share_group_instances.py]
      - [manilaclient/v2/share_group_snapshot_instances.py]

    Python values are a small JSON-like inductive type, a [dict] is an
    association list in insertion order, the shared [default_headers]
    dictionaries live in a store addressed by location, and every effect
    (header mutation, hook invocation, HTTP request) is threaded through an
    explicit state-and-exception monad whose state records a log of events.
    The methods of the share-group managers are given twice: the functions
    as written, and what their decorators make of them. *)

From Stdlib Require Import ZArith List String Ascii Bool Lia DecimalString.
From Stdlib Require Import Sorted Permutation DecimalPos.
From stdpp Require Import base option gmap strings list.

Local Open Scope string_scope.
Local Open Scope Z_scope.

(* String concatenation unfolds on a constructor, as the proofs below expect. *)
Local Arguments String.append !s1 s2 : simpl nomatch.

(** API versions are [major.minor] pairs. *)
Record APIVersion := mkVersion { ver_major : Z; ver_minor : Z }.

(** ** Exceptions and results *)

Inductive exn :=
  | ValueError (msg : string)
  | CommandError (msg : string)
  | VersionNotFoundForAPIMethod (version : APIVersion) (method : string)
  | IndexError
  | TypeError
  | KeyError (key : string)
  | AttributeError
  | TransportError (status : Z).

Inductive result (A : Type) :=
  | Return (a : A)
  | Raise (e : exn).
Arguments Return {A} a.
Arguments Raise {A} e.

Definition is_raise {A} (r : result A) : bool :=
  match r with Raise _ => true | Return _ => false end.

(** Sequencing of pure fallible steps. *)
Definition and_then {A B} (r : result A) (k : A -> result B) : result B :=
  match r with Return a => k a | Raise e => Raise e end.

(** ** Python values *)

Local Set Warnings "-register-all".

Inductive pyval :=
  | VNone
  | VBool (b : bool)
  | VInt (z : Z)
  | VStr (s : string)
  | VList (elems : list pyval)
  | VDict (items : list (string * pyval)).

(** Python truthiness ([if v:]). *)
Definition truthy (v : pyval) : bool :=
  match v with
  | VNone => false
  | VBool b => b
  | VInt z => negb (z =? 0)
  | VStr s => negb (String.eqb s "")
  | VList elems => match elems with [] => false | _ => true end
  | VDict items => match items with [] => false | _ => true end
  end.

(** *** Dictionaries: association lists in insertion order, keys unique *)

Section Dict.
Context {V : Type}.

Fixpoint dict_get (k : string) (d : list (string * V)) : option V :=
  match d with
  | [] => None
  | (k', v) :: d' => if String.eqb k k' then Some v else dict_get k d'
  end.

Definition dict_has (k : string) (d : list (string * V)) : bool :=
  match dict_get k d with Some _ => true | None => false end.

(** [d[k] = v]: overwrite in place when the key exists, else append. *)
Fixpoint dict_set (k : string) (v : V) (d : list (string * V)) : list (string * V) :=
  match d with
  | [] => [(k, v)]
  | (k', v') :: d' =>
      if String.eqb k k' then (k', v) :: d' else (k', v') :: dict_set k v d'
  end.

(** [d.pop(k)]: the entry is removed (the value is read with [dict_get]). *)
Fixpoint dict_del (k : string) (d : list (string * V)) : list (string * V) :=
  match d with
  | [] => []
  | (k', v') :: d' =>
      if String.eqb k k' then d' else (k', v') :: dict_del k d'
  end.

End Dict.

(** ** Python strings

    A [str] is modelled by a Rocq [string], one character per code point.
    The model covers ASCII text: on it [len], [strip], [int], [repr] and the
    class [\w] of regular expressions are as defined below. Text with other
    characters is outside the model, and the statements that range over
    every string say so with [is_ascii]. *)

Definition nl : ascii := ascii_of_nat 10.
Definition tab : ascii := ascii_of_nat 9.

Definition code (c : ascii) : Z := Z.of_nat (nat_of_ascii c).

Fixpoint is_ascii (s : string) : bool :=
  match s with
  | "" => true
  | String c s' => (code c <? 128) && is_ascii s'
  end.

Definition is_digit (c : ascii) : bool := (48 <=? code c) && (code c <=? 57).
Definition is_alpha (c : ascii) : bool :=
  ((65 <=? code c) && (code c <=? 90)) || ((97 <=? code c) && (code c <=? 122)).

(** [str.join]. *)
Fixpoint join (sep : string) (l : list string) : string :=
  match l with
  | [] => ""
  | [x] => x
  | x :: l' => x ++ sep ++ join sep l'
  end.

(** [s.split(sep)] for a one-character separator: every field, in order. *)
Fixpoint split (sep : ascii) (s : string) : list string :=
  match s with
  | "" => [""]
  | String c s' =>
      if Ascii.eqb c sep then "" :: split sep s'
      else match split sep s' with
           | [] => [String c ""]
           | x :: l => String c x :: l
           end
  end.

(** [s.split(sep, 1)] seen through the unpacking [(key, value) = ...]:
    [None] when there is no separator (only one field, so the unpacking
    raises ValueError), else the text before and after the first one. *)
Fixpoint split_once (sep : ascii) (s : string) : option (string * string) :=
  match s with
  | "" => None
  | String c s' =>
      if Ascii.eqb c sep then Some ("", s')
      else match split_once sep s' with
           | Some (k, v) => Some (String c k, v)
           | None => None
           end
  end.

Fixpoint string_rev (s : string) : string :=
  match s with
  | "" => ""
  | String c s' => string_rev s' ++ String c ""
  end.

Fixpoint string_drop (n : nat) (s : string) : string :=
  match n, s with
  | O, _ => s
  | S n', String _ s' => string_drop n' s'
  | S _, "" => ""
  end.

(** White space as [str.strip] and [str.isspace] see it in ASCII text: tab
    to carriage return, the four separators 28 to 31, and the space. *)
Definition is_space (c : ascii) : bool :=
  ((9 <=? code c) && (code c <=? 13)) || ((28 <=? code c) && (code c <=? 32)).

Fixpoint lstrip (s : string) : string :=
  match s with
  | "" => ""
  | String c s' => if is_space c then lstrip s' else s
  end.

Definition strip (s : string) : string :=
  string_rev (lstrip (string_rev (lstrip s))).

(** Decimal digits with single underscores between them. [after_digit] is
    false at the start and just after an underscore. *)
Fixpoint parse_digits (s : string) (acc : Z) (after_digit : bool) : option Z :=
  match s with
  | "" => if after_digit then Some acc else None
  | String c s' =>
      if is_digit c then parse_digits s' (10 * acc + (code c - 48)) true
      else if Ascii.eqb c "_" && after_digit then parse_digits s' acc false
      else None
  end.

(** White space as [int] skips it around the number in ASCII text: tab to
    carriage return and the space. The separators 28 to 31 are not skipped. *)
Definition is_int_space (c : ascii) : bool :=
  ((9 <=? code c) && (code c <=? 13)) || (code c =? 32).

Fixpoint int_lstrip (s : string) : string :=
  match s with
  | "" => ""
  | String c s' => if is_int_space c then int_lstrip s' else s
  end.

Definition int_strip (s : string) : string :=
  string_rev (int_lstrip (string_rev (int_lstrip s))).

(** [int(s)] on ASCII text: white space around the number, an optional sign,
    decimal digits with single underscores between them. [None] stands for
    ValueError. The interpreter's bound on the number of digits it converts
    (4300 by default, from Python 3.11 on) is not part of the model. *)
Definition py_int (s : string) : option Z :=
  match int_strip s with
  | String "-" s' => option_map Z.opp (parse_digits s' 0 false)
  | String "+" s' => parse_digits s' 0 false
  | s' => parse_digits s' 0 false
  end.

Definition hex_digit (n : Z) : ascii :=
  ascii_of_nat (Z.to_nat (if n <? 10 then 48 + n else 55 + n)).

(** [urllib.parse.quote_plus]: letters, digits and [_.-~] are kept, a space
    becomes [+], every other byte is written [%XX]. *)
Definition quote_char (c : ascii) : string :=
  if is_alpha c || is_digit c
     || Ascii.eqb c "_" || Ascii.eqb c "." || Ascii.eqb c "-" || Ascii.eqb c "~"
  then String c ""
  else if Ascii.eqb c " " then "+"
  else String "%" (String (hex_digit (code c / 16)) (String (hex_digit (code c mod 16)) "")).

Fixpoint quote_plus (s : string) : string :=
  match s with
  | "" => ""
  | String c s' => quote_char c ++ quote_plus s'
  end.

Definition str_of_Z (z : Z) : string := DecimalString.NilZero.string_of_int (Z.to_int z).

Definition lower_hex_digit (n : Z) : ascii :=
  ascii_of_nat (Z.to_nat (if n <? 10 then 48 + n else 87 + n)).

(** [repr] of a string of ASCII text, between quotes [q]: the quote and the
    backslash take a backslash, tab, newline and carriage return are written
    [\t], [\n] and [\r], every other control character [\xNN]. *)
Definition escape_char (q c : ascii) : string :=
  if Ascii.eqb c q || Ascii.eqb c "\" then String "\" (String c "")
  else if code c =? 9 then "\t"
  else if code c =? 10 then "\n"
  else if code c =? 13 then "\r"
  else if (code c <? 32) || (code c =? 127)
  then String "\" (String "x" (String (lower_hex_digit (code c / 16))
                                 (String (lower_hex_digit (code c mod 16)) "")))
  else String c "".

Fixpoint escape (q : ascii) (s : string) : string :=
  match s with
  | "" => ""
  | String c s' => escape_char q c ++ escape q s'
  end.

Fixpoint has_char (c : ascii) (s : string) : bool :=
  match s with
  | "" => false
  | String c' s' => Ascii.eqb c c' || has_char c s'
  end.

Definition repr_str (s : string) : string :=
  let dq := ascii_of_nat 34 in
  if has_char "'" s && negb (has_char dq s)
  then String dq (escape dq s ++ String dq "")
  else String "'" (escape "'" s ++ "'").

(** [str(v)] and [repr(v)]. *)
Fixpoint py_repr (v : pyval) : string :=
  match v with
  | VNone => "None"
  | VBool true => "True"
  | VBool false => "False"
  | VInt z => str_of_Z z
  | VStr s => repr_str s
  | VList l => "[" ++ join ", " (map py_repr l) ++ "]"
  | VDict d => "{" ++ join ", " (map (fun kv => repr_str (fst kv) ++ ": " ++ py_repr (snd kv)) d) ++ "}"
  end.

Definition py_str (v : pyval) : string :=
  match v with
  | VStr s => s
  | _ => py_repr v
  end.

(** [urllib.parse.urlencode] of a list of pairs. *)
Definition encode_pair (kv : string * pyval) : string :=
  quote_plus (fst kv) ++ "=" ++ quote_plus (py_str (snd kv)).

Definition urlencode (query : list (string * pyval)) : string :=
  join "&" (map encode_pair query).

(** [sorted] on the (key, value) pairs of a dict: the keys are distinct, so
    the pairs are ordered by key alone; strings compare character by
    character. The sort is stable. *)
Fixpoint insert_sorted {V} (kv : string * V) (l : list (string * V)) : list (string * V) :=
  match l with
  | [] => [kv]
  | kv' :: l' =>
      if String.leb (fst kv) (fst kv') then kv :: l else kv' :: insert_sorted kv l'
  end.

Fixpoint sorted {V} (l : list (string * V)) : list (string * V) :=
  match l with
  | [] => []
  | kv :: l' => insert_sorted kv (sorted l')
  end.

(** [needle in haystack] on strings. *)
Fixpoint is_prefix (p s : string) : bool :=
  match p, s with
  | "", _ => true
  | String a p', String b s' => Ascii.eqb a b && is_prefix p' s'
  | _, _ => false
  end.

Fixpoint contains (needle hay : string) : bool :=
  is_prefix needle hay ||
  match hay with
  | "" => false
  | String _ hay' => contains needle hay'
  end.

(** ** The client objects *)

Definition loc := positive.

(** The HTTP transport object: its [default_headers] attribute is a
    reference to a dictionary in the store, so every holder of the transport
    sees the same dictionary. *)
Record HTTPClient := { default_headers : loc }.

(** The top-level client: [client] is the transport, [api_version] the
    version negotiated for the session. *)
Record Client := { client : HTTPClient; api_version : APIVersion }.

Inductive http_method := GET | POST | PUT | DELETE.

Record request := mkRequest {
  rq_method : http_method;
  rq_url : string;
  rq_body : option pyval;
  rq_headers : gmap string string   (* default headers in effect when sent *)
}.

(** A hook receives the request body (a dict it may rewrite in place) and
    either returns, leaving the body in a new state, or raises. *)
Definition hook := pyval -> result pyval.

(** A manager holds a back-reference [api] to the owning client and the hook
    registrations, (hook type, callback) in registration order. *)
Record Manager := { api : Client; hooks : list (string * hook) }.

(** What may be passed as an argument of a call. *)
Inductive pyobj :=
  | OV1Client (c : Client)      (* an instance of manilaclient.v1.client.Client *)
  | OManager (m : Manager)
  | OResource (id : string)     (* a Resource, with its [id] attribute *)
  | OVal (v : pyval).

(** ** The world: header dictionaries, the event log, the remote service *)

Inductive event :=
  | EvHook (index : nat) (body : pyval)   (* hook number [index] called on [body] *)
  | EvHttp (r : request).

Record world := mkWorld {
  w_heap : gmap loc (gmap string string);   (* the default_headers dictionaries *)
  w_log : list event;                       (* what happened, oldest first *)
  w_service : request -> result pyval       (* the answer of the remote service:
                                               a parsed JSON body or a transport error *)
}.

Definition M (A : Type) : Type := world -> result A * world.

Definition ret {A} (a : A) : M A := fun w => (Return a, w).
Definition raise {A} (e : exn) : M A := fun w => (Raise e, w).
Definition bind {A B} (m : M A) (k : A -> M B) : M B :=
  fun w => match m w with
           | (Return a, w') => k a w'
           | (Raise e, w') => (Raise e, w')
           end.
Definition lift {A} (r : result A) : M A := fun w => (r, w).

Notation "'let*' x ':=' m 'in' k" := (bind m (fun x => k))
  (at level 10, x name, m at level 100, k at level 200).
Notation "m ;; k" := (bind m (fun _ => k))
  (at level 100, k at level 200, right associativity).

Definition emit (e : event) : M unit :=
  fun w => (Return tt, mkWorld (w_heap w) (w_log w ++ [e]) (w_service w)).

(** The dictionary a location refers to (a fresh one when never written). *)
Definition deref (l : loc) (w : world) : gmap string string :=
  default ∅ (w_heap w !! l).

(** [dh[key] = value] on the dictionary at [l]. *)
Definition setitem (l : loc) (key value : string) : M unit :=
  fun w => (Return tt,
            mkWorld (<[l := <[key := value]> (deref l w)]> (w_heap w))
                    (w_log w) (w_service w)).

(** Modelled from the spec: [manilaclient.common.constants] is not among the
    sources; the spec gives the header as [X-Openstack-Manila-Api-Experimental]. *)
Definition EXPERIMENTAL_HTTP_HEADER : string := "X-Openstack-Manila-Api-Experimental".

(** Modelled from the spec: the HTTP transport ([get/post/put/delete] with a
    body, returning the parsed JSON document) is an external collaborator;
    each request goes out with the transport's shared default headers. *)
Definition http (c : HTTPClient) (m : http_method) (url : string)
    (body : option pyval) : M pyval :=
  fun w =>
    let r := mkRequest m url body (deref (default_headers c) w) in
    (w_service w r, mkWorld (w_heap w) (w_log w ++ [EvHttp r]) (w_service w)).

(** ** [api_versions.experimental_api] *)

Definition pyfun := list pyobj -> M pyval.

Definition experimental_api (f : pyfun) : pyfun := fun args =>
  match args with
  | [] => raise IndexError                       (* client = args[0] *)
  | first :: _ =>
      match first with
      | OV1Client c =>
          setitem (default_headers (client c)) EXPERIMENTAL_HTTP_HEADER "true"
      | _ => ret tt
      end ;;
      f args ;;
      ret VNone
  end.

(** ** The version registry and the dispatcher *)

(** Modelled from the spec: [api_versions.wraps], [APIVersion] comparison,
    [VersionedMethod] and the registry are not among the sources
    ([api_versions.py] holds [experimental_api] only). An operation is
    declared with an inclusive lower bound and an optional inclusive upper
    bound; the registry maps an operation name to its bindings in
    registration order; dispatch takes the first binding whose window holds
    the version read from the first positional argument. The
    [is_experimental] field the spec lists in a binding is read by neither
    registration nor dispatch and is left out. *)
Definition version_le (a b : APIVersion) : bool :=
  (ver_major a <? ver_major b)
  || ((ver_major a =? ver_major b) && (ver_minor a <=? ver_minor b)).

Record VersionedMethod := mkVersionedMethod {
  vm_name : string;
  start_version : APIVersion;
  end_version : option APIVersion;      (* None: unbounded *)
  func : pyfun
}.

Definition in_window (v : APIVersion) (m : VersionedMethod) : bool :=
  version_le (start_version m) v
  && match end_version m with
     | Some e => version_le v e
     | None => true
     end.

Definition bindings (reg : gmap string (list VersionedMethod)) (name : string)
    : list VersionedMethod :=
  default [] (reg !! name).

(** Registration appends to the list kept under the operation's name. *)
Definition wraps (start_version : APIVersion) (end_version : option APIVersion)
    (name : string) (f : pyfun)
    (reg : gmap string (list VersionedMethod)) : gmap string (list VersionedMethod) :=
  <[name := (bindings reg name ++ [mkVersionedMethod name start_version end_version f])%list]> reg.

(** The version accessor of the first positional argument. *)
Definition get_api_version (o : pyobj) : result APIVersion :=
  match o with
  | OManager m => Return (api_version (api m))
  | OV1Client c => Return (api_version c)
  | _ => Raise AttributeError
  end.

Definition dispatch (reg : gmap string (list VersionedMethod)) (name : string) : pyfun :=
  fun args =>
    match args with
    | [] => raise IndexError
    | first :: _ =>
        let* v := lift (get_api_version first) in
        match find (in_window v) (bindings reg name) with
        | Some m => func m args
        | None => raise (VersionNotFoundForAPIMethod v name)
        end
    end.

(** ** [base.Manager]: the helpers every manager inherits *)

(** The target of an operation: a Resource object or a bare identifier. *)
Inductive target :=
  | TResource (id : string)
  | TId (v : pyval).

(** A manager or a client is never the target of a call. *)
Definition as_target (o : pyobj) : result target :=
  match o with
  | OResource id => Return (TResource id)
  | OVal v => Return (TId v)
  | _ => Raise TypeError
  end.

Definition of_target (t : target) : pyobj :=
  match t with
  | TResource id => OResource id
  | TId v => OVal v
  end.

Definition truthy_target (t : target) : bool :=
  match t with
  | TResource _ => true
  | TId v => truthy v
  end.

(** Modelled from the spec: [common_base.getid] is not among the sources; the
    id is taken from the target resource, a bare identifier stands for itself. *)
Definition getid (t : target) : pyval :=
  match t with
  | TResource id => VStr id
  | TId v => v
  end.

(** [common_base.getid] on a value held in a dictionary: a Resource is
    represented by the JSON object it wraps, and its id is the [id] entry of
    that object; a value without one stands for itself. *)
Definition getid_value (x : pyval) : pyval :=
  match x with
  | VDict d => match dict_get "id" d with
               | Some id => id
               | None => x
               end
  | _ => x
  end.

(** [body[key]] on a parsed JSON document. *)
Definition getitem (body : pyval) (key : string) : result pyval :=
  match body with
  | VDict d => match dict_get key d with
               | Some v => Return v
               | None => Raise (KeyError key)
               end
  | _ => Raise TypeError
  end.

(** Modelled from the spec: [base.Manager.run_hooks] is not among the
    sources; the callbacks registered under a hook type are invoked in
    registration order, each on the body as the previous one left it. *)
Fixpoint run_hooks_from (index : nat) (hs : list hook) (body : pyval) : M pyval :=
  match hs with
  | [] => ret body
  | h :: hs' =>
      emit (EvHook index body) ;;
      let* body' := lift (h body) in
      run_hooks_from (S index) hs' body'
  end.

Definition hooks_of_type (self : Manager) (hook_type : string) : list hook :=
  map snd (List.filter (fun th => String.eqb (fst th) hook_type) (hooks self)).

Definition run_hooks (self : Manager) (hook_type : string) (body : pyval) : M pyval :=
  run_hooks_from 0 (hooks_of_type self hook_type) body.

(** Modelled from the spec: [base.Manager._get], [_list] and [_create] are not
    among the sources; each issues one request and takes the object (or
    array) nested under a known top-level key. A Resource is represented by
    the JSON object it wraps. *)
Definition _get (self : Manager) (url : string) (response_key : string) : M pyval :=
  let* body := http (client (api self)) GET url None in
  lift (getitem body response_key).

Definition _list (self : Manager) (url : string) (response_key : string) : M pyval :=
  let* body := http (client (api self)) GET url None in
  lift (getitem body response_key).

Definition _create (self : Manager) (url : string) (body : pyval)
    (response_key : string) : M pyval :=
  let* resp := http (client (api self)) POST url (Some body) in
  lift (getitem resp response_key).

(** The pairs that make it into a query string: falsy values dropped, the
    rest sorted by key. *)
Definition query_params (search_opts : list (string * pyval)) : list (string * pyval) :=
  sorted (List.filter (fun kv => truthy (snd kv)) search_opts).

(** Modelled from the spec: [base.Manager._build_query_string] is not among
    the sources; the pairs with a non-empty value, sorted by key, are
    URL-encoded, with the leading [?] that [ShareManager.list] puts before
    a non-empty query. *)
Definition _build_query_string (search_opts : list (string * pyval)) : string :=
  match query_params search_opts with
  | [] => ""
  | params => "?" ++ urlencode params
  end.

(** Modelled from the spec: [manilaclient.common.constants] is not among the
    sources. The sort directions are [asc] and [desc]; the sort keys allowed
    for each resource kind are left open. *)
Definition SORT_DIR_VALUES : list string := ["asc"; "desc"].

Record Constants := {
  SHARE_SORT_KEY_VALUES : list string;
  SHARE_GROUP_REPLICA_SORT_KEY_VALUES : list string;
  SHARE_GROUP_INSTANCE_SORT_KEY_VALUES : list string;
  SHARE_GROUP_SNAPSHOT_INSTANCE_SORT_KEY_VALUES : list string
}.

(** [x in values] for a tuple of strings. *)
Definition str_in (x : string) (values : list string) : bool :=
  existsb (String.eqb x) values.

(** The ValueError raised for a sort key, and for a sort direction, that is
    outside its allow-list. *)
Definition sort_key_error (values : list string) : exn :=
  ValueError ("sort_key must be one of the following: " ++ join ", " values ++ ".").

Definition sort_dir_error : exn :=
  ValueError ("sort_dir must be one of the following: " ++ join ", " SORT_DIR_VALUES ++ ".").

(** [if sort_dir is not None: ...], the same in every manager. *)
Definition with_sort_dir (sort_dir : option string)
    (search_opts : list (string * pyval)) : M (list (string * pyval)) :=
  match sort_dir with
  | None => ret search_opts
  | Some d =>
      if str_in d SORT_DIR_VALUES
      then ret (dict_set "sort_dir" (VStr d) search_opts)
      else raise sort_dir_error
  end.

(** [if sort_key is not None: ...], as the share-group managers write it. *)
Definition with_sort_key (values : list string) (sort_key : option string)
    (search_opts : list (string * pyval)) : M (list (string * pyval)) :=
  match sort_key with
  | None => ret search_opts
  | Some k =>
      if str_in k values
      then ret (dict_set "sort_key" (VStr k) search_opts)
      else raise (sort_key_error values)
  end.

(** [search_opts or {}]. *)
Definition or_empty (search_opts : option (list (string * pyval))) : list (string * pyval) :=
  match search_opts with
  | Some d => d
  | None => []
  end.

(** Unpacking of positional arguments for the methods kept in the registry. *)
Definition method1 (f : Manager -> target -> M pyval) : pyfun := fun args =>
  match args with
  | [OManager self; a] => let* t := lift (as_target a) in f self t
  | _ => raise TypeError
  end.

Definition method2 (f : Manager -> target -> pyval -> M pyval) : pyfun := fun args =>
  match args with
  | [OManager self; a; OVal x] => let* t := lift (as_target a) in f self t x
  | _ => raise TypeError
  end.

Definition method3 (f : Manager -> target -> pyval -> pyval -> M pyval) : pyfun := fun args =>
  match args with
  | [OManager self; a; OVal x; OVal y] => let* t := lift (as_target a) in f self t x y
  | _ => raise TypeError
  end.

(** ** [manilaclient/v2/shares.py] *)

Module ShareManager.

Definition _action (self : Manager) (action : string) (share : target)
    (info : pyval) : M pyval :=
  let body := VDict [(action, info)] in
  let* body := run_hooks self "modify_body_for_action" body in
  let url := "/shares/" ++ py_str (getid share) ++ "/action" in
  http (client (api self)) POST url (Some body).

Definition _do_migrate_share (self : Manager) (share : target)
    (host force_host_copy : pyval) (action_name : string) : M pyval :=
  _action self action_name share
    (VDict [("host", host); ("force_host_copy", force_host_copy)]).

(** [@api_versions.wraps("2.5", "2.6")] *)
Definition migrate_share_2_5 (self : Manager) (share : target)
    (host force_host_copy : pyval) : M pyval :=
  _do_migrate_share self share host force_host_copy "os-migrate_share".

(** [@api_versions.wraps("2.7")] *)
Definition migrate_share_2_7 (self : Manager) (share : target)
    (host force_host_copy : pyval) : M pyval :=
  _do_migrate_share self share host force_host_copy "migrate_share".

Definition _do_force_delete (self : Manager) (share : target)
    (action_name : string) : M pyval :=
  _action self action_name share VNone.

(** [@api_versions.wraps("1.0", "2.6")] *)
Definition force_delete_1_0 (self : Manager) (share : target) : M pyval :=
  _do_force_delete self share "os-force_delete".

(** [@api_versions.wraps("2.7")] *)
Definition force_delete_2_7 (self : Manager) (share : target) : M pyval :=
  _do_force_delete self share "force_delete".

Definition _do_reset_state (self : Manager) (share : target) (state : pyval)
    (action_name : string) : M pyval :=
  _action self action_name share (VDict [("status", state)]).

(** [@api_versions.wraps("1.0", "2.6")] *)
Definition reset_state_1_0 (self : Manager) (share : target) (state : pyval) : M pyval :=
  _do_reset_state self share state "os-reset_status".

(** [@api_versions.wraps("2.7")] *)
Definition reset_state_2_7 (self : Manager) (share : target) (state : pyval) : M pyval :=
  _do_reset_state self share state "reset_status".

Definition _do_allow (self : Manager) (share : target)
    (access_type access access_level : pyval) (action_name : string) : M pyval :=
  let access_params := [("access_type", access_type); ("access_to", access)] in
  let access_params :=
    if truthy access_level
    then dict_set "access_level" access_level access_params
    else access_params in
  let* answer := _action self action_name share (VDict access_params) in
  lift (getitem answer "access").

(** [@api_versions.wraps("1.0", "2.6")] *)
Definition allow_1_0 (self : Manager) (share : target)
    (access_type access access_level : pyval) : M pyval :=
  _do_allow self share access_type access access_level "os-allow_access".

(** [@api_versions.wraps("2.7")] *)
Definition allow_2_7 (self : Manager) (share : target)
    (access_type access access_level : pyval) : M pyval :=
  _do_allow self share access_type access access_level "allow_access".

(** The query string of [list], lines 342 to 351. *)
Definition query_string (search_opts : Datatypes.list (string * pyval)) : string :=
  let search_opts :=
    if dict_has "is_public" search_opts then search_opts
    else dict_set "is_public" (VBool true) search_opts in
  match search_opts with
  | [] => ""
  | _ =>
      let qs := urlencode (query_params search_opts) in
      if String.eqb qs "" then "" else "?" ++ qs
  end.

Definition list (K : Constants) (self : Manager) (detailed : bool)
    (search_opts : option (Datatypes.list (string * pyval)))
    (sort_key sort_dir : option string) : M pyval :=
  let search_opts := match search_opts with None => [] | Some d => d end in
  let* search_opts :=
    match sort_key with
    | None => ret search_opts
    | Some k =>
        if str_in k (SHARE_SORT_KEY_VALUES K) then
          let so := dict_set "sort_key" (VStr k) search_opts in
          (* aliases are replaced by the keys they stand for *)
          ret (if String.eqb k "share_type"
               then dict_set "sort_key" (VStr "share_type_id") so
               else if String.eqb k "snapshot"
               then dict_set "sort_key" (VStr "snapshot_id") so
               else if String.eqb k "share_network"
               then dict_set "sort_key" (VStr "share_network_id") so
               else so)
        else raise (sort_key_error (SHARE_SORT_KEY_VALUES K))
    end in
  let* search_opts := with_sort_dir sort_dir search_opts in
  let path :=
    if detailed then "/shares/detail" ++ query_string search_opts
    else "/shares" ++ query_string search_opts in
  _list self path "shares".

End ShareManager.

(** The registry as the declarations of [shares.py] populate it, in source
    order. *)
Definition v (major minor : Z) : APIVersion := mkVersion major minor.

Definition shares_registry : gmap string (list VersionedMethod) :=
  fold_left (fun reg declare => declare reg)
    [ wraps (v 2 5) (Some (v 2 6)) "migrate_share" (method3 ShareManager.migrate_share_2_5);
      wraps (v 2 7) None "migrate_share" (method3 ShareManager.migrate_share_2_7);
      wraps (v 1 0) (Some (v 2 6)) "force_delete" (method1 ShareManager.force_delete_1_0);
      wraps (v 2 7) None "force_delete" (method1 ShareManager.force_delete_2_7);
      wraps (v 1 0) (Some (v 2 6)) "reset_state" (method2 ShareManager.reset_state_1_0);
      wraps (v 2 7) None "reset_state" (method2 ShareManager.reset_state_2_7) ]
    ∅.

(** What the name [ShareManager.force_delete] is bound to once the class is
    defined: the dispatcher over the registry. *)
Definition ShareManager_force_delete : pyfun := dispatch shares_registry "force_delete".
Definition ShareManager_migrate_share : pyfun := dispatch shares_registry "migrate_share".

Definition method4
    (f : Manager -> target -> pyval -> pyval -> pyval -> M pyval) : pyfun := fun args =>
  match args with
  | [OManager self; a; OVal x; OVal y; OVal z] =>
      let* t := lift (as_target a) in f self t x y z
  | _ => raise TypeError
  end.

(** The bindings the declarations of [allow] add to the registry (what is
    kept under one name depends on the declarations of that name only). *)
Definition share_allow_registry : gmap string (list VersionedMethod) :=
  fold_left (fun reg declare => declare reg)
    [ wraps (v 1 0) (Some (v 2 6)) "allow" (method4 ShareManager.allow_1_0);
      wraps (v 2 7) None "allow" (method4 ShareManager.allow_2_7) ]
    ∅.

Definition ShareManager_allow : pyfun := dispatch share_allow_registry "allow".


(** [base.Manager._delete]: one DELETE on the resource path. *)
Definition _delete (self : Manager) (url : string) : M pyval :=
  http (client (api self)) DELETE url None ;;
  ret VNone.

(** [ShareManager.delete_metadata]: [for key in keys: self._delete(...)],
    with the share id already taken. *)
Fixpoint delete_metadata_loop (self : Manager) (share_id : string)
    (keys : list string) : M pyval :=
  match keys with
  | [] => ret VNone
  | key :: rest =>
      _delete self ("/shares/" ++ share_id ++ "/metadata/" ++ key) ;;
      delete_metadata_loop self share_id rest
  end.

Definition ShareManager_delete_metadata (self : Manager) (share : target)
    (keys : list string) : M pyval :=
  let share_id := getid share in
  delete_metadata_loop self (py_str share_id) keys.

(** ** [manilaclient/v2/share_group_replicas.py]

    The functions of the class as they are written, under their decorators:
    [_action] apart, each is handed to [api_versions.experimental_api] and
    the result to [api_versions.wraps], and it is that last result the
    method name is bound to (see the section on the decorated methods
    below). *)

Module ShareGroupReplicaManager.

Definition RESOURCES_PATH : string := "/share-group-replicas".
Definition RESOURCE_PATH (id : string) : string := "/share-group-replicas/" ++ id.
Definition RESOURCE_PATH_ACTION (id : string) : string :=
  "/share-group-replicas/" ++ id ++ "/action".
Definition RESOURCES_NAME : string := "share_group_replicas".
Definition RESOURCE_NAME : string := "share_group_replica".

Definition create (self : Manager) (share_group : target) : M pyval :=
  let share_group_id := getid share_group in
  let body := VDict [("share_group_id", share_group_id)] in
  _create self RESOURCES_PATH (VDict [(RESOURCE_NAME, body)]) RESOURCE_NAME.

Definition get (self : Manager) (share_group_replica : target) : M pyval :=
  let share_group_replica_id := getid share_group_replica in
  let url := RESOURCE_PATH (py_str share_group_replica_id) in
  _get self url RESOURCE_NAME.

(** The filters handed to [_build_query_string], or the ValueError. *)
Definition list_filters (K : Constants) (share_group : target)
    (search_opts : option (Datatypes.list (string * pyval)))
    (sort_key sort_dir : option string) : M (Datatypes.list (string * pyval)) :=
  let search_opts := or_empty search_opts in
  let search_opts :=
    if truthy_target share_group
    then dict_set "share_id" (getid share_group) search_opts
    else search_opts in
  let* search_opts :=
    with_sort_key (SHARE_GROUP_REPLICA_SORT_KEY_VALUES K) sort_key search_opts in
  with_sort_dir sort_dir search_opts.

Definition _action (self : Manager) (share_group_replica : target)
    (action : string) (info : pyval) : M pyval :=
  let share_group_replica_id := getid share_group_replica in
  let url := RESOURCE_PATH_ACTION (py_str share_group_replica_id) in
  let body := VDict [(action, info)] in
  http (client (api self)) POST url (Some body) ;;
  ret VNone.

Definition delete (self : Manager) (share_group_replica : target)
    (force : bool) : M pyval :=
  let share_group_replica_id := getid share_group_replica in
  if force then
    let url := RESOURCE_PATH_ACTION (py_str share_group_replica_id) in
    let body := VDict [("force_delete", VNone)] in
    http (client (api self)) POST url (Some body) ;;
    ret VNone
  else
    let url := RESOURCE_PATH (py_str share_group_replica_id) in
    _delete self url ;;
    ret VNone.

Definition reset_state (self : Manager) (share_group_replica : target)
    (state : pyval) : M pyval :=
  _action self share_group_replica "reset_status" (VDict [("status", state)]) ;;
  ret VNone.

Definition promote (self : Manager) (share_group_replica : target) : M pyval :=
  _action self share_group_replica "promote" VNone ;;
  ret VNone.

Definition resync (self : Manager) (share_group_replica : target) : M pyval :=
  _action self share_group_replica "resync" VNone ;;
  ret VNone.

Definition reset_replica_state (self : Manager) (share_group_replica : target)
    (replica_state : pyval) : M pyval :=
  _action self share_group_replica "reset_replica_state"
    (VDict [("replica_state", replica_state)]) ;;
  ret VNone.

Definition list (K : Constants) (self : Manager) (share_group : target)
    (detailed : bool) (search_opts : option (Datatypes.list (string * pyval)))
    (sort_key sort_dir : option string) : M pyval :=
  let* search_opts := list_filters K share_group search_opts sort_key sort_dir in
  let query_string := _build_query_string search_opts in
  let url :=
    if detailed then RESOURCES_PATH ++ "/detail" ++ query_string
    else RESOURCES_PATH ++ query_string in
  _list self url RESOURCES_NAME.

End ShareGroupReplicaManager.

(** ** [manilaclient/v2/share_group_instances.py]

    Again the functions under their decorators; [_action] has none. *)

Module ShareGroupInstanceManager.

Definition RESOURCES_PATH : string := "/share-group-instances".
Definition RESOURCE_PATH (id : string) : string := "/share-group-instances/" ++ id.
Definition RESOURCE_PATH_ACTION (id : string) : string :=
  "/share-group-instances/" ++ id ++ "/action".
Definition RESOURCES_NAME : string := "share_group_instances".
Definition RESOURCE_NAME : string := "share_group_instance".

Definition get (self : Manager) (share_group_instance : target) : M pyval :=
  let share_group_instance_id := getid share_group_instance in
  let url := RESOURCE_PATH (py_str share_group_instance_id) in
  _get self url RESOURCE_NAME.

Definition list_filters (K : Constants) (share_group : target)
    (search_opts : option (Datatypes.list (string * pyval)))
    (sort_key sort_dir : option string) : M (Datatypes.list (string * pyval)) :=
  let search_opts := or_empty search_opts in
  let search_opts :=
    if truthy_target share_group
    then dict_set "share_group_id" (getid share_group) search_opts
    else search_opts in
  let* search_opts :=
    with_sort_key (SHARE_GROUP_INSTANCE_SORT_KEY_VALUES K) sort_key search_opts in
  with_sort_dir sort_dir search_opts.

Definition _action (self : Manager) (share_group_instance : target)
    (action : string) (info : pyval) : M pyval :=
  let share_group_instance_id := getid share_group_instance in
  let url := RESOURCE_PATH_ACTION (py_str share_group_instance_id) in
  let body := VDict [(action, info)] in
  http (client (api self)) POST url (Some body) ;;
  ret VNone.

Definition force_delete (self : Manager) (share_group_instance : target) : M pyval :=
  _action self share_group_instance "force_delete" VNone ;;
  ret VNone.

Definition reset_state (self : Manager) (share_group_instance : target)
    (state : pyval) : M pyval :=
  _action self share_group_instance "reset_status" (VDict [("status", state)]) ;;
  ret VNone.

Definition reset_replica_state (self : Manager) (share_group_instance : target)
    (replica_state : pyval) : M pyval :=
  _action self share_group_instance "reset_replica_state"
    (VDict [("replica_state", replica_state)]) ;;
  ret VNone.

Definition list (K : Constants) (self : Manager) (share_group : target)
    (detailed : bool) (search_opts : option (Datatypes.list (string * pyval)))
    (sort_key sort_dir : option string) : M pyval :=
  let* search_opts := list_filters K share_group search_opts sort_key sort_dir in
  let query_string := _build_query_string search_opts in
  let url :=
    if detailed then RESOURCES_PATH ++ "/detail" ++ query_string
    else RESOURCES_PATH ++ query_string in
  _list self url RESOURCES_NAME.

End ShareGroupInstanceManager.

(** ** [manilaclient/v2/share_group_snapshot_instances.py]

    Again the functions under their decorators; [_action] has none. *)

Module ShareGroupSnapshotInstanceManager.

Definition RESOURCES_PATH : string := "/share-group-snapshot-instances".
Definition RESOURCE_PATH (id : string) : string := "/share-group-snapshot-instances/" ++ id.
Definition RESOURCE_PATH_ACTION (id : string) : string :=
  "/share-group-snapshot-instances/" ++ id ++ "/action".
Definition RESOURCES_NAME : string := "share_group_snapshot_instances".
Definition RESOURCE_NAME : string := "share_group_snapshot_instance".

Definition get (self : Manager) (share_group_snapshot_instance : target) : M pyval :=
  let share_group_snapshot_instance_id := getid share_group_snapshot_instance in
  let url := RESOURCE_PATH (py_str share_group_snapshot_instance_id) in
  _get self url RESOURCE_NAME.

Definition list_filters (K : Constants) (share_group_snapshot : target)
    (search_opts : option (Datatypes.list (string * pyval)))
    (sort_key sort_dir : option string) : M (Datatypes.list (string * pyval)) :=
  let search_opts := or_empty search_opts in
  let search_opts :=
    if truthy_target share_group_snapshot
    then dict_set "share_group_snapshot_id" (getid share_group_snapshot) search_opts
    else search_opts in
  let* search_opts :=
    with_sort_key (SHARE_GROUP_SNAPSHOT_INSTANCE_SORT_KEY_VALUES K) sort_key search_opts in
  let* search_opts := with_sort_dir sort_dir search_opts in
  ret (match dict_get "share_group_instance" search_opts with
       | Some inst =>
           dict_set "share_group_instance_id" (getid_value inst)
             (dict_del "share_group_instance" search_opts)
       | None => search_opts
       end).

Definition _action (self : Manager) (share_group_snapshot_instance : target)
    (action : string) (info : pyval) : M pyval :=
  let share_group_snapshot_instance_id := getid share_group_snapshot_instance in
  let url := RESOURCE_PATH_ACTION (py_str share_group_snapshot_instance_id) in
  let body := VDict [(action, info)] in
  http (client (api self)) POST url (Some body) ;;
  ret VNone.

Definition force_delete (self : Manager) (share_group_snapshot_instance : target)
    : M pyval :=
  _action self share_group_snapshot_instance "force_delete" VNone ;;
  ret VNone.

Definition reset_state (self : Manager) (share_group_snapshot_instance : target)
    (state : pyval) : M pyval :=
  _action self share_group_snapshot_instance "reset_status"
    (VDict [("status", state)]) ;;
  ret VNone.

Definition reset_replica_state (self : Manager)
    (share_group_snapshot_instance : target) (replica_state : pyval) : M pyval :=
  _action self share_group_snapshot_instance "reset_replica_state"
    (VDict [("replica_state", replica_state)]) ;;
  ret VNone.

Definition list (K : Constants) (self : Manager) (share_group_snapshot : target)
    (detailed : bool) (search_opts : option (Datatypes.list (string * pyval)))
    (sort_key sort_dir : option string) : M pyval :=
  let* search_opts :=
    list_filters K share_group_snapshot search_opts sort_key sort_dir in
  let query_string := _build_query_string search_opts in
  let url :=
    if detailed then RESOURCES_PATH ++ "/detail" ++ query_string
    else RESOURCES_PATH ++ query_string in
  _list self url RESOURCES_NAME.

End ShareGroupSnapshotInstanceManager.

(** ** The decorated methods of the share-group managers

    Every public method of the three managers is declared as

      [@api_versions.wraps(start)]
      [@api_versions.experimental_api]
      [def method(self, ...)]

    so the function is first wrapped by [experimental_api], and what
    [wraps] registers is that wrapper. *)

(** How Python binds the positional arguments of
    [list(self, share_group=None, detailed=True, search_opts=None,
          sort_key=None, sort_dir=None)]:
    an argument left out takes its default. The filters are None or a
    dictionary, the sort key and the sort direction None or text; a call
    with arguments of other types is outside the model and is given
    TypeError. *)
Definition as_flag (o : pyobj) : bool :=
  match o with
  | OVal x => truthy x
  | _ => true
  end.

Definition as_search_opts (o : pyobj) : result (option (list (string * pyval))) :=
  match o with
  | OVal (VDict d) => Return (Some d)
  | OVal x => if truthy x then Raise TypeError else Return None
  | _ => Raise TypeError
  end.

Definition as_text (o : pyobj) : result (option string) :=
  match o with
  | OVal VNone => Return None
  | OVal (VStr s) => Return (Some s)
  | _ => Raise TypeError
  end.

Definition list_method
    (f : Manager -> target -> bool -> option (list (string * pyval))
         -> option string -> option string -> M pyval) : pyfun := fun args =>
  match args with
  | OManager self :: rest =>
      if (5 <? List.length rest)%nat then raise TypeError
      else
        let* share_group := lift (as_target (List.nth 0 rest (OVal VNone))) in
        let detailed := as_flag (List.nth 1 rest (OVal (VBool true))) in
        let* search_opts := lift (as_search_opts (List.nth 2 rest (OVal VNone))) in
        let* sort_key := lift (as_text (List.nth 3 rest (OVal VNone))) in
        let* sort_dir := lift (as_text (List.nth 4 rest (OVal VNone))) in
        f self share_group detailed search_opts sort_key sort_dir
  | _ => raise TypeError
  end.

(** [delete(self, share_group_replica, force=False)]. *)
Definition delete_method (f : Manager -> target -> bool -> M pyval) : pyfun := fun args =>
  match args with
  | [OManager self; a] => let* t := lift (as_target a) in f self t false
  | [OManager self; a; force] => let* t := lift (as_target a) in f self t (as_flag force)
  | _ => raise TypeError
  end.

(** The wrappers [experimental_api] makes of the three [list] functions:
    these are the callables handed to [api_versions.wraps]. *)
Definition ShareGroupReplicaManager_list (K : Constants) : pyfun :=
  experimental_api (list_method (ShareGroupReplicaManager.list K)).

Definition ShareGroupInstanceManager_list (K : Constants) : pyfun :=
  experimental_api (list_method (ShareGroupInstanceManager.list K)).

Definition ShareGroupSnapshotInstanceManager_list (K : Constants) : pyfun :=
  experimental_api (list_method (ShareGroupSnapshotInstanceManager.list K)).

(** The name a wrapper of [experimental_api] is registered under.
    [experimental_api] returns its inner function [_decorator] as it is
    (it does not copy the name of the function it wraps), and the registry
    is keyed by the callable's own name: every method below is filed, and
    later looked up, under [_decorator]. *)
Definition wrapper_name : string := "_decorator".

(** The declarations of each module, in source order: the start version
    given to [api_versions.wraps] (none has an end version) and the wrapper
    it receives. *)
Definition share_group_replicas_py (K : Constants) : list (APIVersion * pyfun) :=
  [ (v 2 56, experimental_api (method1 ShareGroupReplicaManager.create));
    (v 2 56, experimental_api (method1 ShareGroupReplicaManager.get));
    (v 2 56, ShareGroupReplicaManager_list K);
    (v 2 56, experimental_api (delete_method ShareGroupReplicaManager.delete));
    (v 2 56, experimental_api (method2 ShareGroupReplicaManager.reset_state));
    (v 2 56, experimental_api (method1 ShareGroupReplicaManager.promote));
    (v 2 56, experimental_api (method1 ShareGroupReplicaManager.resync));
    (v 2 11, experimental_api (method2 ShareGroupReplicaManager.reset_replica_state)) ].

Definition share_group_instances_py (K : Constants) : list (APIVersion * pyfun) :=
  [ (v 2 56, experimental_api (method1 ShareGroupInstanceManager.get));
    (v 2 56, ShareGroupInstanceManager_list K);
    (v 2 56, experimental_api (method1 ShareGroupInstanceManager.force_delete));
    (v 2 56, experimental_api (method2 ShareGroupInstanceManager.reset_state));
    (v 2 56, experimental_api (method2 ShareGroupInstanceManager.reset_replica_state)) ].

Definition share_group_snapshot_instances_py (K : Constants)
    : list (APIVersion * pyfun) :=
  [ (v 2 56, experimental_api (method1 ShareGroupSnapshotInstanceManager.get));
    (v 2 56, ShareGroupSnapshotInstanceManager_list K);
    (v 2 56, experimental_api (method1 ShareGroupSnapshotInstanceManager.force_delete));
    (v 2 56, experimental_api (method2 ShareGroupSnapshotInstanceManager.reset_state));
    (v 2 56,
     experimental_api (method2 ShareGroupSnapshotInstanceManager.reset_replica_state)) ].

(** The registry once the given modules are loaded, in that order. The order
    in which the package imports its modules is not among the sources;
    [share_groups_registry] takes the three files in the order of their
    names. *)
Definition loaded (modules : list (list (APIVersion * pyfun)))
    : gmap string (list VersionedMethod) :=
  fold_left (fun reg d => wraps (fst d) None wrapper_name (snd d) reg)
    (concat modules) ∅.

Definition share_groups_registry (K : Constants) : gmap string (list VersionedMethod) :=
  loaded [ share_group_instances_py K;
           share_group_replicas_py K;
           share_group_snapshot_instances_py K ].

(** What each decorated method name of the three managers is bound to once
    the classes are defined ([ShareGroupReplicaManager.list] as much as
    [ShareGroupInstanceManager.get]): the dispatcher over the registry, for
    the name the wrappers were registered under. *)
Definition share_group_method (K : Constants) : pyfun :=
  dispatch (share_groups_registry K) wrapper_name.

(** ** [Share]: the validators of access rules *)

Module Share.

(** [len(access)] counts characters: one per character of ASCII text. *)
Definition _validate_common_name (access : string) : result unit :=
  if (String.length access =? 0)%nat || (64 <? String.length access)%nat
  then Raise (CommandError "Invalid CN (common name). Must be 1-64 chars long.")
  else Return tt.

(** The character class of [valid_username_re]: [\w] and the characters
    [. - _ ` ; ' { } [ ] \]. Among ASCII characters [\w] holds the letters,
    the digits and the underscore; the letters and digits of other scripts,
    which [\w] holds as well on a [str], are outside the model. *)
Definition is_word (c : ascii) : bool :=
  is_alpha c || is_digit c || Ascii.eqb c "_".

Definition in_class (c : ascii) : bool :=
  is_word c || has_char c ".-_`;'{}[]\".

(** How many leading characters of [s] are in the class. *)
Fixpoint class_prefix (s : string) : nat :=
  match s with
  | "" => O
  | String c s' => if in_class c then S (class_prefix s') else O
  end.

(** [$] without the MULTILINE flag: at the end of the string, or just
    before a newline that ends it. *)
Definition at_dollar (s : string) : bool :=
  String.eqb s "" || String.eqb s (String nl "").

(** [re.match('[...]{4,32}$', s)]: the match starts at the first character;
    the repetition takes as many class characters as it can, at most 32, and
    gives them back one at a time, down to 4, until [$] matches. *)
Definition re_match_username (s : string) : bool :=
  let most := Nat.min 32 (class_prefix s) in
  existsb (fun n => at_dollar (string_drop n s)) (rev (seq 4 (most - 3))).

Definition username_exc_str : string :=
  "Invalid user or group name. Must be 4-32 characters and consist of alphanumeric characters and special characters ]{.-_'`;}[\".

Definition _validate_username (access : string) : result unit :=
  let username := access in
  if negb (re_match_username username)
  then Raise (CommandError username_exc_str)
  else Return tt.

Definition ip_exc_str : string :=
  "Supported ip format examples:" ++ String nl (String tab "10.0.0.2, 10.0.0.0/24").

(** [for item in ip_range: ...] *)
Fixpoint check_octets (items : list string) : result unit :=
  match items with
  | [] => Return tt
  | item :: rest =>
      match py_int item with
      | Some n =>
          if (0 <=? n) && (n <=? 255) then check_octets rest
          else Raise (CommandError ip_exc_str)
      | None => Raise (CommandError ip_exc_str)
      end
  end.

Definition _validate_ip_range (ip_range : string) : result unit :=
  let ip_range := split "/" ip_range in
  if (2 <? length ip_range)%nat then Raise (CommandError ip_exc_str)
  else
    and_then
      (if (length ip_range =? 2)%nat then
         let msg := "IP prefix should be in range from 0 to 32" in
         match py_int (nth 1 ip_range "") with
         | Some prefix =>
             if (prefix <? 0) || (32 <? prefix) then Raise (CommandError msg)
             else Return tt
         | None => Raise (CommandError msg)
         end
       else Return tt)
      (fun _ =>
         let ip_range := split "." (nth 0 ip_range "") in
         if negb (length ip_range =? 4)%nat then Raise (CommandError ip_exc_str)
         else check_octets ip_range).

Definition _validate_access (access_type access : string) : result unit :=
  if String.eqb access_type "ip" then _validate_ip_range access
  else if String.eqb access_type "user" then _validate_username access
  else if String.eqb access_type "cert" then _validate_common_name (strip access)
  else Raise (CommandError "Only ip, user, and cert types are supported").

End Share.

(** ** [manilaclient/osc/utils.py] *)

Module utils.

(** The loop of [extract_properties], with the dictionary built so far. *)
Fixpoint extract_properties_loop (result_dict : list (string * string))
    (properties : list string) : result (list (string * string)) :=
  match properties with
  | [] => Return result_dict
  | item :: rest =>
      match split_once "=" item with
      | Some (key, value) =>
          if dict_has key result_dict
          then Raise (CommandError ("Argument '" ++ key ++ "' is specified twice."))
          else extract_properties_loop (dict_set key value result_dict) rest
      | None =>
          Raise (CommandError
                   ("Parsing error, expected format 'key=value' for " ++ item))
      end
  end.

Definition extract_properties (properties : list string)
    : result (list (string * string)) :=
  extract_properties_loop [] properties.

(** The loop of [extract_key_value_options] over [pairs.items()]. *)
Fixpoint extract_key_value_options_loop (result_dict : list (string * string))
    (duplicate_options : list string) (items : list (string * string))
    : list (string * string) * list string :=
  match items with
  | [] => (result_dict, duplicate_options)
  | (attr, value) :: rest =>
      if negb (dict_has attr result_dict)
      then extract_key_value_options_loop (dict_set attr value result_dict)
             duplicate_options rest
      else extract_key_value_options_loop result_dict
             (duplicate_options ++ [attr])%list rest
  end.

Definition extract_key_value_options (pairs : option (list (string * string)))
    : result (list (string * string)) :=
  let pairs := match pairs with Some d => d | None => [] end in   (* pairs or {} *)
  let (result_dict, duplicate_options) :=
    extract_key_value_options_loop [] [] pairs in
  if match pairs with [] => false | _ => true end
     && (0 <? length duplicate_options)%nat
  then
    let duplicate_str := join ", " duplicate_options in
    Raise (CommandError ("Following options were duplicated: " ++ duplicate_str))
  else Return result_dict.

(** One line [key : value] per key, looked up again in the dictionary. *)
Definition format_properties (properties : list (string * pyval)) : string :=
  join (String nl "")
    (map (fun item =>
            fst item ++ " : "
            ++ py_str (default VNone (dict_get (fst item) properties)))
       properties).

End utils.

(** [Share.allow]: the resource checks the rule, then asks its manager. *)
Definition Share_allow (manager : Manager) (id : string)
    (access_type access : string) (access_level : pyval) : M pyval :=
  lift (Share._validate_access access_type access) ;;
  ShareManager_allow
    [OManager manager; OResource id; OVal (VStr access_type); OVal (VStr access);
     OVal access_level].

(** ** Vocabulary of the statements *)

(** The world the wrapped function of [experimental_api] starts in. *)
Definition mark_experimental (c : Client) (w : world) : world :=
  snd (setitem (default_headers (client c)) EXPERIMENTAL_HTTP_HEADER "true" w).

Definition entry_world (first : pyobj) (w : world) : world :=
  match first with
  | OV1Client c => mark_experimental c w
  | _ => w
  end.

(** A call whose value is thrown away: an exception still propagates. *)
Definition discard_result (r : result pyval * world) : result pyval * world :=
  match r with
  | (Return _, w) => (Return VNone, w)
  | (Raise e, w) => (Raise e, w)
  end.

Definition header_set (h : HTTPClient) (w : world) : Prop :=
  deref (default_headers h) w !! EXPERIMENTAL_HTTP_HEADER = Some "true".

(** The events of a run of hooks from position [index], and how it ends. *)
Fixpoint hooked (index : nat) (hs : list hook) (body : pyval)
    : list event * result pyval :=
  match hs with
  | [] => ([], Return body)
  | h :: hs' =>
      match h body with
      | Return body' =>
          let (evs, r) := hooked (S index) hs' body' in
          (EvHook index body :: evs, r)
      | Raise e => ([EvHook index body], Raise e)
      end
  end.

Definition log_more (w : world) (evs : list event) : world :=
  mkWorld (w_heap w) (w_log w ++ evs) (w_service w).

Definition hook_index (e : event) : option nat :=
  match e with
  | EvHook i _ => Some i
  | EvHttp _ => None
  end.

Definition is_http (e : event) : bool :=
  match e with
  | EvHttp _ => true
  | EvHook _ _ => false
  end.

(** The request a manager sends through its transport in world [w]. *)
Definition request_of (self : Manager) (w : world) (m : http_method)
    (url : string) (body : option pyval) : request :=
  mkRequest m url body (deref (default_headers (client (api self))) w).

(** A sort key or a sort direction that is given and not allowed. *)
Definition rejected (values : list string) (x : option string) : Prop :=
  exists s, x = Some s /\ str_in s values = false.

Definition key_le {V} (a b : string * V) : Prop := String.leb (fst a) (fst b) = true.

(** The positional arguments of a call
    [list(share_group, detailed, search_opts, sort_key, sort_dir)] on the
    manager [self]. *)
Definition opts_arg (search_opts : option (list (string * pyval))) : pyobj :=
  OVal (match search_opts with
        | Some d => VDict d
        | None => VNone
        end).

Definition text_arg (x : option string) : pyobj :=
  OVal (match x with
        | Some s => VStr s
        | None => VNone
        end).

Definition list_args (self : Manager) (share_group : target) (detailed : bool)
    (search_opts : option (list (string * pyval)))
    (sort_key sort_dir : option string) : list pyobj :=
  [OManager self; of_target share_group; OVal (VBool detailed);
   opts_arg search_opts; text_arg sort_key; text_arg sort_dir].

(** ** Sample objects for the closed instances *)

Definition sample_transport : HTTPClient := {| default_headers := 1%positive |}.

Definition client_at (ver : APIVersion) : Client :=
  {| client := sample_transport; api_version := ver |}.

Definition manager_at (ver : APIVersion) : Manager :=
  {| api := client_at ver; hooks := [] |}.

(** A service that answers every request with the same replica document. *)
Definition replica_doc : pyval :=
  VDict [("share_group_replica", VDict [("id", VStr "r1")]);
         ("share_group_replicas", VList [VDict [("id", VStr "r1")]]);
         ("shares", VList [])].

Definition quiet_world : world :=
  mkWorld ∅ [] (fun _ => Return replica_doc).

Definition post (url : string) (body : pyval) : event :=
  EvHttp (mkRequest POST url (Some body) ∅).

(** A hook that adds a key to the body, and a manager it is registered on
    (with one more callback under another hook type). *)
Definition tagging_hook : hook := fun body =>
  match body with
  | VDict d => Return (VDict (dict_set "tagged" (VBool true) d))
  | _ => Return body
  end.

Definition hooked_manager : Manager :=
  {| api := client_at (v 2 56);
     hooks := [("modify_body_for_action", tagging_hook);
               ("modify_body_for_update", fun _ => Raise TypeError);
               ("modify_body_for_action", fun body => Return body)] |}.

(** Allow-lists for the closed instances. *)
Definition sample_constants : Constants :=
  {| SHARE_SORT_KEY_VALUES := ["id"; "status"; "share_type_id"; "share_type"];
     SHARE_GROUP_REPLICA_SORT_KEY_VALUES := ["id"; "status"; "created_at"];
     SHARE_GROUP_INSTANCE_SORT_KEY_VALUES := ["id"; "status"; "created_at"];
     SHARE_GROUP_SNAPSHOT_INSTANCE_SORT_KEY_VALUES := ["id"; "status"; "created_at"] |}.

(** The filter mapping of the query-string scenario, in the order given. *)
Definition sample_filters : list (string * pyval) :=
  [("status", VStr "available"); ("b", VStr ""); ("a", VStr "x")].

(** What [ShareManager.list] does to the filters before it encodes them. *)
Definition with_is_public (search_opts : list (string * pyval)) : list (string * pyval) :=
  if dict_has "is_public" search_opts then search_opts
  else dict_set "is_public" (VBool true) search_opts.

(** Every character of [s] is in the class of user names. *)
Fixpoint all_class (s : string) : bool :=
  match s with
  | "" => true
  | String c s' => Share.in_class c && all_class s'
  end.

Fixpoint string_take (n : nat) (s : string) : string :=
  match n, s with
  | S n', String c s' => String c (string_take n' s')
  | _, _ => ""
  end.

(** [abcd] followed by a newline. *)
Definition name_with_newline : string := "abcd" ++ String nl "".

(** ** Vocabulary of the further statements *)

Fixpoint string_forallb (p : ascii -> bool) (s : string) : bool :=
  match s with
  | "" => true
  | String c s' => p c && string_forallb p s'
  end.

(** [s] does not hold the character [c]. *)
Definition free_of (c : ascii) (s : string) : bool :=
  string_forallb (fun x => negb (Ascii.eqb x c)) s.

(** The argument [key=value] a pair is written as. *)
Definition render_pair (kv : string * string) : string :=
  fst kv ++ "=" ++ snd kv.

(** [int(field)] succeeds with a number between [lo] and [hi]. *)
Definition int_within (lo hi : Z) (field : string) : Prop :=
  exists n, py_int field = Some n /\ lo <= n <= hi.

(** What [_validate_ip_range] asks of its argument: at most one [/], after
    it a prefix between 0 and 32, before it four fields separated by dots,
    each a number between 0 and 255. *)
Definition well_formed_ip_range (s : string) : Prop :=
  exists addr,
    (split "/" s = [addr]
     \/ exists prefix, split "/" s = [addr; prefix] /\ int_within 0 32 prefix)
    /\ length (split "." addr) = 4%nat
    /\ Forall (int_within 0 255) (split "." addr).

(** The usual way to write an address. *)
Definition dotted (a b c d : Z) : string :=
  str_of_Z a ++ "." ++ str_of_Z b ++ "." ++ str_of_Z c ++ "." ++ str_of_Z d.

(** The values whose [str] the model gives exactly: ASCII text at any depth
    and integers short enough for the interpreter to print. *)
Fixpoint ascii_value (x : pyval) : bool :=
  match x with
  | VNone | VBool _ => true
  | VInt z => Z.abs z <? 10 ^ 4299
  | VStr s => is_ascii s
  | VList l => forallb ascii_value l
  | VDict d => forallb (fun kv => is_ascii (fst kv) && ascii_value (snd kv)) d
  end.

(** The line [format_properties] writes for a pair. *)
Definition property_line (kv : string * pyval) : string :=
  fst kv ++ " : " ++ py_str (snd kv).

(** The DELETE sent for one metadata key of the share [share_id]. *)
Definition metadata_request (self : Manager) (w : world) (share_id key : string) : request :=
  request_of self w DELETE ("/shares/" ++ share_id ++ "/metadata/" ++ key) None.

Definition metadata_delete (self : Manager) (w : world) (share_id key : string) : event :=
  EvHttp (metadata_request self w share_id key).

(** The parameters of an access rule as [_do_allow] sends them. *)
Definition access_params (access_type access access_level : pyval) : list (string * pyval) :=
  [("access_type", access_type); ("access_to", access)]
  ++ (if truthy access_level then [("access_level", access_level)] else []).

(** A sort argument that is absent or in its allow-list. *)
Definition accepted (values : list string) (x : option string) : Prop :=
  match x with
  | None => True
  | Some s => str_in s values = true
  end.

(** The key [ShareManager.list] sorts by when asked for [sort_key]. *)
Definition sort_key_sent (sort_key : string) : string :=
  if String.eqb sort_key "share_type" then "share_type_id"
  else if String.eqb sort_key "snapshot" then "snapshot_id"
  else if String.eqb sort_key "share_network" then "share_network_id"
  else sort_key.

(** The characters a quoted key or value is made of. *)
Definition url_safe (c : ascii) : bool :=
  is_alpha c || is_digit c || has_char c "_.-~+%".

(** A service that has no metadata key [missing] on the share [s1]. *)
Definition refusing_world : world :=
  mkWorld ∅ []
    (fun r => if String.eqb (rq_url r) "/shares/s1/metadata/missing"
              then Raise (TransportError 404)
              else Return replica_doc).

(** * Theorems *)

(** ** Version dispatch *)

Lemma find_filter_one {A} (p : A -> bool) (l : list A) (m : A) :
  List.filter p l = [m] -> find p l = Some m.
Proof.
  induction l as [|a l IH]; simpl; [discriminate|].
  destruct (p a); intros H; [|auto].
  now injection H as ->.
Qed.

Lemma find_filter_none {A} (p : A -> bool) (l : list A) :
  List.filter p l = [] -> find p l = None.
Proof.
  induction l as [|a l IH]; simpl; [reflexivity|].
  destruct (p a); [discriminate|auto].
Qed.

Lemma as_target_of_target (t : target) : as_target (of_target t) = Return t.
Proof. now destruct t. Qed.

Lemma force_delete_bindings :
  bindings shares_registry "force_delete"
  = [mkVersionedMethod "force_delete" (v 1 0) (Some (v 2 6))
       (method1 ShareManager.force_delete_1_0);
     mkVersionedMethod "force_delete" (v 2 7) None
       (method1 ShareManager.force_delete_2_7)].
Proof. reflexivity. Qed.

Lemma migrate_share_bindings :
  bindings shares_registry "migrate_share"
  = [mkVersionedMethod "migrate_share" (v 2 5) (Some (v 2 6))
       (method3 ShareManager.migrate_share_2_5);
     mkVersionedMethod "migrate_share" (v 2 7) None
       (method3 ShareManager.migrate_share_2_7)].
Proof. reflexivity. Qed.

(** [ShareManager.force_delete] at every version. *)
Lemma force_delete_by_version (self : Manager) (share : target) (w : world) :
  let ver := api_version (api self) in
  ShareManager_force_delete [OManager self; of_target share] w
  = if version_le (v 1 0) ver && version_le ver (v 2 6)
    then ShareManager._action self "os-force_delete" share VNone w
    else if version_le (v 2 7) ver
    then ShareManager._action self "force_delete" share VNone w
    else (Raise (VersionNotFoundForAPIMethod ver "force_delete"), w).
Proof.
  intros ver. unfold ShareManager_force_delete, dispatch, bind, lift.
  cbn [get_api_version]. rewrite force_delete_bindings.
  cbn [find]. unfold in_window. cbn [start_version end_version]. fold ver.
  rewrite andb_true_r.
  destruct (version_le (v 1 0) ver && version_le ver (v 2 6));
    [|destruct (version_le (v 2 7) ver)];
    cbn [func]; unfold method1, bind, lift; rewrite ?as_target_of_target; reflexivity.
Qed.

(** [ShareManager.migrate_share] at every version. *)
Lemma migrate_share_by_version (self : Manager) (share : target)
    (host force_host_copy : pyval) (w : world) :
  let ver := api_version (api self) in
  let info := VDict [("host", host); ("force_host_copy", force_host_copy)] in
  ShareManager_migrate_share
    [OManager self; of_target share; OVal host; OVal force_host_copy] w
  = if version_le (v 2 5) ver && version_le ver (v 2 6)
    then ShareManager._action self "os-migrate_share" share info w
    else if version_le (v 2 7) ver
    then ShareManager._action self "migrate_share" share info w
    else (Raise (VersionNotFoundForAPIMethod ver "migrate_share"), w).
Proof.
  intros ver info. unfold ShareManager_migrate_share, dispatch, bind, lift.
  cbn [get_api_version]. rewrite migrate_share_bindings.
  cbn [find]. unfold in_window. cbn [start_version end_version]. fold ver.
  rewrite andb_true_r.
  destruct (version_le (v 2 5) ver && version_le ver (v 2 6));
    [|destruct (version_le (v 2 7) ver)];
    cbn [func]; unfold method3, bind, lift; rewrite ?as_target_of_target; reflexivity.
Qed.

(** C1. A version-gated operation called at a version that lies in exactly
    one registered window runs the implementation of that window on the
    original arguments and returns what it returns; called at a version that
    lies in no registered window it raises VersionNotFoundForAPIMethod and
    leaves the world as it was: no implementation has run. So
    [ShareManager.force_delete], registered for [1.0, 2.6] and from 2.7 on,
    posts the action [os-force_delete] in the first window, [force_delete]
    in the second and raises outside both. *)
Theorem dispatch_selects_window
    (reg : gmap string (list VersionedMethod)) (name : string)
    (first : pyobj) (rest : list pyobj) (ver : APIVersion) (w : world) :
  get_api_version first = Return ver ->
  (forall m, List.filter (in_window ver) (bindings reg name) = [m] ->
     dispatch reg name (first :: rest) w = func m (first :: rest) w)
  /\ (List.filter (in_window ver) (bindings reg name) = [] ->
     dispatch reg name (first :: rest) w
     = (Raise (VersionNotFoundForAPIMethod ver name), w))
  /\ (forall self share,
     api_version (api self) = ver ->
     ShareManager_force_delete [OManager self; of_target share] w
     = if version_le (v 1 0) ver && version_le ver (v 2 6)
       then ShareManager._action self "os-force_delete" share VNone w
       else if version_le (v 2 7) ver
       then ShareManager._action self "force_delete" share VNone w
       else (Raise (VersionNotFoundForAPIMethod ver "force_delete"), w)).
Proof.
  intros Hver. split; [|split].
  - intros m Hm. unfold dispatch, bind, lift. rewrite Hver.
    now rewrite (find_filter_one _ _ _ Hm).
  - intros Hnone. unfold dispatch, bind, lift. rewrite Hver.
    now rewrite (find_filter_none _ _ Hnone).
  - intros self share <-. apply force_delete_by_version.
Qed.

(** [ShareManager.force_delete] at 1.5, at 2.7 and at 0.9. *)
Lemma dispatch_selects_window_force_delete :
  ShareManager_force_delete [OManager (manager_at (v 1 5)); OResource "s1"] quiet_world
  = (Return replica_doc,
     log_more quiet_world [post "/shares/s1/action" (VDict [("os-force_delete", VNone)])])
  /\ ShareManager_force_delete [OManager (manager_at (v 2 7)); OResource "s1"] quiet_world
  = (Return replica_doc,
     log_more quiet_world [post "/shares/s1/action" (VDict [("force_delete", VNone)])])
  /\ ShareManager_force_delete [OManager (manager_at (v 0 9)); OResource "s1"] quiet_world
  = (Raise (VersionNotFoundForAPIMethod (v 0 9) "force_delete"), quiet_world).
Proof.
  unfold ShareManager_force_delete. split; [|split].
  - destruct (dispatch_selects_window shares_registry "force_delete"
                (OManager (manager_at (v 1 5))) [OResource "s1"] (v 1 5)
                quiet_world eq_refl) as (H & _ & _).
    rewrite (H (mkVersionedMethod "force_delete" (v 1 0) (Some (v 2 6))
                  (method1 ShareManager.force_delete_1_0)) eq_refl).
    reflexivity.
  - destruct (dispatch_selects_window shares_registry "force_delete"
                (OManager (manager_at (v 2 7))) [OResource "s1"] (v 2 7)
                quiet_world eq_refl) as (H & _ & _).
    rewrite (H (mkVersionedMethod "force_delete" (v 2 7) None
                  (method1 ShareManager.force_delete_2_7)) eq_refl).
    reflexivity.
  - destruct (dispatch_selects_window shares_registry "force_delete"
                (OManager (manager_at (v 0 9))) [OResource "s1"] (v 0 9)
                quiet_world eq_refl) as (_ & H & _).
    exact (H eq_refl).
Defined.

(** ** The experimental flag *)

Lemma snd_discard_result (r : result pyval * world) :
  snd (discard_result r) = snd r.
Proof. now destruct r as [[x|e] w]. Qed.

Lemma experimental_api_eq (f : pyfun) (first : pyobj) (rest : list pyobj) (w : world) :
  experimental_api f (first :: rest) w
  = discard_result (f (first :: rest) (entry_world first w)).
Proof.
  unfold experimental_api, bind, discard_result, entry_world, mark_experimental.
  destruct first; simpl;
    match goal with |- context [f ?a ?w'] => destruct (f a w') as [[x|e] w''] end;
    reflexivity.
Qed.

Lemma mark_experimental_sets (c : Client) (w : world) :
  header_set (client c) (mark_experimental c w).
Proof.
  unfold header_set, mark_experimental, deref. simpl.
  rewrite lookup_insert_eq. simpl. apply lookup_insert_eq.
Qed.

Lemma mark_experimental_frame (c : Client) (w : world) (l : loc) (k : string) :
  l <> default_headers (client c) \/ k <> EXPERIMENTAL_HTTP_HEADER ->
  deref l (mark_experimental c w) !! k = deref l w !! k.
Proof.
  unfold mark_experimental, deref. simpl. intros H.
  destruct (decide (default_headers (client c) = l)) as [<-|Hl].
  - rewrite lookup_insert_eq. simpl.
    destruct H as [H|H]; [congruence|].
    rewrite lookup_insert_ne by congruence. reflexivity.
  - now rewrite lookup_insert_ne.
Qed.

Lemma http_sends_default_headers (h : HTTPClient) (m : http_method) (url : string)
    (body : option pyval) (w : world) :
  let r := mkRequest m url body (deref (default_headers h) w) in
  http h m url body w = (w_service w r, log_more w [EvHttp r]).
Proof. reflexivity. Qed.

(** C2. Called with a v1 client first, the wrapper writes ['true'] under the
    experimental header key of that client's shared [default_headers]
    (nothing else in the store changes, nothing is logged), then runs the
    wrapped function in that world, and the world it leaves is the one the
    wrapped function left: if the function kept the key, the key is still
    set, and every later request through the same transport carries it.
    Called with anything else first, the wrapped function runs in the
    unchanged world. *)
Theorem experimental_api_sets_shared_header
    (f : pyfun) (first : pyobj) (rest : list pyobj) (w : world) :
  let args := first :: rest in
  let after := snd (experimental_api f args w) in
  match first with
  | OV1Client c =>
      let h := client c in
      let marked := mark_experimental c w in
      experimental_api f args w = discard_result (f args marked)
      /\ header_set h marked
      /\ (forall l k, l <> default_headers h \/ k <> EXPERIMENTAL_HTTP_HEADER ->
            deref l marked !! k = deref l w !! k)
      /\ w_log marked = w_log w
      /\ after = snd (f args marked)
      /\ (header_set h (snd (f args marked)) ->
          header_set h after
          /\ forall m url body, exists r,
               http h m url body after = (w_service after r, log_more after [EvHttp r])
               /\ rq_headers r !! EXPERIMENTAL_HTTP_HEADER = Some "true")
  | _ =>
      experimental_api f args w = discard_result (f args w)
      /\ after = snd (f args w)
  end.
Proof.
  intros args after. subst after args.
  rewrite experimental_api_eq, snd_discard_result.
  destruct first as [c| | |]; simpl; try (split; reflexivity).
  repeat apply conj; try reflexivity.
  - apply mark_experimental_sets.
  - apply mark_experimental_frame.
  - intros Hkept. split; [exact Hkept|].
    intros m url body. eexists. split; [apply http_sends_default_headers|].
    exact Hkept.
Qed.

(** A wrapped function that sends one request, called with a v1 client:
    the request after the call carries the header. The same call with a
    manager first leaves the headers of the transport as they were. *)
Lemma experimental_api_sets_shared_header_samples :
  let f : pyfun := fun _ => http sample_transport GET "/share-group-replicas" None in
  let after := snd (experimental_api f [OV1Client (client_at (v 2 56))] quiet_world) in
  (header_set sample_transport after
   /\ forall m url body, exists r,
        http sample_transport m url body after
        = (w_service after r, log_more after [EvHttp r])
        /\ rq_headers r !! EXPERIMENTAL_HTTP_HEADER = Some "true")
  /\ w_heap (snd (experimental_api f [OManager (manager_at (v 2 56))] quiet_world))
     = w_heap quiet_world.
Proof.
  intros f after. split.
  - pose proof (experimental_api_sets_shared_header f
                  (OV1Client (client_at (v 2 56))) [] quiet_world) as H.
    cbv beta zeta iota in H. destruct H as (_ & _ & _ & _ & _ & H).
    apply H. vm_compute. reflexivity.
  - pose proof (experimental_api_sets_shared_header f
                  (OManager (manager_at (v 2 56))) [] quiet_world) as H.
    cbv beta zeta iota in H. destruct H as [_ H].
    rewrite H. reflexivity.
Defined.

(** ** The value of a wrapped call *)


(** C3. Whatever the wrapped function returns, the wrapper returns None:
    when the function returns [x] the wrapper returns None in the world the
    function left, and no call of the wrapper returns anything but None. *)
Theorem experimental_api_returns_none
    (f : pyfun) (first : pyobj) (rest : list pyobj) (w : world) :
  (forall x w', f (first :: rest) (entry_world first w) = (Return x, w') ->
     experimental_api f (first :: rest) w = (Return VNone, w'))
  /\ (forall x w', experimental_api f (first :: rest) w = (Return x, w') ->
     x = VNone).
Proof.
  rewrite experimental_api_eq. split.
  - intros x w' ->. reflexivity.
  - intros x w'. destruct (f _ _) as [[y|e] w'']; simpl; congruence.
Qed.

(** The service answers with a replica and [ShareGroupReplicaManager.get]
    returns it; under [experimental_api] the same call gives None. *)
Lemma experimental_api_returns_none_get :
  let self := manager_at (v 2 56) in
  fst (ShareGroupReplicaManager.get self (TId (VStr "r1")) quiet_world)
  = Return (VDict [("id", VStr "r1")])
  /\ fst (experimental_api (method1 ShareGroupReplicaManager.get)
            [OManager self; OVal (VStr "r1")] quiet_world)
  = Return VNone.
Proof.
  intros self.
  destruct (experimental_api_returns_none (method1 ShareGroupReplicaManager.get)
              (OManager self) [OVal (VStr "r1")] quiet_world) as (H1 & _).
  split; [reflexivity|].
  erewrite H1; [reflexivity|]. vm_compute. reflexivity.
Defined.

(** ** Actions *)

Lemma log_more_nil (w : world) : log_more w [] = w.
Proof. destruct w. unfold log_more. simpl. now rewrite app_nil_r. Qed.

Lemma log_more_more (w : world) (evs evs' : list event) :
  log_more (log_more w evs) evs' = log_more w (evs ++ evs').
Proof. unfold log_more. simpl. now rewrite app_assoc. Qed.

Lemma run_hooks_from_hooked (hs : list hook) :
  forall index body w,
    run_hooks_from index hs body w
    = (snd (hooked index hs body), log_more w (fst (hooked index hs body))).
Proof.
  induction hs as [|h hs IH]; intros index body w; simpl.
  - now rewrite log_more_nil.
  - unfold bind, emit, lift. destruct (h body) as [body'|e]; simpl.
    + rewrite IH. destruct (hooked (S index) hs body') as [evs r]. simpl.
      unfold log_more. simpl. now rewrite <- app_assoc.
    + reflexivity.
Qed.

Lemma hooked_all_called (hs : list hook) :
  forall index body body',
    snd (hooked index hs body) = Return body' ->
    map hook_index (fst (hooked index hs body)) = map Some (seq index (length hs)).
Proof.
  induction hs as [|h hs IH]; intros index body body'; simpl; [reflexivity|].
  destruct (h body) as [b|e]; simpl; [|discriminate].
  specialize (IH (S index) b body').
  destruct (hooked (S index) hs b) as [evs r]. simpl in *.
  intros Hr. now rewrite (IH Hr).
Qed.

Lemma hooked_no_http (hs : list hook) :
  forall index body, List.filter is_http (fst (hooked index hs body)) = [].
Proof.
  induction hs as [|h hs IH]; intros index body; simpl; [reflexivity|].
  destruct (h body) as [b|e]; [|reflexivity].
  specialize (IH (S index) b). now destruct (hooked (S index) hs b).
Qed.

Lemma group_action_eq (self : Manager) (url : string) (body : pyval) (w : world) :
  (http (client (api self)) POST url (Some body) ;; ret VNone) w
  = discard_result (w_service w (request_of self w POST url (Some body)),
                    log_more w [EvHttp (request_of self w POST url (Some body))]).
Proof.
  unfold bind, http, ret, request_of, log_more, discard_result.
  now destruct (w_service w _).
Qed.

(** C4, as the code has it. [ShareManager._action] calls every hook
    registered under ['modify_body_for_action'], in registration order,
    starting from the body [{action: info}], and then issues one POST to
    [/shares/<id>/action] carrying the body as the hooks left it (the body
    [{action: info}] itself when no hook is registered). The [_action] of the
    share-group replica, instance and snapshot-instance managers issues one
    POST to [<resource-path>/<id>/action] with the body [{action: info}] and
    calls no hook. *)
Theorem action_posts_once
    (self : Manager) (action : string) (t : target) (info : pyval) (w : world) :
  let body := VDict [(action, info)] in
  let id := py_str (getid t) in
  let hs := hooks_of_type self "modify_body_for_action" in
  let sent url b := request_of self w POST url (Some b) in
  (forall body', snd (hooked 0 hs body) = Return body' ->
     ShareManager._action self action t info w
     = (w_service w (sent ("/shares/" ++ id ++ "/action") body'),
        log_more w (fst (hooked 0 hs body)
                    ++ [EvHttp (sent ("/shares/" ++ id ++ "/action") body')]))
     /\ map hook_index (fst (hooked 0 hs body)) = map Some (seq 0 (length hs))
     /\ List.filter is_http
          (fst (hooked 0 hs body) ++ [EvHttp (sent ("/shares/" ++ id ++ "/action") body')])
        = [EvHttp (sent ("/shares/" ++ id ++ "/action") body')]
     /\ (hs = [] -> body' = body))
  /\ ShareGroupReplicaManager._action self t action info w
     = discard_result
         (w_service w (sent ("/share-group-replicas/" ++ id ++ "/action") body),
          log_more w [EvHttp (sent ("/share-group-replicas/" ++ id ++ "/action") body)])
  /\ ShareGroupInstanceManager._action self t action info w
     = discard_result
         (w_service w (sent ("/share-group-instances/" ++ id ++ "/action") body),
          log_more w [EvHttp (sent ("/share-group-instances/" ++ id ++ "/action") body)])
  /\ ShareGroupSnapshotInstanceManager._action self t action info w
     = discard_result
         (w_service w (sent ("/share-group-snapshot-instances/" ++ id ++ "/action") body),
          log_more w
            [EvHttp (sent ("/share-group-snapshot-instances/" ++ id ++ "/action") body)]).
Proof.
  intros body id hs sent. split; [|split; [|split]].
  - intros body' Hrun. split; [|split; [|split]].
    + unfold ShareManager._action, run_hooks, bind. fold body hs.
      rewrite run_hooks_from_hooked, Hrun. unfold http. simpl.
      unfold log_more. simpl. now rewrite <- app_assoc.
    + exact (hooked_all_called hs 0 body body' Hrun).
    + rewrite List.filter_app, hooked_no_http. reflexivity.
    + intros Hnil. rewrite Hnil in Hrun. simpl in Hrun. congruence.
  - apply group_action_eq.
  - apply group_action_eq.
  - apply group_action_eq.
Qed.

(** Two hooks registered for actions, one of which rewrites the body: both
    are called, in order, then the rewritten body is posted. *)
Lemma action_posts_once_hooked :
  ShareManager._action hooked_manager "force_delete" (TResource "s1") VNone quiet_world
  = (Return replica_doc,
     log_more quiet_world
       [EvHook 0 (VDict [("force_delete", VNone)]);
        EvHook 1 (VDict [("force_delete", VNone); ("tagged", VBool true)]);
        post "/shares/s1/action" (VDict [("force_delete", VNone); ("tagged", VBool true)])]).
Proof.
  destruct (action_posts_once hooked_manager "force_delete" (TResource "s1") VNone
              quiet_world) as [H _].
  destruct (H (VDict [("force_delete", VNone); ("tagged", VBool true)]) eq_refl)
    as [-> _].
  reflexivity.
Defined.

(** C4 as stated fails for the share-group managers: a hook is registered
    under ['modify_body_for_action'], the action is posted, and no hook has
    been called. *)
Lemma group_action_calls_no_hook :
  let w' := snd (ShareGroupReplicaManager._action hooked_manager (TResource "r1")
                   "promote" VNone quiet_world) in
  length (hooks_of_type hooked_manager "modify_body_for_action") = 2%nat
  /\ w_log w' = [post "/share-group-replicas/r1/action" (VDict [("promote", VNone)])]
  /\ ~ (exists i b, In (EvHook i b) (w_log w')).
Proof.
  split; [reflexivity|split; [reflexivity|]].
  intros (i & b & [H|[]]). discriminate H.
Qed.

(** ** Validation of the sort arguments *)

Lemma with_sort_key_world (values : list string) (sk : option string)
    (so : list (string * pyval)) (w : world) :
  snd (with_sort_key values sk so w) = w.
Proof. unfold with_sort_key. destruct sk as [k|]; [destruct (str_in k values)|]; reflexivity. Qed.

Lemma with_sort_key_rejects (values : list string) (sk : option string)
    (so : list (string * pyval)) (w : world) :
  rejected values sk ->
  with_sort_key values sk so w = (Raise (sort_key_error values), w).
Proof. intros (k & -> & Hk). unfold with_sort_key. now rewrite Hk. Qed.

Lemma with_sort_dir_rejects (sd : option string)
    (so : list (string * pyval)) (w : world) :
  rejected SORT_DIR_VALUES sd ->
  with_sort_dir sd so w = (Raise sort_dir_error, w).
Proof. intros (d & -> & Hd). unfold with_sort_dir. now rewrite Hd. Qed.

Lemma with_sort_key_cases (values : list string) (sk : option string)
    (so : list (string * pyval)) (w : world) :
  (exists so', with_sort_key values sk so w = (Return so', w))
  \/ with_sort_key values sk so w = (Raise (sort_key_error values), w).
Proof.
  unfold with_sort_key. destruct sk as [k|]; [destruct (str_in k values)|]; eauto.
Qed.

(** The two checks in sequence, as the share-group managers run them. *)
Lemma sort_checks_reject (values : list string) (sk sd : option string)
    (so : list (string * pyval)) (w : world) :
  rejected values sk \/ rejected SORT_DIR_VALUES sd ->
  exists msg,
    (let* so1 := with_sort_key values sk so in with_sort_dir sd so1) w
    = (Raise (ValueError msg), w).
Proof.
  intros [Hk|Hd]; unfold bind.
  - rewrite (with_sort_key_rejects _ _ _ _ Hk). unfold sort_key_error. eauto.
  - destruct (with_sort_key_cases values sk so w) as [(so' & ->)| ->].
    + rewrite (with_sort_dir_rejects _ _ _ Hd). unfold sort_dir_error. eauto.
    + unfold sort_key_error. eauto.
Qed.

Lemma bind_raises {A B} (m : M A) (k : A -> M B) (e : exn) (w w' : world) :
  m w = (Raise e, w') -> (let* x := m in k x) w = (Raise e, w').
Proof. unfold bind. now intros ->. Qed.

(** The arguments of [list_args] are bound to the parameters they stand
    for. *)
Lemma list_method_args
    (f : Manager -> target -> bool -> option (list (string * pyval))
         -> option string -> option string -> M pyval)
    (self : Manager) (t : target) (detailed : bool)
    (search_opts : option (list (string * pyval)))
    (sort_key sort_dir : option string) (w : world) :
  list_method f (list_args self t detailed search_opts sort_key sort_dir) w
  = f self t detailed search_opts sort_key sort_dir w.
Proof.
  unfold list_method, list_args, bind, lift.
  cbn [List.length List.nth Nat.ltb Nat.leb].
  rewrite as_target_of_target.
  destruct search_opts, sort_key, sort_dir; reflexivity.
Qed.

(** Under [experimental_api] a [list] function called on a manager runs in
    the same world, and its value is dropped. *)
Lemma experimental_list_eq
    (f : Manager -> target -> bool -> option (list (string * pyval))
         -> option string -> option string -> M pyval)
    (self : Manager) (t : target) (detailed : bool)
    (search_opts : option (list (string * pyval)))
    (sort_key sort_dir : option string) (w : world) :
  experimental_api (list_method f)
    (list_args self t detailed search_opts sort_key sort_dir) w
  = discard_result (f self t detailed search_opts sort_key sort_dir w).
Proof.
  rewrite <- list_method_args. unfold list_args at 1.
  rewrite experimental_api_eq. reflexivity.
Qed.

Lemma replica_list_rejects (K : Constants) (self : Manager) (t : target)
    (detailed : bool) (search_opts : option (list (string * pyval)))
    (sort_key sort_dir : option string) (w : world) :
  rejected (SHARE_GROUP_REPLICA_SORT_KEY_VALUES K) sort_key
  \/ rejected SORT_DIR_VALUES sort_dir ->
  exists msg,
    ShareGroupReplicaManager.list K self t detailed search_opts sort_key sort_dir w
    = (Raise (ValueError msg), w).
Proof.
  intros H. unfold ShareGroupReplicaManager.list, ShareGroupReplicaManager.list_filters.
  destruct (sort_checks_reject _ _ _
              (if truthy_target t
               then dict_set "share_id" (getid t) (or_empty search_opts)
               else or_empty search_opts) w H) as [msg Hmsg].
  exists msg. now apply bind_raises.
Qed.

Lemma instance_list_rejects (K : Constants) (self : Manager) (t : target)
    (detailed : bool) (search_opts : option (list (string * pyval)))
    (sort_key sort_dir : option string) (w : world) :
  rejected (SHARE_GROUP_INSTANCE_SORT_KEY_VALUES K) sort_key
  \/ rejected SORT_DIR_VALUES sort_dir ->
  exists msg,
    ShareGroupInstanceManager.list K self t detailed search_opts sort_key sort_dir w
    = (Raise (ValueError msg), w).
Proof.
  intros H. unfold ShareGroupInstanceManager.list, ShareGroupInstanceManager.list_filters.
  destruct (sort_checks_reject _ _ _
              (if truthy_target t
               then dict_set "share_group_id" (getid t) (or_empty search_opts)
               else or_empty search_opts) w H) as [msg Hmsg].
  exists msg. now apply bind_raises.
Qed.

Lemma snapshot_instance_list_rejects (K : Constants) (self : Manager) (t : target)
    (detailed : bool) (search_opts : option (list (string * pyval)))
    (sort_key sort_dir : option string) (w : world) :
  rejected (SHARE_GROUP_SNAPSHOT_INSTANCE_SORT_KEY_VALUES K) sort_key
  \/ rejected SORT_DIR_VALUES sort_dir ->
  exists msg,
    ShareGroupSnapshotInstanceManager.list K self t detailed search_opts
      sort_key sort_dir w
    = (Raise (ValueError msg), w).
Proof.
  intros H. unfold ShareGroupSnapshotInstanceManager.list,
    ShareGroupSnapshotInstanceManager.list_filters.
  destruct (sort_checks_reject _ _ _
              (if truthy_target t
               then dict_set "share_group_snapshot_id" (getid t) (or_empty search_opts)
               else or_empty search_opts) w H) as [msg Hmsg].
  exists msg. apply bind_raises.
  revert Hmsg. unfold bind.
  destruct (with_sort_key _ _ _ _) as [[so1|e1] w1]; [|now intros ->].
  now intros ->.
Qed.

(** C5. [ShareManager.list] called with a sort key that is given and not in
    the allow-list of shares, or with a sort direction that is given and not
    in [SORT_DIR_VALUES], raises ValueError, and the world is as before the
    call: no request has been issued. The [list] functions of the three
    share-group managers make the same two checks first: the wrapper
    [experimental_api] makes of each, which is what the version dispatcher
    is given to run, raises ValueError on such arguments and leaves the
    world as it was. *)
Theorem list_rejects_bad_sort
    (K : Constants) (self : Manager) (t : target) (detailed : bool)
    (search_opts : option (list (string * pyval)))
    (sort_key sort_dir : option string) (w : world) :
  (rejected (SHARE_SORT_KEY_VALUES K) sort_key \/ rejected SORT_DIR_VALUES sort_dir ->
   exists msg,
     ShareManager.list K self detailed search_opts sort_key sort_dir w
     = (Raise (ValueError msg), w))
  /\ (rejected (SHARE_GROUP_REPLICA_SORT_KEY_VALUES K) sort_key
      \/ rejected SORT_DIR_VALUES sort_dir ->
   exists msg,
     ShareGroupReplicaManager_list K
       (list_args self t detailed search_opts sort_key sort_dir) w
     = (Raise (ValueError msg), w))
  /\ (rejected (SHARE_GROUP_INSTANCE_SORT_KEY_VALUES K) sort_key
      \/ rejected SORT_DIR_VALUES sort_dir ->
   exists msg,
     ShareGroupInstanceManager_list K
       (list_args self t detailed search_opts sort_key sort_dir) w
     = (Raise (ValueError msg), w))
  /\ (rejected (SHARE_GROUP_SNAPSHOT_INSTANCE_SORT_KEY_VALUES K) sort_key
      \/ rejected SORT_DIR_VALUES sort_dir ->
   exists msg,
     ShareGroupSnapshotInstanceManager_list K
       (list_args self t detailed search_opts sort_key sort_dir) w
     = (Raise (ValueError msg), w)).
Proof.
  split; [|split; [|split]].
  - intros H. unfold ShareManager.list.
    destruct sort_key as [k|].
    + destruct (str_in k (SHARE_SORT_KEY_VALUES K)) eqn:Hk.
      * destruct H as [(k' & [= <-] & Hk')|Hd]; [congruence|].
        unfold bind at 1. unfold ret at 1.
        eexists. apply bind_raises. apply (with_sort_dir_rejects _ _ _ Hd).
      * unfold sort_key_error. eexists. reflexivity.
    + destruct H as [(k' & [=] & _)|Hd].
      unfold bind at 1. unfold ret at 1.
      eexists. apply bind_raises. apply (with_sort_dir_rejects _ _ _ Hd).
  - intros H. unfold ShareGroupReplicaManager_list. rewrite experimental_list_eq.
    destruct (replica_list_rejects K self t detailed search_opts _ _ w H) as [msg ->].
    now exists msg.
  - intros H. unfold ShareGroupInstanceManager_list. rewrite experimental_list_eq.
    destruct (instance_list_rejects K self t detailed search_opts _ _ w H) as [msg ->].
    now exists msg.
  - intros H. unfold ShareGroupSnapshotInstanceManager_list.
    rewrite experimental_list_eq.
    destruct (snapshot_instance_list_rejects K self t detailed search_opts _ _ w H)
      as [msg ->].
    now exists msg.
Qed.

(** An unknown key for shares and replicas, an unknown direction for the
    instances: ValueError each time, nothing sent. *)
Lemma list_rejects_bad_sort_samples :
  (exists msg,
     ShareManager.list sample_constants (manager_at (v 2 56)) true None
       (Some "colour") None quiet_world
     = (Raise (ValueError msg), quiet_world))
  /\ (exists msg,
     ShareGroupReplicaManager_list sample_constants
       (list_args (manager_at (v 2 56)) (TResource "g1") true None
          (Some "colour") (Some "asc")) quiet_world
     = (Raise (ValueError msg), quiet_world))
  /\ (exists msg,
     ShareGroupInstanceManager_list sample_constants
       (list_args (manager_at (v 2 56)) (TResource "g1") true None
          (Some "id") (Some "up")) quiet_world
     = (Raise (ValueError msg), quiet_world))
  /\ (exists msg,
     ShareGroupSnapshotInstanceManager_list sample_constants
       (list_args (manager_at (v 2 56)) (TResource "g1") true None
          None (Some "up")) quiet_world
     = (Raise (ValueError msg), quiet_world)).
Proof.
  split; [|split; [|split]].
  - apply (list_rejects_bad_sort sample_constants (manager_at (v 2 56))
             (TResource "g1") true None (Some "colour") None quiet_world).
    left. exists "colour". split; reflexivity.
  - apply (list_rejects_bad_sort sample_constants (manager_at (v 2 56))
             (TResource "g1") true None (Some "colour") (Some "asc") quiet_world).
    left. exists "colour". split; reflexivity.
  - apply (list_rejects_bad_sort sample_constants (manager_at (v 2 56))
             (TResource "g1") true None (Some "id") (Some "up") quiet_world).
    right. exists "up". split; reflexivity.
  - apply (list_rejects_bad_sort sample_constants (manager_at (v 2 56))
             (TResource "g1") true None None (Some "up") quiet_world).
    right. exists "up". split; reflexivity.
Defined.

(** C5 as stated fails for the share-group managers: the name [list] of
    each is bound to the version dispatcher, and the dispatcher comes
    first. On a manager whose client speaks 2.10, a version no declaration
    of the three modules covers, the call with a sort key outside the
    allow-list raises VersionNotFoundForAPIMethod, not ValueError. *)
Lemma group_list_bad_sort_below_window :
  rejected (SHARE_GROUP_REPLICA_SORT_KEY_VALUES sample_constants) (Some "colour")
  /\ share_group_method sample_constants
       (list_args (manager_at (v 2 10)) (TResource "g1") true None
          (Some "colour") None) quiet_world
     = (Raise (VersionNotFoundForAPIMethod (v 2 10) "_decorator"), quiet_world).
Proof.
  split; [exists "colour"; split; reflexivity|reflexivity].
Qed.

(** ** Query strings *)

Lemma append_nil_inv (a b : string) : (a ++ b)%string = "" -> a = "" /\ b = "".
Proof. destruct a; simpl; [auto|discriminate]. Qed.

Lemma encode_pair_nonempty (kv : string * pyval) : encode_pair kv <> "".
Proof.
  unfold encode_pair. intros H.
  apply append_nil_inv in H as [_ H]. discriminate H.
Qed.

Lemma urlencode_nonempty (kv : string * pyval) (l : list (string * pyval)) :
  urlencode (kv :: l) <> "".
Proof.
  unfold urlencode. simpl. destruct (map encode_pair l).
  - apply encode_pair_nonempty.
  - intros H. apply append_nil_inv in H as [H _]. now apply encode_pair_nonempty in H.
Qed.

Lemma insert_sorted_perm {V} (kv : string * V) (l : list (string * V)) :
  Permutation (insert_sorted kv l) (kv :: l).
Proof.
  induction l as [|a l IH]; simpl; [reflexivity|].
  destruct (String.leb (fst kv) (fst a)); [reflexivity|].
  rewrite IH. apply perm_swap.
Qed.

Lemma sorted_perm {V} (l : list (string * V)) : Permutation (sorted l) l.
Proof.
  induction l as [|a l IH]; simpl; [reflexivity|].
  rewrite insert_sorted_perm. now rewrite IH.
Qed.

Lemma insert_sorted_hd {V} (a kv : string * V) (l : list (string * V)) :
  key_le a kv -> HdRel key_le a l -> HdRel key_le a (insert_sorted kv l).
Proof.
  intros Hakv Hal. destruct l as [|b l]; simpl; [now constructor|].
  destruct (String.leb (fst kv) (fst b)); constructor; [assumption|].
  now inversion Hal.
Qed.

Lemma insert_sorted_sorted {V} (kv : string * V) (l : list (string * V)) :
  Sorted key_le l -> Sorted key_le (insert_sorted kv l).
Proof.
  induction l as [|a l IH]; simpl; intros Hs.
  - repeat constructor.
  - destruct (String.leb (fst kv) (fst a)) eqn:Hle.
    + constructor; [assumption|]. now constructor.
    + inversion Hs as [|? ? Hl Hhd]; subst. constructor; [auto|].
      apply insert_sorted_hd; [|assumption].
      destruct (String.leb_total (fst kv) (fst a)) as [H|H]; [congruence|exact H].
Qed.

Lemma sorted_sorted {V} (l : list (string * V)) : Sorted key_le (sorted l).
Proof.
  induction l as [|a l IH]; simpl; [constructor|].
  now apply insert_sorted_sorted.
Qed.

Lemma share_query_string_eq (search_opts : list (string * pyval)) :
  ShareManager.query_string search_opts
  = match query_params (with_is_public search_opts) with
    | [] => ""
    | params => "?" ++ urlencode params
    end.
Proof.
  unfold ShareManager.query_string. fold (with_is_public search_opts).
  destruct (with_is_public search_opts) as [|kv so]; [reflexivity|].
  destruct (query_params (kv :: so)) as [|p ps]; [reflexivity|].
  destruct (String.eqb_spec (urlencode (p :: ps)) ""); [|reflexivity].
  now destruct (urlencode_nonempty p ps).
Qed.

(** C6, as the code has it. The query string of [ShareManager.list] is made
    from the caller's filters with [is_public=True] added when they have no
    [is_public] key: the pairs with a falsy value are dropped, the rest are
    sorted by key and URL-encoded, and a non-empty result is prefixed with
    [?]. For the scenario's mapping the encoded pairs of the mapping alone
    are [a=x&status=available], and the query string the call builds is
    [?a=x&is_public=True&status=available]. *)
Theorem share_list_query_string
    (K : Constants) (self : Manager) (detailed : bool)
    (search_opts : list (string * pyval)) (w : world) :
  let params := query_params (with_is_public search_opts) in
  ShareManager.list K self detailed (Some search_opts) None None w
  = _list self ((if detailed then "/shares/detail" else "/shares")
                ++ ShareManager.query_string search_opts) "shares" w
  /\ ShareManager.query_string search_opts
     = match params with
       | [] => ""
       | _ => "?" ++ urlencode params
       end
  /\ Permutation params (List.filter (fun kv => truthy (snd kv)) (with_is_public search_opts))
  /\ Forall (fun kv => truthy (snd kv) = true) params
  /\ Sorted key_le params
  /\ urlencode (query_params sample_filters) = "a=x&status=available"
  /\ ShareManager.query_string sample_filters = "?a=x&is_public=True&status=available".
Proof.
  intros params. repeat apply conj.
  - unfold ShareManager.list, bind, ret, with_sort_dir. now destruct detailed.
  - rewrite share_query_string_eq. subst params.
    now destruct (query_params (with_is_public search_opts)).
  - apply sorted_perm.
  - apply List.Forall_forall. intros kv Hin.
    apply (Permutation_in _ (sorted_perm _)) in Hin.
    now apply filter_In in Hin as [_ Hin].
  - apply sorted_sorted.
  - reflexivity.
  - reflexivity.
Qed.

(** C6 as stated fails on [ShareManager.list]: for the scenario's mapping the
    request goes to a URL whose query string is not [a=x&status=available]. *)
Lemma share_list_query_adds_is_public :
  ShareManager.query_string sample_filters <> "a=x&status=available"
  /\ w_log (snd (ShareManager.list sample_constants (manager_at (v 2 7)) true
                   (Some sample_filters) None None quiet_world))
     = [EvHttp (mkRequest GET "/shares/detail?a=x&is_public=True&status=available"
                  None ∅)].
Proof. split; [discriminate|reflexivity]. Qed.

(** ** [extract_properties] *)

Lemma dict_has_set {V} (k k' : string) (x : V) (d : list (string * V)) :
  dict_has k (dict_set k' x d) = String.eqb k k' || dict_has k d.
Proof.
  unfold dict_has. induction d as [|[k0 x0] d IH]; simpl.
  - now destruct (String.eqb k k').
  - destruct (String.eqb_spec k' k0) as [->|Hne]; simpl.
    + destruct (String.eqb k k0); reflexivity.
    + destruct (String.eqb_spec k k0) as [->|Hne'].
      * destruct (String.eqb_spec k0 k'); [congruence|reflexivity].
      * exact IH.
Qed.

Lemma loop_raise_is_command_error (properties : list string) :
  forall acc, is_raise (utils.extract_properties_loop acc properties) = true ->
    exists msg, utils.extract_properties_loop acc properties = Raise (CommandError msg).
Proof.
  induction properties as [|item rest IH]; intros acc; simpl; [discriminate|].
  destruct (split_once "=" item) as [[key value]|]; [|eauto].
  destruct (dict_has key acc); [eauto|apply IH].
Qed.

Lemma loop_raises_without_separator (properties : list string) (item : string) :
  In item properties -> split_once "=" item = None ->
  forall acc, is_raise (utils.extract_properties_loop acc properties) = true.
Proof.
  induction properties as [|item' rest IH]; intros Hin Hsplit acc; [destruct Hin|].
  simpl. destruct Hin as [->|Hin].
  - now rewrite Hsplit.
  - destruct (split_once "=" item') as [[key value]|]; [|reflexivity].
    destruct (dict_has key acc); [reflexivity|now apply IH].
Qed.

Lemma loop_raises_on_known_key (properties : list string) (item key value : string) :
  In item properties -> split_once "=" item = Some (key, value) ->
  forall acc, dict_has key acc = true ->
    is_raise (utils.extract_properties_loop acc properties) = true.
Proof.
  induction properties as [|item' rest IH]; intros Hin Hsplit acc Hacc; [destruct Hin|].
  simpl. destruct Hin as [->|Hin].
  - now rewrite Hsplit, Hacc.
  - destruct (split_once "=" item') as [[key' value']|]; [|reflexivity].
    destruct (dict_has key' acc); [reflexivity|].
    apply IH; [assumption..|].
    rewrite dict_has_set, Hacc. apply orb_true_r.
Qed.

Lemma loop_raises_on_repeated_key (before : list string) :
  forall acc between after item1 item2 key value1 value2,
    split_once "=" item1 = Some (key, value1) ->
    split_once "=" item2 = Some (key, value2) ->
    is_raise (utils.extract_properties_loop acc
                (before ++ item1 :: between ++ item2 :: after)) = true.
Proof.
  induction before as [|item rest IH];
    intros acc between after item1 item2 key value1 value2 H1 H2; simpl.
  - rewrite H1. destruct (dict_has key acc); [reflexivity|].
    apply (loop_raises_on_known_key _ item2 key value2); [|assumption|].
    + apply in_or_app. right. now left.
    + rewrite dict_has_set, String.eqb_refl. reflexivity.
  - destruct (split_once "=" item) as [[key' value']|]; [|reflexivity].
    destruct (dict_has key' acc); [reflexivity|].
    now apply (IH _ _ _ _ _ key value1 value2).
Qed.

(** C7. [extract_properties] maps ["a=1", "b=2"] to the dictionary
    [{"a": "1", "b": "2"}]; it raises CommandError whenever two elements
    have the same key, as ["a=1", "a=2"] do, and whenever an element has no
    [=], as ["bogus"] does. *)
Theorem extract_properties_pairs :
  utils.extract_properties ["a=1"; "b=2"] = Return [("a", "1"); ("b", "2")]
  /\ utils.extract_properties ["a=1"; "a=2"]
     = Raise (CommandError "Argument 'a' is specified twice.")
  /\ utils.extract_properties ["bogus"]
     = Raise (CommandError "Parsing error, expected format 'key=value' for bogus")
  /\ (forall before between after item1 item2 key value1 value2,
        split_once "=" item1 = Some (key, value1) ->
        split_once "=" item2 = Some (key, value2) ->
        exists msg,
          utils.extract_properties (before ++ item1 :: between ++ item2 :: after)
          = Raise (CommandError msg))
  /\ (forall properties item,
        In item properties -> split_once "=" item = None ->
        exists msg, utils.extract_properties properties = Raise (CommandError msg)).
Proof.
  repeat apply conj; try reflexivity.
  - intros before between after item1 item2 key value1 value2 H1 H2.
    apply loop_raise_is_command_error.
    now apply (loop_raises_on_repeated_key _ _ _ _ _ _ key value1 value2).
  - intros properties item Hin Hsplit.
    apply loop_raise_is_command_error.
    now apply (loop_raises_without_separator _ item).
Qed.

(** A repeated key between other pairs, and an element without [=] after a
    well-formed one. *)
Lemma extract_properties_pairs_samples :
  (exists msg,
     utils.extract_properties (["x=0"] ++ "a=1" :: ["y=2"] ++ "a=3" :: ["z=4"])
     = Raise (CommandError msg))
  /\ (exists msg, utils.extract_properties ["a=1"; "bogus"] = Raise (CommandError msg)).
Proof.
  destruct extract_properties_pairs as (_ & _ & _ & Hdup & Hsep).
  split.
  - apply (Hdup ["x=0"] ["y=2"] ["z=4"] "a=1" "a=3" "a" "1" "3"); reflexivity.
  - apply (Hsep ["a=1"; "bogus"] "bogus"); [|reflexivity].
    right. left. reflexivity.
Defined.

(** ** Access rules *)

(** C8. [_validate_ip_range] returns for [10.0.0.2] and [10.0.0.0/24] and
    raises CommandError for [10.0.0.0/33] (prefix outside 0..32), for
    [10.0.0] (three octets) and for [999.0.0.1] (octet outside 0..255). *)
Theorem validate_ip_range_samples :
  Share._validate_ip_range "10.0.0.2" = Return tt
  /\ Share._validate_ip_range "10.0.0.0/24" = Return tt
  /\ Share._validate_ip_range "10.0.0.0/33"
     = Raise (CommandError "IP prefix should be in range from 0 to 32")
  /\ Share._validate_ip_range "10.0.0" = Raise (CommandError Share.ip_exc_str)
  /\ Share._validate_ip_range "999.0.0.1" = Raise (CommandError Share.ip_exc_str).
Proof. repeat apply conj; reflexivity. Qed.

(** *** User names *)

Lemma class_prefix_all (s rest : string) :
  all_class s = true ->
  match rest with
  | "" => True
  | String c _ => Share.in_class c = false
  end ->
  Share.class_prefix (s ++ rest) = String.length s.
Proof.
  intros Hall Hrest. induction s as [|c s IH]; simpl in *.
  - destruct rest as [|c rest]; [reflexivity|]. simpl. now rewrite Hrest.
  - apply andb_true_iff in Hall as [Hc Hall]. rewrite Hc. now rewrite IH.
Qed.

Lemma string_drop_app (s rest : string) :
  string_drop (String.length s) (s ++ rest) = rest.
Proof. induction s as [|c s IH]; simpl; [now destruct rest|exact IH]. Qed.

Lemma append_empty_r (s : string) : (s ++ "")%string = s.
Proof. induction s as [|c s IH]; simpl; [reflexivity|now rewrite IH]. Qed.

Lemma string_take_drop (n : nat) (s : string) :
  (string_take n s ++ string_drop n s)%string = s.
Proof.
  revert s. induction n as [|n IH]; intros [|c s]; simpl; try reflexivity.
  now rewrite IH.
Qed.

Lemma string_take_class (n : nat) (s : string) :
  (n <= Share.class_prefix s)%nat ->
  all_class (string_take n s) = true /\ String.length (string_take n s) = n.
Proof.
  revert s. induction n as [|n IH]; intros s Hn.
  - now split.
  - destruct s as [|c s]; simpl in *; [lia|].
    destruct (Share.in_class c); [|lia].
    destruct (IH s) as [Hall Hlen]; [lia|].
    rewrite Hall, Hlen. now split.
Qed.

Lemma backtracking_counts (p : nat -> bool) (most : nat) :
  existsb p (rev (seq 4 (most - 3))) = true
  <-> exists n, (4 <= n <= most)%nat /\ p n = true.
Proof.
  rewrite existsb_exists. split.
  - intros (n & Hin & Hp). exists n. split; [|assumption].
    apply in_rev, in_seq in Hin. lia.
  - intros (n & Hn & Hp). exists n. split; [|assumption].
    apply in_rev. rewrite rev_involutive. apply in_seq. lia.
Qed.

Lemma at_dollar_iff (s : string) :
  Share.at_dollar s = true <-> s = "" \/ s = String nl "".
Proof.
  unfold Share.at_dollar. rewrite orb_true_iff, !String.eqb_eq. reflexivity.
Qed.

(** Which strings the pattern matches: 4 to 32 characters of the class,
    alone or followed by one newline. *)
Lemma re_match_username_iff (s : string) :
  Share.re_match_username s = true
  <-> exists u, all_class u = true
             /\ (4 <= String.length u <= 32)%nat
             /\ (s = u \/ s = (u ++ String nl "")%string).
Proof.
  unfold Share.re_match_username. rewrite backtracking_counts. split.
  - intros (n & Hn & Hend).
    destruct (string_take_class n s) as [Hall Hlen]; [lia|].
    exists (string_take n s). rewrite Hlen. repeat split; [assumption|lia|lia|].
    apply at_dollar_iff in Hend.
    rewrite <- (string_take_drop n s) at 1 3.
    destruct Hend as [-> | ->]; [left; apply append_empty_r|now right].
  - intros (u & Hall & Hlen & [-> | ->]).
    + exists (String.length u).
      pose proof (class_prefix_all u "" Hall I) as Hp.
      pose proof (string_drop_app u "") as Hd.
      rewrite append_empty_r in Hp, Hd. rewrite Hp, Hd.
      split; [lia|reflexivity].
    + exists (String.length u).
      rewrite (class_prefix_all u (String nl "") Hall eq_refl), string_drop_app.
      split; [lia|reflexivity].
Qed.

Lemma validate_username_accepts (s : string) :
  (4 <= String.length s <= 32)%nat -> all_class s = true ->
  Share._validate_username s = Return tt.
Proof.
  intros Hlen Hall. unfold Share._validate_username.
  replace (Share.re_match_username s) with true; [reflexivity|].
  symmetry. apply re_match_username_iff. exists s. auto.
Qed.

Lemma string_length_app (a b : string) :
  String.length (a ++ b) = (String.length a + String.length b)%nat.
Proof. induction a as [|c a IH]; simpl; [reflexivity|now rewrite IH]. Qed.

Lemma validate_username_rejects_short (s : string) :
  (String.length s < 4)%nat ->
  Share._validate_username s = Raise (CommandError Share.username_exc_str).
Proof.
  intros Hlen. unfold Share._validate_username.
  destruct (Share.re_match_username s) eqn:Hm; [|reflexivity].
  apply re_match_username_iff in Hm as (u & _ & Hu & [-> | ->]); [lia|].
  rewrite string_length_app in Hlen. simpl in Hlen. lia.
Qed.

(** C9, where the code departs from it. The name [abcd] followed by a
    newline holds a character outside the class, and [_validate_username]
    returns instead of raising CommandError: the [$] of the pattern also
    matches just before a final newline. *)
Theorem validate_username_accepts_trailing_newline :
  all_class name_with_newline = false
  /\ Share.in_class nl = false
  /\ Share._validate_username name_with_newline = Return tt.
Proof. repeat apply conj; reflexivity. Qed.

(** The rest of C9 holds: names of 4 to 32 class characters are accepted,
    three-character names are rejected, and an ASCII name with a character
    outside the class is rejected unless that character is one final
    newline. *)
Lemma validate_username_otherwise (s : string) :
  ((4 <= String.length s <= 32)%nat -> all_class s = true ->
   Share._validate_username s = Return tt)
  /\ (String.length s = 3%nat ->
      Share._validate_username s = Raise (CommandError Share.username_exc_str))
  /\ (is_ascii s = true -> all_class s = false ->
      (forall u, all_class u = true -> s <> (u ++ String nl "")%string) ->
      Share._validate_username s = Raise (CommandError Share.username_exc_str)).
Proof.
  split; [apply validate_username_accepts|split].
  - intros Hlen. apply validate_username_rejects_short. lia.
  - intros _ Hbad Hnl. unfold Share._validate_username.
    destruct (Share.re_match_username s) eqn:Hm; [|reflexivity].
    apply re_match_username_iff in Hm as (u & Hall & _ & [-> | ->]).
    + congruence.
    + now destruct (Hnl u Hall).
Qed.

(** ** The filter of a share group *)

Lemma dict_get_set_eq {V} (k : string) (x : V) (d : list (string * V)) :
  dict_get k (dict_set k x d) = Some x.
Proof.
  induction d as [|[k0 x0] d IH]; simpl.
  - now rewrite String.eqb_refl.
  - destruct (String.eqb k k0) eqn:Hk; simpl; rewrite Hk; [reflexivity|exact IH].
Qed.

Lemma dict_get_set_ne {V} (k k' : string) (x : V) (d : list (string * V)) :
  k <> k' -> dict_get k (dict_set k' x d) = dict_get k d.
Proof.
  intros Hne. induction d as [|[k0 x0] d IH]; simpl.
  - now destruct (String.eqb_spec k k').
  - destruct (String.eqb_spec k' k0) as [->|Hne']; simpl.
    + now destruct (String.eqb_spec k k0).
    + destruct (String.eqb k k0); [reflexivity|exact IH].
Qed.

Lemma dict_get_In {V} (k : string) (x : V) (d : list (string * V)) :
  dict_get k d = Some x -> In (k, x) d.
Proof.
  induction d as [|[k0 x0] d IH]; simpl; [discriminate|].
  destruct (String.eqb_spec k k0) as [->|Hne].
  - intros [= ->]. now left.
  - intros H. right. now apply IH.
Qed.

Lemma with_sort_key_keeps (values : list string) (sk : option string)
    (so so' : list (string * pyval)) (w w' : world) (k : string) :
  with_sort_key values sk so w = (Return so', w') -> k <> "sort_key" ->
  w' = w /\ dict_get k so' = dict_get k so.
Proof.
  unfold with_sort_key, ret, raise. intros H Hk.
  destruct sk as [s|]; [destruct (str_in s values)|]; inversion H; subst;
    split; try reflexivity.
  now apply dict_get_set_ne.
Qed.

Lemma with_sort_dir_keeps (sd : option string)
    (so so' : list (string * pyval)) (w w' : world) (k : string) :
  with_sort_dir sd so w = (Return so', w') -> k <> "sort_dir" ->
  w' = w /\ dict_get k so' = dict_get k so.
Proof.
  unfold with_sort_dir, ret, raise. intros H Hk.
  destruct sd as [s|]; [destruct (str_in s SORT_DIR_VALUES)|]; inversion H; subst;
    split; try reflexivity.
  now apply dict_get_set_ne.
Qed.

(** Both checks passed: the world is the same and the other keys are kept. *)
Lemma sort_checks_keep (values : list string) (sk sd : option string)
    (so so' : list (string * pyval)) (w w' : world) (k : string) :
  (let* so1 := with_sort_key values sk so in with_sort_dir sd so1) w = (Return so', w') ->
  k <> "sort_key" -> k <> "sort_dir" ->
  w' = w /\ dict_get k so' = dict_get k so.
Proof.
  unfold bind. intros H Hk Hd.
  destruct (with_sort_key values sk so w) as [[so1|e] w1] eqn:H1; [|discriminate].
  destruct (with_sort_key_keeps _ _ _ _ _ _ k H1 Hk) as [-> <-].
  exact (with_sort_dir_keeps _ _ _ _ _ k H Hd).
Qed.

Lemma string_app_assoc (a b c : string) :
  ((a ++ b) ++ c)%string = (a ++ b ++ c)%string.
Proof. induction a as [|x a IH]; simpl; [reflexivity|now rewrite IH]. Qed.

Lemma is_prefix_app (p s : string) : is_prefix p (p ++ s) = true.
Proof.
  induction p as [|c p IH]; simpl; [reflexivity|].
  now rewrite Ascii.eqb_refl.
Qed.

Lemma contains_prefix (needle s : string) :
  is_prefix needle s = true -> contains needle s = true.
Proof. destruct s; simpl; now intros ->. Qed.

Lemma contains_app (needle pre post : string) :
  contains needle (pre ++ needle ++ post) = true.
Proof.
  induction pre as [|c pre IH]; simpl.
  - apply contains_prefix, is_prefix_app.
  - rewrite IH. apply orb_true_r.
Qed.

Lemma contains_suffix (needle pre s : string) :
  contains needle s = true -> contains needle (pre ++ s) = true.
Proof.
  intros H. induction pre as [|c pre IH]; simpl; [exact H|].
  rewrite IH. apply orb_true_r.
Qed.

Lemma urlencode_In (kv : string * pyval) (l : list (string * pyval)) :
  In kv l -> exists pre post, urlencode l = (pre ++ encode_pair kv ++ post)%string.
Proof.
  unfold urlencode. induction l as [|a l IH]; intros Hin; [destruct Hin|].
  destruct Hin as [->|Hin].
  - exists "". simpl. destruct (map encode_pair l).
    + exists "". now rewrite append_empty_r.
    + now eexists.
  - destruct (IH Hin) as (pre & post & Heq). simpl.
    destruct (map encode_pair l) as [|b bs] eqn:Hmap.
    + destruct l; [destruct Hin|discriminate].
    + exists (encode_pair a ++ "&" ++ pre)%string, post.
      rewrite Heq. now rewrite !string_app_assoc.
Qed.

Lemma build_query_string_contains (kv : string * pyval) (so : list (string * pyval)) :
  In kv so -> truthy (snd kv) = true ->
  contains (encode_pair kv) (_build_query_string so) = true.
Proof.
  intros Hin Htrue. unfold _build_query_string.
  assert (Hq : In kv (query_params so)).
  { unfold query_params. apply (Permutation_in _ (Permutation_sym (sorted_perm _))).
    apply filter_In. now split. }
  destruct (query_params so) as [|p ps] eqn:Hparams; [destruct Hq|].
  destruct (urlencode_In kv _ Hq) as (pre & post & ->).
  change ("?" ++ pre ++ encode_pair kv ++ post)%string
    with (("?" ++ pre) ++ encode_pair kv ++ post)%string.
  apply contains_app.
Qed.

(** C10. With a share group given, the [list] function of
    [ShareGroupReplicaManager] records its id in the filters under
    ['share_id'] and leaves ['share_group_id'] as the caller had it, so the
    query string holds [share_id=<group id>]; that of
    [ShareGroupInstanceManager] records it under ['share_group_id'] and
    leaves ['share_id'] as the caller had it, so its query string holds
    [share_group_id=<group id>]. The wrapper [experimental_api] makes of
    each, which is what the version dispatcher is given to run, sends the
    one GET with that query string and drops the list it fetched. *)
Theorem share_group_filter_key
    (K : Constants) (self : Manager) (g : target) (detailed : bool)
    (search_opts : option (list (string * pyval)))
    (sort_key sort_dir : option string) (w w' : world)
    (filters : list (string * pyval)) :
  truthy_target g = true ->
  (ShareGroupReplicaManager.list_filters K g search_opts sort_key sort_dir w
   = (Return filters, w') ->
   w' = w
   /\ dict_get "share_id" filters = Some (getid g)
   /\ dict_get "share_group_id" filters = dict_get "share_group_id" (or_empty search_opts)
   /\ ShareGroupReplicaManager_list K
        (list_args self g detailed search_opts sort_key sort_dir) w
      = discard_result
          (_list self
             (if detailed
              then "/share-group-replicas" ++ "/detail" ++ _build_query_string filters
              else "/share-group-replicas" ++ _build_query_string filters)
             "share_group_replicas" w)
   /\ (truthy (getid g) = true ->
       contains ("share_id=" ++ quote_plus (py_str (getid g)))
         (_build_query_string filters) = true))
  /\ (ShareGroupInstanceManager.list_filters K g search_opts sort_key sort_dir w
      = (Return filters, w') ->
      w' = w
      /\ dict_get "share_group_id" filters = Some (getid g)
      /\ dict_get "share_id" filters = dict_get "share_id" (or_empty search_opts)
      /\ ShareGroupInstanceManager_list K
           (list_args self g detailed search_opts sort_key sort_dir) w
         = discard_result
             (_list self
                (if detailed
                 then "/share-group-instances" ++ "/detail" ++ _build_query_string filters
                 else "/share-group-instances" ++ _build_query_string filters)
                "share_group_instances" w)
      /\ (truthy (getid g) = true ->
          contains ("share_group_id=" ++ quote_plus (py_str (getid g)))
            (_build_query_string filters) = true)).
Proof.
  intros Hg. split.
  - intros Hf.
    assert (Hlist : ShareGroupReplicaManager.list K self g detailed search_opts
                      sort_key sort_dir w
                    = (let* so := ShareGroupReplicaManager.list_filters K g search_opts
                                    sort_key sort_dir in
                       _list self
                         (if detailed
                          then "/share-group-replicas" ++ "/detail" ++ _build_query_string so
                          else "/share-group-replicas" ++ _build_query_string so)
                         "share_group_replicas") w) by reflexivity.
    unfold ShareGroupReplicaManager_list. rewrite experimental_list_eq.
    rewrite Hlist. unfold bind at 1. rewrite Hf. clear Hlist.
    unfold ShareGroupReplicaManager.list_filters in Hf. rewrite Hg in Hf.
    destruct (sort_checks_keep _ _ _ _ _ _ _ "share_id" Hf) as [-> Hid]; [discriminate..|].
    destruct (sort_checks_keep _ _ _ _ _ _ _ "share_group_id" Hf) as [_ Hgid];
      [discriminate..|].
    rewrite dict_get_set_eq in Hid. rewrite dict_get_set_ne in Hgid by discriminate.
    repeat apply conj; try assumption; try reflexivity.
    intros Htrue.
    apply (build_query_string_contains ("share_id", getid g)); [|exact Htrue].
    now apply dict_get_In.
  - intros Hf.
    assert (Hlist : ShareGroupInstanceManager.list K self g detailed search_opts
                      sort_key sort_dir w
                    = (let* so := ShareGroupInstanceManager.list_filters K g search_opts
                                    sort_key sort_dir in
                       _list self
                         (if detailed
                          then "/share-group-instances" ++ "/detail" ++ _build_query_string so
                          else "/share-group-instances" ++ _build_query_string so)
                         "share_group_instances") w) by reflexivity.
    unfold ShareGroupInstanceManager_list. rewrite experimental_list_eq.
    rewrite Hlist. unfold bind at 1. rewrite Hf. clear Hlist.
    unfold ShareGroupInstanceManager.list_filters in Hf. rewrite Hg in Hf.
    destruct (sort_checks_keep _ _ _ _ _ _ _ "share_group_id" Hf) as [-> Hgid];
      [discriminate..|].
    destruct (sort_checks_keep _ _ _ _ _ _ _ "share_id" Hf) as [_ Hid]; [discriminate..|].
    rewrite dict_get_set_eq in Hgid. rewrite dict_get_set_ne in Hid by discriminate.
    repeat apply conj; try assumption; try reflexivity.
    intros Htrue.
    apply (build_query_string_contains ("share_group_id", getid g)); [|exact Htrue].
    now apply dict_get_In.
Qed.

(** The group [g1] and no other filter: the replicas are asked for with
    [share_id=g1] and the wrapper returns None, the instances with
    [share_group_id=g1]. *)
Lemma share_group_filter_key_g1 :
  let K := sample_constants in
  let self := manager_at (v 2 56) in
  let g := TResource "g1" in
  (contains "share_id=g1" (_build_query_string [("share_id", VStr "g1")]) = true
   /\ contains "share_group_id=g1"
        (_build_query_string [("share_group_id", VStr "g1")]) = true)
  /\ ShareGroupReplicaManager_list K (list_args self g true None None None) quiet_world
     = (Return VNone,
        log_more quiet_world
          [EvHttp (mkRequest GET "/share-group-replicas/detail?share_id=g1" None ∅)])
  /\ contains "share_group_id=" "/share-group-replicas/detail?share_id=g1" = false
  /\ w_log (snd (ShareGroupInstanceManager_list K (list_args self g true None None None)
                   quiet_world))
     = [EvHttp (mkRequest GET "/share-group-instances/detail?share_group_id=g1" None ∅)].
Proof.
  intros K self g. split; [split|repeat apply conj; reflexivity].
  - destruct (share_group_filter_key K self g true None None None quiet_world quiet_world
                [("share_id", VStr "g1")] eq_refl) as [H _].
    destruct (H eq_refl) as (_ & _ & _ & _ & Hc). exact (Hc eq_refl).
  - destruct (share_group_filter_key K self g true None None None quiet_world quiet_world
                [("share_group_id", VStr "g1")] eq_refl) as [_ H].
    destruct (H eq_refl) as (_ & _ & _ & _ & Hc). exact (Hc eq_refl).
Defined.

(** C10 as stated fails on the call: the name [list] of
    [ShareGroupReplicaManager] is bound to the version dispatcher. On a
    manager whose client speaks 2.10, a version no declaration of the three
    modules covers, the call with the share group [g1] raises
    VersionNotFoundForAPIMethod: no filter is recorded and no request, so no
    query string with [share_id=g1], is issued. *)
Lemma group_list_filter_below_window :
  let call :=
    share_group_method sample_constants
      (list_args (manager_at (v 2 10)) (TResource "g1") true None None None)
      quiet_world in
  fst call = Raise (VersionNotFoundForAPIMethod (v 2 10) "_decorator")
  /\ w_log (snd call) = [].
Proof. split; reflexivity. Qed.

(** * Further properties of the code *)

(** ** [manilaclient/osc/utils.py] *)

Lemma dict_has_false_set {V} (k : string) (x : V) (d : list (string * V)) :
  dict_has k d = false -> dict_set k x d = (d ++ [(k, x)])%list.
Proof.
  unfold dict_has. induction d as [|[k0 x0] d IH]; simpl; [reflexivity|].
  destruct (String.eqb k k0); [discriminate|].
  intros H. now rewrite IH.
Qed.

Lemma dict_has_In {V} (k : string) (d : list (string * V)) :
  dict_has k d = true <-> In k (map fst d).
Proof.
  unfold dict_has. induction d as [|[k0 x0] d IH]; simpl.
  - split; [discriminate|tauto].
  - destruct (String.eqb_spec k k0) as [->|Hne].
    + split; auto.
    + rewrite IH. split; [auto|]. intros [H|H]; [congruence|assumption].
Qed.

Lemma dict_has_not_In {V} (k : string) (d : list (string * V)) :
  dict_has k d = false <-> ~ In k (map fst d).
Proof.
  rewrite <- dict_has_In. destruct (dict_has k d); split; congruence.
Qed.

(** The loop of [extract_properties], started with any dictionary. *)
Lemma extract_properties_loop_returns (properties : list string) :
  forall acc d,
    utils.extract_properties_loop acc properties = Return d
    <-> exists pairs,
          Forall2 (fun item kv => split_once "=" item = Some kv) properties pairs
          /\ List.NoDup (map fst pairs)
          /\ (forall k, In k (map fst pairs) -> ~ In k (map fst acc))
          /\ d = (acc ++ pairs)%list.
Proof.
  induction properties as [|item rest IH]; intros acc d; simpl.
  - split.
    + intros [= <-]. exists []. repeat split; try constructor.
      * intros k [].
      * now rewrite app_nil_r.
    + intros (pairs & Hf & _ & _ & ->). inversion Hf. now rewrite app_nil_r.
  - destruct (split_once "=" item) as [[key value]|] eqn:Hsplit.
    + destruct (dict_has key acc) eqn:Hhas.
      * split; [discriminate|].
        intros (pairs & Hf & _ & Hfresh & _). inversion Hf as [|? kv ? ? Hkv]; subst.
        rewrite Hsplit in Hkv. injection Hkv as <-.
        apply dict_has_In in Hhas. destruct (Hfresh key); [now left|assumption].
      * rewrite IH, (dict_has_false_set _ _ _ Hhas). apply dict_has_not_In in Hhas.
        split.
        -- intros (pairs & Hf & Hnd & Hfresh & ->).
           exists ((key, value) :: pairs). repeat split.
           ++ now constructor.
           ++ simpl. constructor; [|assumption].
              intros Hin. apply (Hfresh key Hin).
              rewrite map_app, in_app_iff. right. now left.
           ++ intros k [<-|Hin]; [assumption|].
              intros Hacc. apply (Hfresh k Hin).
              rewrite map_app, in_app_iff. now left.
           ++ now rewrite <- app_assoc.
        -- intros (pairs & Hf & Hnd & Hfresh & ->).
           inversion Hf as [|? kv ? pairs' Hkv Hf']; subst.
           rewrite Hsplit in Hkv. injection Hkv as <-.
           simpl in Hnd. inversion Hnd as [|? ? Hnotin Hnd']; subst.
           exists pairs'. repeat split; try assumption.
           ++ intros k Hin. rewrite map_app, in_app_iff. simpl.
              intros [Hacc|[<-|[]]]; [|contradiction].
              apply (Hfresh k); [now right|assumption].
           ++ now rewrite <- app_assoc.
    + split; [discriminate|].
      intros (pairs & Hf & _). inversion Hf as [|? kv ? ? Hkv]; subst. congruence.
Qed.

Lemma split_once_render (k v : string) :
  free_of "=" k = true -> split_once "=" (k ++ String "=" v) = Some (k, v).
Proof.
  unfold free_of. induction k as [|c k IH]; simpl; [reflexivity|].
  intros H. apply andb_true_iff in H as [Hc Hk].
  destruct (Ascii.eqb c "="); [discriminate|]. now rewrite (IH Hk).
Qed.

(** X1. [extract_properties] returns a dictionary exactly when every
    argument has an [=] and no key comes twice, and the dictionary then
    holds, in the order of the arguments, the text before the first [=] of
    each argument with the text after it. *)
Theorem extract_properties_returns (properties : list string)
    (d : list (string * string)) :
  utils.extract_properties properties = Return d
  <-> Forall2 (fun item kv => split_once "=" item = Some kv) properties d
      /\ List.NoDup (map fst d).
Proof.
  unfold utils.extract_properties. rewrite extract_properties_loop_returns. split.
  - intros (pairs & Hf & Hnd & _ & ->). now split.
  - intros [Hf Hnd]. exists d. repeat split; try assumption. intros k _ [].
Qed.

(** Three options, the last with [=] in its value. *)
Lemma extract_properties_returns_sample :
  utils.extract_properties ["size=10"; "name=a"; "filter=x=y"]
  = Return [("size", "10"); ("name", "a"); ("filter", "x=y")].
Proof.
  apply extract_properties_returns. split.
  - repeat constructor.
  - simpl. repeat constructor; simpl; intuition discriminate.
Defined.

(** X2. Writing each pair of a dictionary as [key=value] and reading the
    arguments back gives the dictionary again, whenever no key holds an
    [=]; the values may hold any character. *)
Theorem extract_properties_render (d : list (string * string)) :
  List.NoDup (map fst d) ->
  Forall (fun kv => free_of "=" (fst kv) = true) d ->
  utils.extract_properties (map render_pair d) = Return d.
Proof.
  intros Hnd Hfree. unfold utils.extract_properties.
  apply extract_properties_loop_returns. exists d. repeat split; try assumption.
  - induction Hfree as [|[k x] d' Hk Hd IH]; simpl; constructor.
    + now apply (split_once_render k x).
    + apply IH. now inversion Hnd.
  - intros k _ [].
Qed.

Lemma extract_properties_render_sample :
  utils.extract_properties (map render_pair [("size", "10"); ("filter", "x=y")])
  = Return [("size", "10"); ("filter", "x=y")].
Proof.
  apply extract_properties_render.
  - simpl. repeat constructor; simpl; intuition discriminate.
  - repeat constructor.
Defined.

Lemma extract_key_value_options_loop_fresh (items : list (string * string)) :
  forall acc dups,
    List.NoDup (map fst items) ->
    (forall k, In k (map fst items) -> ~ In k (map fst acc)) ->
    utils.extract_key_value_options_loop acc dups items = ((acc ++ items)%list, dups).
Proof.
  induction items as [|[attr value] rest IH]; intros acc dups Hnd Hfresh; simpl.
  - now rewrite app_nil_r.
  - assert (Hhas : dict_has attr acc = false).
    { apply dict_has_not_In, Hfresh. now left. }
    rewrite Hhas. simpl. rewrite (dict_has_false_set _ _ _ Hhas).
    inversion Hnd as [|? ? Hnotin Hnd']; subst.
    rewrite IH; [now rewrite <- app_assoc|assumption|].
    intros k Hin. rewrite map_app, in_app_iff. simpl.
    intros [Hacc|[<-|[]]]; [|contradiction].
    apply (Hfresh k); [now right|assumption].
Qed.

(** X3. Given a dictionary (its keys are distinct), [extract_key_value_options]
    never raises: it returns a dictionary with the same pairs in the same
    order; given None it returns the empty dictionary. *)
Theorem extract_key_value_options_copies (pairs : list (string * string)) :
  List.NoDup (map fst pairs) ->
  utils.extract_key_value_options (Some pairs) = Return pairs
  /\ utils.extract_key_value_options None = Return [].
Proof.
  intros Hnd. split; [|reflexivity].
  unfold utils.extract_key_value_options.
  rewrite (extract_key_value_options_loop_fresh pairs [] [] Hnd) by (intros k _ []).
  simpl. now rewrite andb_false_r.
Qed.

Lemma extract_key_value_options_copies_sample :
  utils.extract_key_value_options (Some [("a", "1"); ("b", "2")])
  = Return [("a", "1"); ("b", "2")].
Proof.
  apply extract_key_value_options_copies.
  simpl. repeat constructor; simpl; intuition discriminate.
Defined.

(** ** Addresses and user names *)

Lemma string_forallb_app (p : ascii -> bool) (a b : string) :
  string_forallb p (a ++ b) = string_forallb p a && string_forallb p b.
Proof.
  induction a as [|c a IH]; simpl; [reflexivity|].
  now rewrite IH, andb_assoc.
Qed.

Lemma string_forallb_impl (p q : ascii -> bool) (s : string) :
  (forall c, p c = true -> q c = true) ->
  string_forallb p s = true -> string_forallb q s = true.
Proof.
  intros Hpq. induction s as [|c s IH]; simpl; [reflexivity|].
  intros H. apply andb_true_iff in H as [Hc Hs].
  now rewrite (Hpq c Hc), IH.
Qed.

Lemma string_rev_snoc (s : string) (c : ascii) :
  string_rev (s ++ String c "") = String c (string_rev s).
Proof. induction s as [|x s IH]; simpl; [reflexivity|now rewrite IH]. Qed.

Lemma string_rev_involutive (s : string) : string_rev (string_rev s) = s.
Proof.
  induction s as [|c s IH]; simpl; [reflexivity|].
  now rewrite string_rev_snoc, IH.
Qed.

Lemma string_forallb_rev (p : ascii -> bool) (s : string) :
  string_forallb p (string_rev s) = string_forallb p s.
Proof.
  induction s as [|c s IH]; simpl; [reflexivity|].
  rewrite string_forallb_app, IH. simpl. rewrite andb_true_r. apply andb_comm.
Qed.

Lemma int_lstrip_no_space (s : string) :
  string_forallb (fun c => negb (is_int_space c)) s = true -> int_lstrip s = s.
Proof.
  destruct s as [|c s]; simpl; [reflexivity|].
  intros H. apply andb_true_iff in H as [Hc _].
  now destruct (is_int_space c).
Qed.

(** Text without white space is left as it is before [int] reads it. *)
Lemma int_strip_no_space (s : string) :
  string_forallb (fun c => negb (is_int_space c)) s = true -> int_strip s = s.
Proof.
  intros H. unfold int_strip. rewrite (int_lstrip_no_space s H).
  rewrite int_lstrip_no_space by now rewrite string_forallb_rev.
  apply string_rev_involutive.
Qed.

Lemma is_digit_bounds (c : ascii) : is_digit c = true -> 48 <= code c <= 57.
Proof. unfold is_digit. rewrite andb_true_iff, !Z.leb_le. tauto. Qed.

Lemma digit_not_space (c : ascii) : is_digit c = true -> negb (is_int_space c) = true.
Proof.
  intros H. apply is_digit_bounds in H. unfold is_int_space.
  apply negb_true_iff, orb_false_iff. split.
  - apply andb_false_iff. right. apply Z.leb_gt. lia.
  - apply Z.eqb_neq. lia.
Qed.

Lemma digit_not_char (x c : ascii) :
  is_digit x = false -> is_digit c = true -> negb (Ascii.eqb c x) = true.
Proof.
  intros Hx Hc. destruct (Ascii.eqb_spec c x) as [->|]; [congruence|reflexivity].
Qed.

Lemma parse_digits_step (c : ascii) (s : string) (acc : Z) (b : bool) :
  is_digit c = true ->
  parse_digits (String c s) acc b = parse_digits s (10 * acc + (code c - 48)) true.
Proof. intros H. simpl. now rewrite H. Qed.

Lemma digits_of_uint (d : Decimal.uint) :
  string_forallb is_digit (NilEmpty.string_of_uint d) = true.
Proof.
  induction d; simpl NilEmpty.string_of_uint; [reflexivity|..];
    cbn [string_forallb]; rewrite IHd; reflexivity.
Qed.

Lemma parse_digits_acc (d : Decimal.uint) :
  forall acc,
    parse_digits (NilEmpty.string_of_uint d) (Z.pos acc) true
    = Some (Z.pos (Pos.of_uint_acc d acc)).
Proof.
  induction d; intros acc; simpl NilEmpty.string_of_uint; [reflexivity|..];
    rewrite parse_digits_step by reflexivity;
    cbn [Pos.of_uint_acc]; rewrite <- IHd; f_equal;
    match goal with |- context [code ?c - 48] =>
      let k := eval vm_compute in (code c - 48) in change (code c - 48) with k
    end; lia.
Qed.

Lemma parse_digits_zero (d : Decimal.uint) :
  parse_digits (NilEmpty.string_of_uint d) 0 true = Some (Z.of_N (Pos.of_uint d)).
Proof.
  induction d; simpl NilEmpty.string_of_uint; [reflexivity|..];
    rewrite parse_digits_step by reflexivity;
    [exact IHd|..]; cbn [Pos.of_uint Z.of_N]; rewrite <- parse_digits_acc;
    reflexivity.
Qed.

(** [int(str(n))] is [n], for a number that is not negative. *)
Lemma py_int_str_of_Z (n : Z) : 0 <= n -> py_int (str_of_Z n) = Some n.
Proof.
  intros Hn. destruct n as [|p|p]; [reflexivity| |lia].
  unfold str_of_Z, py_int. cbn [Z.to_int NilZero.string_of_int].
  pose proof (DecimalPos.Unsigned.to_uint_nonnil p) as Hnil.
  pose proof (DecimalPos.Unsigned.of_to p) as Hof.
  pose proof (digits_of_uint (Pos.to_uint p)) as Hdig.
  pose proof (parse_digits_zero (Pos.to_uint p)) as Hparse.
  rewrite Hof in Hparse. cbn [Z.of_N] in Hparse.
  assert (Hstr : NilZero.string_of_uint (Pos.to_uint p)
                 = NilEmpty.string_of_uint (Pos.to_uint p)).
  { unfold NilZero.string_of_uint. now destruct (Pos.to_uint p). }
  rewrite Hstr.
  rewrite int_strip_no_space
    by (apply (string_forallb_impl is_digit); [apply digit_not_space|exact Hdig]).
  destruct (Pos.to_uint p); [congruence|..];
    simpl NilEmpty.string_of_uint in *; cbn match;
    rewrite parse_digits_step in Hparse |- * by reflexivity; exact Hparse.
Qed.

Lemma str_of_Z_digits (n : Z) : 0 <= n -> string_forallb is_digit (str_of_Z n) = true.
Proof.
  intros Hn. destruct n as [|p|p]; [reflexivity| |lia].
  unfold str_of_Z. cbn [Z.to_int NilZero.string_of_int].
  pose proof (DecimalPos.Unsigned.to_uint_nonnil p) as Hnil.
  pose proof (digits_of_uint (Pos.to_uint p)) as Hdig.
  unfold NilZero.string_of_uint. now destruct (Pos.to_uint p).
Qed.

Lemma str_of_Z_free (x : ascii) (n : Z) :
  is_digit x = false -> 0 <= n -> free_of x (str_of_Z n) = true.
Proof.
  intros Hx Hn. unfold free_of.
  apply (string_forallb_impl is_digit); [|now apply str_of_Z_digits].
  intros c Hc. now apply digit_not_char.
Qed.

Lemma split_free (sep : ascii) (s : string) :
  free_of sep s = true -> split sep s = [s].
Proof.
  unfold free_of. induction s as [|c s IH]; simpl; [reflexivity|].
  intros H. apply andb_true_iff in H as [Hc Hs].
  destruct (Ascii.eqb c sep); [discriminate|]. now rewrite (IH Hs).
Qed.

Lemma split_app (sep : ascii) (s rest : string) :
  free_of sep s = true ->
  split sep (s ++ String sep rest) = s :: split sep rest.
Proof.
  unfold free_of. induction s as [|c s IH]; simpl.
  - now rewrite Ascii.eqb_refl.
  - intros H. apply andb_true_iff in H as [Hc Hs].
    destruct (Ascii.eqb c sep); [discriminate|]. now rewrite (IH Hs).
Qed.

Lemma free_of_app (c : ascii) (a b : string) :
  free_of c (a ++ b) = free_of c a && free_of c b.
Proof. apply string_forallb_app. Qed.

Lemma check_octets_returns (items : list string) :
  Share.check_octets items = Return tt <-> Forall (int_within 0 255) items.
Proof.
  induction items as [|item rest IH]; simpl.
  - split; [constructor|reflexivity].
  - destruct (py_int item) as [n|] eqn:Hint.
    + destruct ((0 <=? n) && (n <=? 255)) eqn:Hn.
      * rewrite IH. apply andb_true_iff in Hn as [H0 H255].
        apply Z.leb_le in H0, H255. split.
        -- intros H. constructor; [|assumption]. exists n. split; [assumption|lia].
        -- now inversion 1.
      * split; [discriminate|]. inversion 1 as [|? ? (m & Hm & Hb)]; subst.
        rewrite Hint in Hm. injection Hm as <-.
        apply andb_false_iff in Hn as [Hn|Hn]; apply Z.leb_gt in Hn; lia.
    + split; [discriminate|]. inversion 1 as [|? ? (m & Hm & _)]; congruence.
Qed.

Lemma check_octets_raises (items : list string) :
  Share.check_octets items = Return tt
  \/ Share.check_octets items = Raise (CommandError Share.ip_exc_str).
Proof.
  induction items as [|item rest IH]; simpl; [now left|].
  destruct (py_int item) as [n|]; [|now right].
  destruct ((0 <=? n) && (n <=? 255)); [exact IH|now right].
Qed.

Lemma prefix_check (prefix : string) :
  match py_int prefix with
  | Some p => if (p <? 0) || (32 <? p) then false else true
  | None => false
  end = true <-> int_within 0 32 prefix.
Proof.
  unfold int_within. destruct (py_int prefix) as [p|].
  - destruct ((p <? 0) || (32 <? p)) eqn:Hp.
    + split; [discriminate|]. intros (n & [= <-] & Hn).
      apply orb_true_iff in Hp as [Hp|Hp]; apply Z.ltb_lt in Hp; lia.
    + apply orb_false_iff in Hp as [H0 H32]. apply Z.ltb_ge in H0, H32.
      split; [|reflexivity]. intros _. exists p. split; [reflexivity|lia].
  - split; [discriminate|]. intros (n & Hn & _). discriminate.
Qed.

(** [_validate_ip_range] returns exactly on the well-formed arguments. *)
Lemma validate_ip_range_returns (s : string) :
  Share._validate_ip_range s = Return tt <-> well_formed_ip_range s.
Proof.
  unfold Share._validate_ip_range, well_formed_ip_range.
  assert (Haddr : forall addr,
    (if negb (length (split "." addr) =? 4)%nat
     then Raise (CommandError Share.ip_exc_str)
     else Share.check_octets (split "." addr)) = Return tt
    <-> length (split "." addr) = 4%nat /\ Forall (int_within 0 255) (split "." addr)).
  { intros addr. destruct (Nat.eqb_spec (length (split "." addr)) 4) as [Hlen|Hlen]; simpl.
    - rewrite check_octets_returns. tauto.
    - split; [discriminate|tauto]. }
  destruct (split "/" s) as [|addr [|prefix [|extra rest]]] eqn:Hsplit; simpl.
  - split; [discriminate|]. intros (addr & [H|(prefix & H & _)] & _); discriminate.
  - rewrite Haddr. split.
    + intros H. exists addr. split; [now left|assumption].
    + intros (addr' & [Heq|(prefix & Heq & _)] & Hok); [|discriminate].
      now injection Heq as <-.
  - pose proof (prefix_check prefix) as Hprefix.
    destruct (py_int prefix) as [p|].
    + destruct ((p <? 0) || (32 <? p)); simpl.
      * split; [discriminate|].
        intros (addr' & [Heq|(prefix' & Heq & Hp)] & _); [discriminate|].
        injection Heq as <- <-. apply Hprefix in Hp. discriminate.
      * rewrite Haddr. split.
        -- intros H. exists addr. split; [|assumption].
           right. exists prefix. split; [reflexivity|now apply Hprefix].
        -- intros (addr' & [Heq|(prefix' & Heq & _)] & Hok); [discriminate|].
           now injection Heq as <- <-.
    + simpl. split; [discriminate|].
      intros (addr' & [Heq|(prefix' & Heq & Hp)] & _); [discriminate|].
      injection Heq as <- <-. apply Hprefix in Hp. discriminate.
  - split; [discriminate|]. intros (addr' & [H|(prefix' & H & _)] & _); discriminate.
Qed.

Lemma validate_ip_range_raises (s : string) :
  Share._validate_ip_range s = Return tt
  \/ exists msg, Share._validate_ip_range s = Raise (CommandError msg).
Proof.
  unfold Share._validate_ip_range.
  destruct (2 <? length (split "/" s))%nat; [right; eauto|].
  assert (Haddr :
    (if negb (length (split "." (nth 0 (split "/" s) "")) =? 4)%nat
     then Raise (CommandError Share.ip_exc_str)
     else Share.check_octets (split "." (nth 0 (split "/" s) ""))) = Return tt
    \/ exists msg,
       (if negb (length (split "." (nth 0 (split "/" s) "")) =? 4)%nat
        then Raise (CommandError Share.ip_exc_str)
        else Share.check_octets (split "." (nth 0 (split "/" s) "")))
       = Raise (CommandError msg)).
  { destruct (negb _); [right; eauto|].
    destruct (check_octets_raises (split "." (nth 0 (split "/" s) ""))) as [->| ->];
      [now left|right; eauto]. }
  destruct (length (split "/" s) =? 2)%nat; simpl; [|exact Haddr].
  destruct (py_int (nth 1 (split "/" s) "")) as [p|]; [|right; eauto].
  destruct ((p <? 0) || (32 <? p)); simpl; [right; eauto|exact Haddr].
Qed.

(** X4. On ASCII text of at most 4300 characters, [_validate_ip_range]
    returns exactly when its argument has at most one [/], the text after it
    reads as a number from 0 to 32, and the text before it has four fields
    separated by dots that each read as a number from 0 to 255; on every
    other such argument it raises CommandError, never the ValueError of
    [int]. *)
Theorem validate_ip_range_well_formed (s : string) :
  is_ascii s = true -> (String.length s <= 4300)%nat ->
  (Share._validate_ip_range s = Return tt <-> well_formed_ip_range s)
  /\ (~ well_formed_ip_range s ->
      exists msg, Share._validate_ip_range s = Raise (CommandError msg)).
Proof.
  intros _ _. split; [apply validate_ip_range_returns|].
  intros Hbad. destruct (validate_ip_range_raises s) as [Hok|Hraise]; [|exact Hraise].
  now apply validate_ip_range_returns in Hok.
Qed.

(** An address with a prefix is well formed; three octets are not. *)
Lemma validate_ip_range_well_formed_samples :
  well_formed_ip_range "172.16.0.0/12"
  /\ exists msg, Share._validate_ip_range "172.16.0" = Raise (CommandError msg).
Proof.
  split.
  - apply (validate_ip_range_well_formed "172.16.0.0/12");
      [reflexivity|simpl; lia|reflexivity].
  - apply (validate_ip_range_well_formed "172.16.0"); [reflexivity|simpl; lia|].
    intros Hwf.
    apply (validate_ip_range_well_formed "172.16.0") in Hwf;
      [discriminate Hwf|reflexivity|simpl; lia].
Defined.

Lemma free_of_cons (c x : ascii) (s : string) :
  free_of c (String x s) = negb (Ascii.eqb x c) && free_of c s.
Proof. reflexivity. Qed.

Lemma dotted_split (a b c d : Z) :
  0 <= a -> 0 <= b -> 0 <= c -> 0 <= d ->
  free_of "/" (dotted a b c d) = true
  /\ split "." (dotted a b c d) = [str_of_Z a; str_of_Z b; str_of_Z c; str_of_Z d].
Proof.
  intros Ha Hb Hc Hd.
  change (dotted a b c d)
    with (str_of_Z a ++ String "." (str_of_Z b ++ String "."
            (str_of_Z c ++ String "." (str_of_Z d)))).
  split.
  - repeat (rewrite free_of_app || rewrite free_of_cons).
    now rewrite !(str_of_Z_free "/") by (reflexivity || assumption).
  - rewrite !split_app by now apply str_of_Z_free.
    now rewrite split_free by now apply str_of_Z_free.
Qed.

Lemma octet_within (lo hi n : Z) :
  0 <= lo -> lo <= n <= hi -> int_within lo hi (str_of_Z n).
Proof. intros Hlo Hn. exists n. split; [apply py_int_str_of_Z; lia|assumption]. Qed.

(** X5. Every address written in the usual way is accepted: four numbers
    from 0 to 255 in decimal with dots between them, alone or followed by
    [/] and a prefix from 0 to 32 in decimal. *)
Theorem validate_ip_range_accepts_dotted (a b c d prefix : Z) :
  0 <= a <= 255 -> 0 <= b <= 255 -> 0 <= c <= 255 -> 0 <= d <= 255 ->
  Share._validate_ip_range (dotted a b c d) = Return tt
  /\ (0 <= prefix <= 32 ->
      Share._validate_ip_range (dotted a b c d ++ "/" ++ str_of_Z prefix) = Return tt).
Proof.
  intros Ha Hb Hc Hd.
  destruct (dotted_split a b c d) as [Hfree Hsplit]; try lia.
  assert (Hoctets : length (split "." (dotted a b c d)) = 4%nat
                    /\ Forall (int_within 0 255) (split "." (dotted a b c d))).
  { rewrite Hsplit. split; [reflexivity|].
    repeat constructor; apply octet_within; lia. }
  split.
  - apply validate_ip_range_returns. exists (dotted a b c d).
    split; [|exact Hoctets]. left. now apply split_free.
  - intros Hp. apply validate_ip_range_returns. exists (dotted a b c d).
    split; [|exact Hoctets]. right. exists (str_of_Z prefix). split.
    + change (dotted a b c d ++ "/" ++ str_of_Z prefix)
        with (dotted a b c d ++ String "/" (str_of_Z prefix)).
      rewrite (split_app "/" _ _ Hfree).
      now rewrite split_free by (apply str_of_Z_free; [reflexivity|lia]).
    + apply octet_within; lia.
Qed.

Lemma validate_ip_range_accepts_dotted_sample :
  Share._validate_ip_range "192.168.1.0" = Return tt
  /\ Share._validate_ip_range "192.168.1.0/24" = Return tt.
Proof.
  destruct (validate_ip_range_accepts_dotted 192 168 1 0 24) as [H1 H2]; try lia.
  split; [exact H1|apply H2; lia].
Defined.

(** X6. On ASCII text, [_validate_username] returns exactly on the names
    made of 4 to 32 characters of the class, alone or followed by one
    newline; on every other ASCII name it raises CommandError. *)
Theorem validate_username_returns (s : string) :
  is_ascii s = true ->
  (Share._validate_username s = Return tt
   <-> exists u, all_class u = true
              /\ (4 <= String.length u <= 32)%nat
              /\ (s = u \/ s = (u ++ String nl "")%string))
  /\ (Share._validate_username s = Return tt
      \/ Share._validate_username s = Raise (CommandError Share.username_exc_str)).
Proof.
  intros _. rewrite <- re_match_username_iff. unfold Share._validate_username.
  destruct (Share.re_match_username s); simpl; split; auto.
  - split; reflexivity.
  - split; discriminate.
Qed.

Lemma validate_username_returns_sample :
  exists u, all_class u = true
         /\ (4 <= String.length u <= 32)%nat
         /\ ("svc.backup-01" = u \/ "svc.backup-01" = (u ++ String nl "")%string).
Proof.
  apply (validate_username_returns "svc.backup-01"); reflexivity.
Defined.

Lemma validate_username_raises (s : string) :
  Share._validate_username s = Return tt
  \/ exists msg, Share._validate_username s = Raise (CommandError msg).
Proof.
  unfold Share._validate_username.
  destruct (Share.re_match_username s); simpl; eauto.
Qed.

Lemma validate_access_cases (access_type access : string) :
  Share._validate_access access_type access = Return tt
  \/ exists msg, Share._validate_access access_type access = Raise (CommandError msg).
Proof.
  unfold Share._validate_access.
  destruct (String.eqb access_type "ip"); [apply validate_ip_range_raises|].
  destruct (String.eqb access_type "user"); [apply validate_username_raises|].
  destruct (String.eqb access_type "cert"); [|right; eauto].
  unfold Share._validate_common_name. destruct (_ || _); eauto.
Qed.

(** X8. [Share.allow] checks the rule first: when [_validate_access] refuses
    the access type or the access text, [Share.allow] raises that
    CommandError and the world is as before, so nothing has been sent,
    whatever the API version; when it accepts, the call is the manager's
    [allow]. *)
Theorem share_allow_checks_first
    (manager : Manager) (id access_type access : string) (access_level : pyval)
    (w : world) :
  (Share._validate_access access_type access <> Return tt ->
   exists msg,
     Share._validate_access access_type access = Raise (CommandError msg)
     /\ Share_allow manager id access_type access access_level w
        = (Raise (CommandError msg), w))
  /\ (Share._validate_access access_type access = Return tt ->
      Share_allow manager id access_type access access_level w
      = ShareManager_allow
          [OManager manager; OResource id; OVal (VStr access_type);
           OVal (VStr access); OVal access_level] w).
Proof.
  unfold Share_allow, bind, lift. split.
  - intros Hbad. destruct (validate_access_cases access_type access) as [Hok|[msg Hmsg]];
      [contradiction|].
    exists msg. now rewrite Hmsg.
  - now intros ->.
Qed.

Lemma share_allow_checks_first_samples :
  (exists msg,
     Share._validate_access "ip" "10.0.0.0/33" = Raise (CommandError msg)
     /\ Share_allow (manager_at (v 2 7)) "s1" "ip" "10.0.0.0/33" (VStr "rw") quiet_world
        = (Raise (CommandError msg), quiet_world))
  /\ Share_allow (manager_at (v 2 7)) "s1" "ip" "10.0.0.0/24" (VStr "rw") quiet_world
     = ShareManager_allow
         [OManager (manager_at (v 2 7)); OResource "s1"; OVal (VStr "ip");
          OVal (VStr "10.0.0.0/24"); OVal (VStr "rw")] quiet_world.
Proof.
  split.
  - apply (share_allow_checks_first (manager_at (v 2 7)) "s1" "ip" "10.0.0.0/33").
    discriminate.
  - apply (share_allow_checks_first (manager_at (v 2 7)) "s1" "ip" "10.0.0.0/24").
    reflexivity.
Defined.

(** ** Requests of the share manager *)

Lemma share_action_eq (self : Manager) (action : string) (t : target)
    (info body' : pyval) (w : world) :
  let body := VDict [(action, info)] in
  let hs := hooks_of_type self "modify_body_for_action" in
  let r := request_of self w POST ("/shares/" ++ py_str (getid t) ++ "/action")
             (Some body') in
  snd (hooked 0 hs body) = Return body' ->
  ShareManager._action self action t info w
  = (w_service w r, log_more w (fst (hooked 0 hs body) ++ [EvHttp r])).
Proof.
  intros body hs r Hrun. unfold ShareManager._action, run_hooks, bind.
  fold body hs. rewrite run_hooks_from_hooked, Hrun. unfold http. simpl.
  unfold log_more. simpl. now rewrite <- app_assoc.
Qed.

(** X9. [_do_allow] sends the access level only when one is given: the
    action's parameters are the access type and the access text, followed
    by the access level when it is truthy. After the hooks, one POST goes
    to [/shares/<id>/action]; the result is the [access] entry of the
    answer, a KeyError when the answer has none, and a transport error as
    it comes. *)
Theorem do_allow_request (self : Manager) (share : target)
    (access_type access access_level : pyval) (action_name : string)
    (body' : pyval) (w : world) :
  let body := VDict [(action_name, VDict (access_params access_type access access_level))] in
  let hs := hooks_of_type self "modify_body_for_action" in
  let r := request_of self w POST ("/shares/" ++ py_str (getid share) ++ "/action")
             (Some body') in
  snd (hooked 0 hs body) = Return body' ->
  ShareManager._do_allow self share access_type access access_level action_name w
  = (and_then (w_service w r) (fun answer => getitem answer "access"),
     log_more w (fst (hooked 0 hs body) ++ [EvHttp r])).
Proof.
  intros body hs r Hrun. unfold ShareManager._do_allow, bind.
  assert (Hparams :
    (if truthy access_level
     then dict_set "access_level" access_level
            [("access_type", access_type); ("access_to", access)]
     else [("access_type", access_type); ("access_to", access)])
    = access_params access_type access access_level).
  { unfold access_params. now destruct (truthy access_level). }
  rewrite Hparams. rewrite (share_action_eq _ _ _ _ body' _ Hrun).
  fold r. now destruct (w_service w r).
Qed.

(** A rule without access level; the service answers without [access]. *)
Lemma do_allow_request_sample :
  ShareManager._do_allow (manager_at (v 2 7)) (TResource "s1")
    (VStr "ip") (VStr "10.0.0.0/24") VNone "allow_access" quiet_world
  = (Raise (KeyError "access"),
     log_more quiet_world
       [post "/shares/s1/action"
          (VDict [("allow_access",
                   VDict [("access_type", VStr "ip");
                          ("access_to", VStr "10.0.0.0/24")])])]).
Proof.
  rewrite (do_allow_request (manager_at (v 2 7)) (TResource "s1")
             (VStr "ip") (VStr "10.0.0.0/24") VNone "allow_access"
             (VDict [("allow_access",
                      VDict [("access_type", VStr "ip");
                             ("access_to", VStr "10.0.0.0/24")])])
             quiet_world eq_refl).
  reflexivity.
Defined.

Lemma delete_eq (self : Manager) (url : string) (w : world) :
  _delete self url w
  = discard_result (w_service w (request_of self w DELETE url None),
                    log_more w [EvHttp (request_of self w DELETE url None)]).
Proof.
  unfold _delete, bind, http, ret, request_of, log_more, discard_result.
  now destruct (w_service w _).
Qed.

Lemma delete_metadata_loop_all (self : Manager) (share_id : string) (keys : list string) :
  forall w,
    (forall key, In key keys ->
       is_raise (w_service w (metadata_request self w share_id key)) = false) ->
    delete_metadata_loop self share_id keys w
    = (Return VNone, log_more w (map (metadata_delete self w share_id) keys)).
Proof.
  induction keys as [|key rest IH]; intros w Hok; cbn [delete_metadata_loop map].
  - unfold ret. now rewrite log_more_nil.
  - unfold bind. rewrite delete_eq. fold (metadata_request self w share_id key).
    pose proof (Hok key (or_introl eq_refl)) as Hkey.
    destruct (w_service w (metadata_request self w share_id key)) as [x|e] eqn:Hans;
      [|discriminate]. cbn [discard_result].
    rewrite IH by (intros k Hk; apply (Hok k); now right).
    rewrite log_more_more. reflexivity.
Qed.

Lemma delete_metadata_loop_stops (self : Manager) (share_id : string)
    (before : list string) :
  forall (key : string) (after : list string) (e : exn) (w : world),
    (forall k, In k before ->
       is_raise (w_service w (metadata_request self w share_id k)) = false) ->
    w_service w (metadata_request self w share_id key) = Raise e ->
    delete_metadata_loop self share_id (before ++ key :: after) w
    = (Raise e, log_more w (map (metadata_delete self w share_id) (before ++ [key]))).
Proof.
  induction before as [|k0 rest IH]; intros key after e w Hok Hkey;
    cbn [app delete_metadata_loop map].
  - unfold bind. rewrite delete_eq. fold (metadata_request self w share_id key).
    now rewrite Hkey.
  - unfold bind. rewrite delete_eq. fold (metadata_request self w share_id k0).
    pose proof (Hok k0 (or_introl eq_refl)) as Hk0.
    destruct (w_service w (metadata_request self w share_id k0)) as [x|e0] eqn:Hans;
      [|discriminate]. cbn [discard_result].
    rewrite (IH key after e) by
      (try (intros k Hk; apply (Hok k); now right); exact Hkey).
    rewrite log_more_more. reflexivity.
Qed.

(** X10. [delete_metadata] sends one DELETE per key, to
    [/shares/<id>/metadata/<key>], in the order of the keys, and returns
    None when the service accepts them all (nothing is sent for no key). It
    stops at the first key the service refuses: the error is raised, the
    keys before it have been deleted, the keys after it are not asked for. *)
Theorem delete_metadata_requests (self : Manager) (share : target)
    (before after : list string) (key : string) (e : exn) (w : world) :
  let share_id := py_str (getid share) in
  (forall k, In k before ->
     is_raise (w_service w (metadata_request self w share_id k)) = false) ->
  ShareManager_delete_metadata self share before w
  = (Return VNone, log_more w (map (metadata_delete self w share_id) before))
  /\ (w_service w (metadata_request self w share_id key) = Raise e ->
      ShareManager_delete_metadata self share (before ++ key :: after) w
      = (Raise e, log_more w (map (metadata_delete self w share_id) (before ++ [key])))).
Proof.
  intros share_id Hok. unfold ShareManager_delete_metadata. fold share_id. split.
  - now apply delete_metadata_loop_all.
  - intros Hkey. now apply delete_metadata_loop_stops.
Qed.

(** Three keys, the second unknown to the service: the first two are asked
    for, the third is not. *)
Lemma delete_metadata_requests_sample :
  ShareManager_delete_metadata (manager_at (v 2 7)) (TResource "s1") ["owner"] refusing_world
  = (Return VNone,
     log_more refusing_world
       [EvHttp (mkRequest DELETE "/shares/s1/metadata/owner" None ∅)])
  /\ ShareManager_delete_metadata (manager_at (v 2 7)) (TResource "s1")
       (["owner"] ++ "missing" :: ["tier"]) refusing_world
     = (Raise (TransportError 404),
        log_more refusing_world
          [EvHttp (mkRequest DELETE "/shares/s1/metadata/owner" None ∅);
           EvHttp (mkRequest DELETE "/shares/s1/metadata/missing" None ∅)]).
Proof.
  destruct (delete_metadata_requests (manager_at (v 2 7)) (TResource "s1")
              ["owner"] ["tier"] "missing" (TransportError 404) refusing_world)
    as [Hall Hstop].
  - intros k [<-|[]]. reflexivity.
  - split; [exact Hall|]. apply Hstop. reflexivity.
Defined.

(** ** The query string of [ShareManager.list] *)

Lemma dict_get_In_iff {V} (k : string) (x : V) (d : list (string * V)) :
  List.NoDup (map fst d) -> (In (k, x) d <-> dict_get k d = Some x).
Proof.
  intros Hnd. split; [|apply dict_get_In].
  induction d as [|[k0 x0] d IH]; simpl; [tauto|].
  inversion Hnd as [|? ? Hnotin Hnd']; subst.
  intros [[= -> ->]|Hin].
  - now rewrite String.eqb_refl.
  - destruct (String.eqb_spec k k0) as [->|Hne]; [|auto].
    destruct Hnotin. apply in_map_iff. now exists (k0, x).
Qed.

Lemma dict_has_get {V} (k : string) (d : list (string * V)) :
  dict_has k d = false <-> dict_get k d = None.
Proof. unfold dict_has. destruct (dict_get k d); split; congruence. Qed.

Lemma query_params_In (kv : string * pyval) (so : list (string * pyval)) :
  In kv (query_params so) <-> In kv so /\ truthy (snd kv) = true.
Proof.
  unfold query_params. split.
  - intros Hin. apply (Permutation_in _ (sorted_perm _)) in Hin.
    now apply filter_In in Hin.
  - intros Hin. apply (Permutation_in _ (Permutation_sym (sorted_perm _))).
    now apply filter_In.
Qed.

(** X11. [ShareManager.list] asks for public shares by default and only by
    default. The query string it builds is the encoding of its parameters
    (the empty string when there are none), and these hold a pair
    [is_public] exactly when the caller's filters have no [is_public] key,
    and it is then [True], or when they have one with a truthy value, and it
    is then that value. Without the key in the filters the text
    [is_public=True] stands in the query string of the request; a caller's
    [is_public=False] is not sent at all. *)
Theorem share_list_is_public
    (K : Constants) (self : Manager) (detailed : bool)
    (search_opts : list (string * pyval)) (x : pyval) (w : world) :
  List.NoDup (map fst search_opts) ->
  let params := query_params (with_is_public search_opts) in
  ShareManager.query_string search_opts
  = match params with
    | [] => ""
    | _ => "?" ++ urlencode params
    end
  /\ (In ("is_public", x) params
      <-> (dict_get "is_public" search_opts = None /\ x = VBool true)
          \/ (dict_get "is_public" search_opts = Some x /\ truthy x = true))
  /\ (dict_get "is_public" search_opts = None ->
      contains "is_public=True" (ShareManager.query_string search_opts) = true
      /\ exists url,
           contains "is_public=True" url = true
           /\ ShareManager.list K self detailed (Some search_opts) None None w
              = _list self url "shares" w).
Proof.
  intros Hnd params. split.
  { rewrite share_query_string_eq. fold params. now destruct params. }
  split.
  - subst params. rewrite query_params_In. unfold with_is_public. simpl snd.
    destruct (dict_has "is_public" search_opts) eqn:Hhas.
    + rewrite (dict_get_In_iff _ _ _ Hnd).
      unfold dict_has in Hhas. destruct (dict_get "is_public" search_opts); [|discriminate].
      split; [tauto|]. intros [[? _]|H]; [discriminate|exact H].
    + rewrite (dict_has_false_set _ _ _ Hhas), in_app_iff.
      pose proof Hhas as Hnone. apply dict_has_get in Hnone. rewrite Hnone.
      apply dict_has_not_In in Hhas. split.
      * intros [[Hin|[[= <-]|[]]] Ht].
        -- destruct Hhas. apply in_map_iff. now exists ("is_public", x).
        -- now left.
      * intros [[_ ->]|[? _]]; [|discriminate].
        split; [|reflexivity]. right. now left.
  - intros Hnone.
    assert (Hc : contains "is_public=True" (ShareManager.query_string search_opts) = true).
    { rewrite share_query_string_eq. fold params.
      assert (Hin : In ("is_public", VBool true) params).
      { subst params. apply query_params_In. split; [|reflexivity].
        unfold with_is_public. apply dict_has_get in Hnone. rewrite Hnone.
        rewrite (dict_has_false_set _ _ _ Hnone). apply in_app_iff. right. now left. }
      destruct params as [|p ps]; [destruct Hin|].
      destruct (urlencode_In _ _ Hin) as (pre & post & ->).
      change ("?" ++ pre ++ encode_pair ("is_public", VBool true) ++ post)%string
        with (("?" ++ pre) ++ "is_public=True" ++ post)%string.
      apply contains_app. }
    split; [exact Hc|].
    unfold ShareManager.list, bind, ret, with_sort_dir.
    destruct detailed; eexists; (split; [|reflexivity]).
    + now apply contains_suffix.
    + now apply contains_suffix.
Qed.

(** The caller hides private shares: no [is_public] in the query. Without
    the filter, [is_public=True] is asked for. *)
Lemma share_list_is_public_sample :
  (~ In ("is_public", VBool false)
       (query_params (with_is_public [("name", VStr "db"); ("is_public", VBool false)]))
   /\ ShareManager.query_string [("name", VStr "db"); ("is_public", VBool false)]
      = "?name=db")
  /\ contains "is_public=True" (ShareManager.query_string [("name", VStr "db")]) = true
  /\ ShareManager.query_string [("name", VStr "db")] = "?is_public=True&name=db".
Proof.
  assert (Hnd : forall x : pyval,
            List.NoDup (map fst [("name", VStr "db"); ("is_public", x)])).
  { intros x. simpl. repeat constructor; simpl; intuition discriminate. }
  split; [split; [|reflexivity]|split; [|reflexivity]].
  - intros Hin.
    destruct (share_list_is_public sample_constants (manager_at (v 2 7)) true
                [("name", VStr "db"); ("is_public", VBool false)] (VBool false)
                quiet_world (Hnd _)) as (_ & H & _).
    apply H in Hin. destruct Hin as [[Hn _]|[_ Ht]]; discriminate.
  - destruct (share_list_is_public sample_constants (manager_at (v 2 7)) true
                [("name", VStr "db")] VNone quiet_world) as (_ & _ & H).
    + simpl. repeat constructor; simpl; intuition discriminate.
    + now destruct (H eq_refl).
Defined.

(** *** The order of the filters does not matter *)

Lemma ascii_compare_refl (a : ascii) : Ascii.compare a a = Eq.
Proof. unfold Ascii.compare. apply N.compare_refl. Qed.

Lemma ascii_compare_lt_trans (a b c : ascii) :
  Ascii.compare a b = Lt -> Ascii.compare b c = Lt -> Ascii.compare a c = Lt.
Proof.
  unfold Ascii.compare. rewrite !N.compare_lt_iff. apply N.lt_trans.
Qed.

Lemma string_compare_lt_trans (a : string) :
  forall b c, String.compare a b = Lt -> String.compare b c = Lt ->
    String.compare a c = Lt.
Proof.
  induction a as [|x a IH]; intros [|y b] [|z c]; simpl; try congruence.
  destruct (Ascii.compare x y) eqn:Hxy; try discriminate;
    destruct (Ascii.compare y z) eqn:Hyz; try discriminate.
  - apply Ascii.compare_eq_iff in Hxy, Hyz. subst.
    rewrite ascii_compare_refl. apply IH.
  - apply Ascii.compare_eq_iff in Hxy. subst. now rewrite Hyz.
  - apply Ascii.compare_eq_iff in Hyz. subst. now rewrite Hxy.
  - now rewrite (ascii_compare_lt_trans x y z Hxy Hyz).
Qed.

Lemma string_compare_refl (a : string) : String.compare a a = Eq.
Proof.
  induction a as [|x a IH]; simpl; [reflexivity|].
  now rewrite ascii_compare_refl.
Qed.

Lemma string_leb_trans (a b c : string) :
  String.leb a b = true -> String.leb b c = true -> String.leb a c = true.
Proof.
  unfold String.leb.
  destruct (String.compare a b) eqn:Hab; try discriminate;
    destruct (String.compare b c) eqn:Hbc; try discriminate; intros _ _.
  - apply String.compare_eq_iff in Hab, Hbc. subst. now rewrite string_compare_refl.
  - apply String.compare_eq_iff in Hab. subst. now rewrite Hbc.
  - apply String.compare_eq_iff in Hbc. subst. now rewrite Hab.
  - now rewrite (string_compare_lt_trans a b c Hab Hbc).
Qed.

Lemma key_le_trans {V} (a b c : string * V) : key_le a b -> key_le b c -> key_le a c.
Proof. apply string_leb_trans. Qed.

Lemma same_key_same_pair {V} (l : list (string * V)) (a b : string * V) :
  List.NoDup (map fst l) -> In a l -> In b l -> fst a = fst b -> a = b.
Proof.
  induction l as [|c l IH]; simpl; [tauto|].
  intros Hnd Ha Hb Hkey. inversion Hnd as [|? ? Hnotin Hnd']; subst.
  destruct Ha as [->|Ha], Hb as [->|Hb]; auto.
  - destruct Hnotin. rewrite Hkey. now apply in_map.
  - destruct Hnotin. rewrite <- Hkey. now apply in_map.
Qed.

(** Two sorted lists with the same pairs and distinct keys are the same. *)
Lemma sorted_lists_equal {V} (l1 : list (string * V)) :
  forall l2,
    Sorted key_le l1 -> Sorted key_le l2 -> Permutation l1 l2 ->
    List.NoDup (map fst l1) -> l1 = l2.
Proof.
  induction l1 as [|a l1 IH]; intros l2 Hs1 Hs2 Hperm Hnd.
  - now apply Permutation_nil in Hperm.
  - destruct l2 as [|b l2]; [now apply Permutation_sym, Permutation_nil in Hperm|].
    assert (Hab : a = b).
    { assert (Ha : In a (b :: l2)) by (apply (Permutation_in _ Hperm); now left).
      assert (Hb : In b (a :: l1))
        by (apply (Permutation_in _ (Permutation_sym Hperm)); now left).
      destruct Ha as [->|Ha]; [reflexivity|].
      destruct Hb as [->|Hb]; [reflexivity|].
      apply (same_key_same_pair (a :: l1)); try assumption; [now left|now right|].
      apply Sorted_StronglySorted in Hs1, Hs2;
        try (intros x y z; apply key_le_trans).
      inversion Hs1 as [|? ? _ Hall1]; inversion Hs2 as [|? ? _ Hall2]; subst.
      rewrite List.Forall_forall in Hall1, Hall2.
      apply String.leb_antisym; [apply (Hall1 b Hb)|apply (Hall2 a Ha)]. }
    subst b. f_equal. apply IH.
    + now inversion Hs1.
    + now inversion Hs2.
    + now apply Permutation_cons_inv in Hperm.
    + now inversion Hnd.
Qed.

Lemma filter_perm {A} (f : A -> bool) (l l' : list A) :
  Permutation l l' -> Permutation (List.filter f l) (List.filter f l').
Proof.
  induction 1 as [|x l l' _ IH|x y l|l l' l'' _ IH1 _ IH2]; simpl.
  - constructor.
  - destruct (f x); [now constructor|assumption].
  - destruct (f x), (f y); try reflexivity. apply perm_swap.
  - now transitivity (List.filter f l').
Qed.

Lemma filter_keys_nodup {V} (f : string * V -> bool) (l : list (string * V)) :
  List.NoDup (map fst l) -> List.NoDup (map fst (List.filter f l)).
Proof.
  induction l as [|a l IH]; simpl; [constructor|].
  intros Hnd. inversion Hnd as [|? ? Hnotin Hnd']; subst.
  destruct (f a); [|auto]. simpl. constructor; [|auto].
  intros Hin. apply Hnotin. apply in_map_iff in Hin as (b & Hb & Hin).
  apply filter_In in Hin as [Hin _]. rewrite <- Hb. now apply in_map.
Qed.

Lemma query_params_perm (so so' : list (string * pyval)) :
  Permutation so so' -> List.NoDup (map fst so) ->
  query_params so = query_params so'.
Proof.
  intros Hperm Hnd. unfold query_params.
  apply sorted_lists_equal; try apply sorted_sorted.
  - rewrite !sorted_perm. now apply filter_perm.
  - apply (Permutation_NoDup (l := map fst (List.filter (fun kv => truthy (snd kv)) so))).
    + apply Permutation_map, Permutation_sym, sorted_perm.
    + now apply filter_keys_nodup.
Qed.

Lemma with_is_public_perm (so so' : list (string * pyval)) :
  Permutation so so' -> List.NoDup (map fst so) ->
  Permutation (with_is_public so) (with_is_public so')
  /\ List.NoDup (map fst (with_is_public so)).
Proof.
  intros Hperm Hnd. unfold with_is_public.
  assert (Hsame : dict_has "is_public" so' = dict_has "is_public" so).
  { destruct (dict_has "is_public" so) eqn:Hhas.
    - apply dict_has_In. apply dict_has_In in Hhas.
      now apply (Permutation_in _ (Permutation_map fst Hperm)).
    - apply dict_has_not_In. apply dict_has_not_In in Hhas. intros Hin. apply Hhas.
      now apply (Permutation_in _ (Permutation_sym (Permutation_map fst Hperm))). }
  rewrite Hsame. destruct (dict_has "is_public" so) eqn:Hhas; [now split|].
  rewrite (dict_has_false_set _ _ _ Hhas), (dict_has_false_set _ _ _ Hsame). split.
  - now apply Permutation_app_tail.
  - rewrite map_app. simpl. apply (Permutation_NoDup (l := "is_public" :: map fst so)).
    + apply Permutation_cons_append.
    + constructor; [|assumption]. now apply dict_has_not_In.
Qed.

(** X12. The query string of [ShareManager.list] depends on the filters
    only, not on the order in which the dictionary holds them: two
    dictionaries with the same pairs give the same parameters in the same
    order, and so the same query string. *)
Theorem share_list_query_order (so so' : list (string * pyval)) :
  Permutation so so' -> List.NoDup (map fst so) ->
  query_params so = query_params so'
  /\ ShareManager.query_string so = ShareManager.query_string so'.
Proof.
  intros Hperm Hnd. split; [now apply query_params_perm|].
  rewrite !share_query_string_eq.
  destruct (with_is_public_perm so so' Hperm Hnd) as [Hperm' Hnd'].
  now rewrite (query_params_perm _ _ Hperm' Hnd').
Qed.

Lemma share_list_query_order_sample :
  ShareManager.query_string [("status", VStr "error"); ("host", VStr "alpha"); ("limit", VInt 5)]
  = ShareManager.query_string [("limit", VInt 5); ("status", VStr "error"); ("host", VStr "alpha")].
Proof.
  apply (share_list_query_order
           [("status", VStr "error"); ("host", VStr "alpha"); ("limit", VInt 5)]
           [("limit", VInt 5); ("status", VStr "error"); ("host", VStr "alpha")]).
  - apply Permutation_sym.
    exact (Permutation_cons_append
             [("status", VStr "error"); ("host", VStr "alpha")] ("limit", VInt 5)).
  - simpl. repeat constructor; simpl; intuition discriminate.
Defined.

(** *** The query string can be taken apart again *)

Lemma quote_char_safe (c : ascii) : string_forallb url_safe (quote_char c) = true.
Proof. destruct c as [[] [] [] [] [] [] [] []]; reflexivity. Qed.

Lemma quote_plus_safe (s : string) : string_forallb url_safe (quote_plus s) = true.
Proof.
  induction s as [|c s IH]; simpl; [reflexivity|].
  now rewrite string_forallb_app, quote_char_safe, IH.
Qed.

Lemma quote_plus_free (x : ascii) (s : string) :
  url_safe x = false -> free_of x (quote_plus s) = true.
Proof.
  intros Hx. unfold free_of.
  apply (string_forallb_impl url_safe); [|apply quote_plus_safe].
  intros c Hc. destruct (Ascii.eqb_spec c x) as [->|]; [congruence|reflexivity].
Qed.

Lemma encode_pair_free (kv : string * pyval) : free_of "&" (encode_pair kv) = true.
Proof.
  unfold encode_pair.
  change (quote_plus (fst kv) ++ "=" ++ quote_plus (py_str (snd kv)))
    with (quote_plus (fst kv) ++ String "=" (quote_plus (py_str (snd kv)))).
  rewrite free_of_app, free_of_cons.
  now rewrite !(quote_plus_free "&") by reflexivity.
Qed.

Lemma split_join (c : ascii) (l : list string) :
  l <> [] -> Forall (fun x => free_of c x = true) l ->
  split c (join (String c "") l) = l.
Proof.
  induction l as [|x l IH]; [congruence|]. intros _ Hfree.
  inversion Hfree as [|? ? Hx Hl]; subst.
  destruct l as [|y l].
  - simpl. now apply split_free.
  - change (join (String c "") (x :: y :: l))
      with (x ++ String c (join (String c "") (y :: l))).
    rewrite (split_app c _ _ Hx). f_equal. now apply IH.
Qed.

(** X13. A query string of [ShareManager.list] that is not empty is [?]
    followed by the encoded pairs with [&] between them, and it can be
    taken apart again without ambiguity: splitting at [&] gives back the
    encoded pairs, one per parameter and in order, and each of them splits
    at its first [=] into the quoted key and the quoted value, because
    quoting leaves only letters, digits and [_.-~+%]. *)
Theorem share_query_string_parses (search_opts : list (string * pyval)) :
  let params := query_params (with_is_public search_opts) in
  params <> [] ->
  ShareManager.query_string search_opts = "?" ++ urlencode params
  /\ split "&" (urlencode params) = map encode_pair params
  /\ Forall (fun kv =>
               split_once "=" (encode_pair kv)
               = Some (quote_plus (fst kv), quote_plus (py_str (snd kv)))) params
  /\ (forall s, string_forallb url_safe (quote_plus s) = true).
Proof.
  intros params Hne. repeat apply conj.
  - rewrite share_query_string_eq. fold params. now destruct params.
  - unfold urlencode. apply (split_join "&").
    + destruct params; [congruence|discriminate].
    + apply List.Forall_forall. intros x Hx.
      apply in_map_iff in Hx as (kv & <- & _). apply encode_pair_free.
  - apply List.Forall_forall. intros kv _. unfold encode_pair.
    apply (split_once_render (quote_plus (fst kv))).
    now apply quote_plus_free.
  - apply quote_plus_safe.
Qed.

(** A value with [&], [=] and a space in it. *)
Lemma share_query_string_parses_sample :
  let so := [("name", VStr "a&b=c d"); ("is_public", VBool false)] in
  ShareManager.query_string so = "?name=a%26b%3Dc+d"
  /\ split "&" (urlencode (query_params (with_is_public so))) = ["name=a%26b%3Dc+d"].
Proof.
  intros so.
  destruct (share_query_string_parses so) as (Hq & Hsplit & _); [discriminate|].
  split; [rewrite Hq|rewrite Hsplit]; reflexivity.
Defined.

(** *** Sort keys *)

Lemma dict_set_set {V} (k : string) (x y : V) (d : list (string * V)) :
  dict_set k y (dict_set k x d) = dict_set k y d.
Proof.
  induction d as [|[k0 x0] d IH]; simpl.
  - now rewrite String.eqb_refl.
  - destruct (String.eqb k k0) eqn:Hk; simpl; rewrite Hk; [reflexivity|now rewrite IH].
Qed.

(** X14. [ShareManager.list] replaces the sort-key aliases by the keys they
    stand for: asked to sort by an allowed key, it sends [sort_key] with
    [share_type_id] for [share_type], [snapshot_id] for [snapshot],
    [share_network_id] for [share_network] and the key itself otherwise,
    whatever [sort_key] the caller's filters held. *)
Theorem share_list_sort_key_alias
    (K : Constants) (self : Manager) (detailed : bool)
    (search_opts : option (list (string * pyval))) (sort_key : string) (w : world) :
  str_in sort_key (SHARE_SORT_KEY_VALUES K) = true ->
  let filters := dict_set "sort_key" (VStr (sort_key_sent sort_key)) (or_empty search_opts) in
  dict_get "sort_key" filters = Some (VStr (sort_key_sent sort_key))
  /\ ShareManager.list K self detailed search_opts (Some sort_key) None w
     = _list self
         ((if detailed then "/shares/detail" else "/shares")
          ++ ShareManager.query_string filters) "shares" w.
Proof.
  intros Hin filters. split; [apply dict_get_set_eq|].
  unfold ShareManager.list. rewrite Hin. unfold bind, ret, with_sort_dir.
  assert (Hfilters :
    (if String.eqb sort_key "share_type"
     then dict_set "sort_key" (VStr "share_type_id")
            (dict_set "sort_key" (VStr sort_key) (or_empty search_opts))
     else if String.eqb sort_key "snapshot"
     then dict_set "sort_key" (VStr "snapshot_id")
            (dict_set "sort_key" (VStr sort_key) (or_empty search_opts))
     else if String.eqb sort_key "share_network"
     then dict_set "sort_key" (VStr "share_network_id")
            (dict_set "sort_key" (VStr sort_key) (or_empty search_opts))
     else dict_set "sort_key" (VStr sort_key) (or_empty search_opts))
    = filters).
  { unfold filters, sort_key_sent.
    destruct (String.eqb sort_key "share_type"); [apply dict_set_set|].
    destruct (String.eqb sort_key "snapshot"); [apply dict_set_set|].
    destruct (String.eqb sort_key "share_network"); [apply dict_set_set|reflexivity]. }
  change (match search_opts with Some d => d | None => [] end)
    with (or_empty search_opts).
  rewrite Hfilters. now destruct detailed.
Qed.

Lemma share_list_sort_key_alias_sample :
  w_log (snd (ShareManager.list sample_constants (manager_at (v 2 7)) false
                (Some [("sort_key", VStr "size"); ("is_public", VBool false)])
                (Some "share_type") None quiet_world))
  = [EvHttp (mkRequest GET "/shares?sort_key=share_type_id" None ∅)].
Proof.
  destruct (share_list_sort_key_alias sample_constants (manager_at (v 2 7)) false
              (Some [("sort_key", VStr "size"); ("is_public", VBool false)])
              "share_type" quiet_world eq_refl) as [_ H].
  rewrite H. reflexivity.
Defined.

Lemma with_sort_key_accepts (values : list string) (sk : option string)
    (so : list (string * pyval)) (w : world) :
  accepted values sk -> exists so', with_sort_key values sk so w = (Return so', w).
Proof.
  unfold accepted, with_sort_key. destruct sk as [k|]; [intros ->|]; eauto.
Qed.

Lemma with_sort_dir_accepts (sd : option string)
    (so : list (string * pyval)) (w : world) :
  accepted SORT_DIR_VALUES sd -> exists so', with_sort_dir sd so w = (Return so', w).
Proof.
  unfold accepted, with_sort_dir. destruct sd as [d|]; [intros ->|]; eauto.
Qed.

Lemma sort_checks_accept (values : list string) (sk sd : option string)
    (so : list (string * pyval)) (w : world) :
  accepted values sk -> accepted SORT_DIR_VALUES sd ->
  exists so',
    (let* so1 := with_sort_key values sk so in with_sort_dir sd so1) w = (Return so', w).
Proof.
  intros Hk Hd. unfold bind.
  destruct (with_sort_key_accepts values sk so w Hk) as [so1 ->].
  apply (with_sort_dir_accepts sd so1 w Hd).
Qed.

Lemma list_log (self : Manager) (url key : string) (w : world) :
  w_log (snd (_list self url key w))
  = (w_log w ++ [EvHttp (request_of self w GET url None)])%list.
Proof.
  unfold _list, bind, http, lift, request_of.
  now destruct (w_service w _).
Qed.

(** X15. [ShareManager.list] called with a sort key and a sort direction
    that are each absent or in their allow-list raises no ValueError: it
    sends exactly one request, a GET to a URL that starts with [/shares].
    On such arguments the wrapper [experimental_api] makes of the [list]
    function of each share-group manager sends exactly one request too, a
    GET to a URL that starts with the path of the resource kind, and it
    drops the list the request brought back. *)
Theorem list_sends_one_request
    (K : Constants) (self : Manager) (t : target) (detailed : bool)
    (search_opts : option (list (string * pyval)))
    (sort_key sort_dir : option string) (w : world) :
  accepted SORT_DIR_VALUES sort_dir ->
  (accepted (SHARE_SORT_KEY_VALUES K) sort_key ->
   exists url,
     is_prefix "/shares" url = true
     /\ ShareManager.list K self detailed search_opts sort_key sort_dir w
        = _list self url "shares" w
     /\ w_log (snd (ShareManager.list K self detailed search_opts sort_key sort_dir w))
        = (w_log w ++ [EvHttp (request_of self w GET url None)])%list)
  /\ (accepted (SHARE_GROUP_REPLICA_SORT_KEY_VALUES K) sort_key ->
   exists url,
     is_prefix "/share-group-replicas" url = true
     /\ ShareGroupReplicaManager_list K
          (list_args self t detailed search_opts sort_key sort_dir) w
        = discard_result (_list self url "share_group_replicas" w)
     /\ w_log (snd (ShareGroupReplicaManager_list K
                      (list_args self t detailed search_opts sort_key sort_dir) w))
        = (w_log w ++ [EvHttp (request_of self w GET url None)])%list)
  /\ (accepted (SHARE_GROUP_INSTANCE_SORT_KEY_VALUES K) sort_key ->
   exists url,
     is_prefix "/share-group-instances" url = true
     /\ ShareGroupInstanceManager_list K
          (list_args self t detailed search_opts sort_key sort_dir) w
        = discard_result (_list self url "share_group_instances" w)
     /\ w_log (snd (ShareGroupInstanceManager_list K
                      (list_args self t detailed search_opts sort_key sort_dir) w))
        = (w_log w ++ [EvHttp (request_of self w GET url None)])%list)
  /\ (accepted (SHARE_GROUP_SNAPSHOT_INSTANCE_SORT_KEY_VALUES K) sort_key ->
   exists url,
     is_prefix "/share-group-snapshot-instances" url = true
     /\ ShareGroupSnapshotInstanceManager_list K
          (list_args self t detailed search_opts sort_key sort_dir) w
        = discard_result (_list self url "share_group_snapshot_instances" w)
     /\ w_log (snd (ShareGroupSnapshotInstanceManager_list K
                      (list_args self t detailed search_opts sort_key sort_dir) w))
        = (w_log w ++ [EvHttp (request_of self w GET url None)])%list).
Proof.
  intros Hd.
  assert (Hlog : forall (m : M pyval) (path name : string),
            (exists url, is_prefix path url = true /\ m w = _list self url name w) ->
            exists url,
              is_prefix path url = true
              /\ m w = _list self url name w
              /\ w_log (snd (m w))
                 = (w_log w ++ [EvHttp (request_of self w GET url None)])%list).
  { intros m path name (url & Hpre & Heq). exists url.
    repeat split; try assumption. rewrite Heq. apply list_log. }
  assert (Hwrapped : forall f (path name : string),
            (exists url, is_prefix path url = true
                         /\ f self t detailed search_opts sort_key sort_dir w
                            = _list self url name w) ->
            exists url,
              is_prefix path url = true
              /\ experimental_api (list_method f)
                   (list_args self t detailed search_opts sort_key sort_dir) w
                 = discard_result (_list self url name w)
              /\ w_log (snd (experimental_api (list_method f)
                               (list_args self t detailed search_opts sort_key sort_dir) w))
                 = (w_log w ++ [EvHttp (request_of self w GET url None)])%list).
  { intros f path name (url & Hpre & Heq). exists url.
    rewrite experimental_list_eq, Heq, snd_discard_result.
    repeat split; try assumption. apply list_log. }
  split; [|split; [|split]]; intros Hk; [apply Hlog|apply Hwrapped..].
  - unfold ShareManager.list.
    assert (Hkey : exists so1,
      match sort_key with
      | Some k =>
          if str_in k (SHARE_SORT_KEY_VALUES K)
          then
            ret (if String.eqb k "share_type"
                 then dict_set "sort_key" (VStr "share_type_id")
                        (dict_set "sort_key" (VStr k)
                           match search_opts with Some d => d | None => [] end)
                 else if String.eqb k "snapshot"
                 then dict_set "sort_key" (VStr "snapshot_id")
                        (dict_set "sort_key" (VStr k)
                           match search_opts with Some d => d | None => [] end)
                 else if String.eqb k "share_network"
                 then dict_set "sort_key" (VStr "share_network_id")
                        (dict_set "sort_key" (VStr k)
                           match search_opts with Some d => d | None => [] end)
                 else dict_set "sort_key" (VStr k)
                        match search_opts with Some d => d | None => [] end)
          else raise (sort_key_error (SHARE_SORT_KEY_VALUES K))
      | None => ret match search_opts with Some d => d | None => [] end
      end w = (Return so1, w)).
    { unfold accepted in Hk. destruct sort_key as [k|]; [rewrite Hk|]; unfold ret; eauto. }
    destruct Hkey as [so1 Hkey]. unfold bind at 1. rewrite Hkey.
    destruct (with_sort_dir_accepts sort_dir so1 w Hd) as [so2 Hdir].
    unfold bind. rewrite Hdir. eexists. split; [|reflexivity].
    now destruct detailed.
  - unfold ShareGroupReplicaManager.list, ShareGroupReplicaManager.list_filters.
    destruct (sort_checks_accept _ _ _
                (if truthy_target t
                 then dict_set "share_id" (getid t) (or_empty search_opts)
                 else or_empty search_opts) w Hk Hd) as [so' Hso].
    unfold bind at 1. rewrite Hso. eexists. split; [|reflexivity].
    now destruct detailed.
  - unfold ShareGroupInstanceManager.list, ShareGroupInstanceManager.list_filters.
    destruct (sort_checks_accept _ _ _
                (if truthy_target t
                 then dict_set "share_group_id" (getid t) (or_empty search_opts)
                 else or_empty search_opts) w Hk Hd) as [so' Hso].
    unfold bind at 1. rewrite Hso. eexists. split; [|reflexivity].
    now destruct detailed.
  - unfold ShareGroupSnapshotInstanceManager.list,
      ShareGroupSnapshotInstanceManager.list_filters.
    destruct (with_sort_key_accepts (SHARE_GROUP_SNAPSHOT_INSTANCE_SORT_KEY_VALUES K)
                sort_key
                (if truthy_target t
                 then dict_set "share_group_snapshot_id" (getid t) (or_empty search_opts)
                 else or_empty search_opts) w Hk) as [so1 Hso1].
    destruct (with_sort_dir_accepts sort_dir so1 w Hd) as [so2 Hso2].
    unfold bind, ret. rewrite Hso1, Hso2. eexists. split; [|reflexivity].
    now destruct detailed.
Qed.

Lemma list_sends_one_request_samples :
  (exists url,
     is_prefix "/shares" url = true
     /\ w_log (snd (ShareManager.list sample_constants (manager_at (v 2 7)) true None
                      (Some "status") (Some "desc") quiet_world))
        = [EvHttp (mkRequest GET url None ∅)])
  /\ (exists url,
     is_prefix "/share-group-snapshot-instances" url = true
     /\ w_log (snd (ShareGroupSnapshotInstanceManager_list sample_constants
                      (list_args (manager_at (v 2 56)) (TId VNone) false None None None)
                      quiet_world))
        = [EvHttp (mkRequest GET url None ∅)]).
Proof.
  split.
  - destruct (list_sends_one_request sample_constants (manager_at (v 2 7)) (TId VNone)
                true None (Some "status") (Some "desc") quiet_world eq_refl)
      as (H & _).
    destruct (H eq_refl) as (url & Hpre & _ & Hlog). exists url. now split.
  - destruct (list_sends_one_request sample_constants (manager_at (v 2 56)) (TId VNone)
                false None None None quiet_world I) as (_ & _ & _ & H).
    destruct (H I) as (url & Hpre & _ & Hlog). exists url. now split.
Defined.

(** ** More on the experimental flag *)

Lemma mark_experimental_again (c : Client) (w : world) :
  mark_experimental c (mark_experimental c w) = mark_experimental c w.
Proof.
  unfold mark_experimental, setitem, deref. simpl. f_equal.
  rewrite lookup_insert_eq. simpl.
  now rewrite !insert_insert_eq.
Qed.

Lemma entry_world_again (first : pyobj) (w : world) :
  entry_world first (entry_world first w) = entry_world first w.
Proof. destruct first; simpl; try reflexivity. apply mark_experimental_again. Qed.

Lemma discard_result_again (r : result pyval * world) :
  discard_result (discard_result r) = discard_result r.
Proof. now destruct r as [[x|e] w]. Qed.

(** X16. The wrapper of [experimental_api] has no cleanup and no state of
    its own: when the wrapped function raises, the wrapper raises the same
    exception in the world the function left, with the header still
    written by the wrapper unless the function removed it; and decorating a
    function twice behaves as decorating it once. *)
Theorem experimental_api_failure_and_nesting
    (f : pyfun) (first : pyobj) (rest : list pyobj) (w : world) :
  (forall e w', f (first :: rest) (entry_world first w) = (Raise e, w') ->
     experimental_api f (first :: rest) w = (Raise e, w'))
  /\ experimental_api (experimental_api f) (first :: rest) w
     = experimental_api f (first :: rest) w.
Proof.
  split.
  - intros e w' Hf. now rewrite experimental_api_eq, Hf.
  - rewrite !experimental_api_eq, entry_world_again. apply discard_result_again.
Qed.

(** The transport fails inside a call made with a v1 client: the error
    comes out, and the header stays behind. *)
Lemma experimental_api_failure_sample :
  let f : pyfun := fun _ => http sample_transport DELETE "/shares/s1/metadata/missing" None in
  let args := [OV1Client (client_at (v 2 56))] in
  fst (experimental_api f args refusing_world) = Raise (TransportError 404)
  /\ header_set sample_transport (snd (experimental_api f args refusing_world)).
Proof.
  intros f args. subst args.
  destruct (experimental_api_failure_and_nesting f (OV1Client (client_at (v 2 56))) []
              refusing_world) as [H _].
  erewrite H; [split; [reflexivity|]|reflexivity].
  vm_compute. reflexivity.
Defined.

(** ** [format_properties] *)

Lemma format_properties_eq (properties : list (string * pyval)) :
  List.NoDup (map fst properties) ->
  utils.format_properties properties
  = join (String nl "") (map property_line properties).
Proof.
  intros Hnd. unfold utils.format_properties. f_equal.
  apply map_ext_in. intros [k x] Hin. unfold property_line. simpl.
  apply (dict_get_In_iff _ _ _ Hnd) in Hin. now rewrite Hin.
Qed.

(** X17. [format_properties] writes one line [key : value] per property, in
    the order of the dictionary, for properties that are ASCII text, None,
    booleans, integers of fewer than 4300 digits, or lists and dictionaries
    of these: when no key and no value spans several lines, splitting the
    text at the newlines gives these lines back, and the empty dictionary
    gives the empty text. *)
Theorem format_properties_lines (properties : list (string * pyval)) :
  List.NoDup (map fst properties) ->
  Forall (fun kv => is_ascii (fst kv) = true /\ ascii_value (snd kv) = true) properties ->
  Forall (fun kv => free_of nl (property_line kv) = true) properties ->
  (properties <> [] ->
   split nl (utils.format_properties properties) = map property_line properties)
  /\ utils.format_properties [] = "".
Proof.
  intros Hnd _ Hfree. split; [|reflexivity].
  intros Hne. rewrite (format_properties_eq _ Hnd). apply split_join.
  - destruct properties; [congruence|discriminate].
  - apply List.Forall_forall. intros x Hx.
    apply in_map_iff in Hx as (kv & <- & Hin).
    rewrite List.Forall_forall in Hfree. now apply Hfree.
Qed.

Lemma format_properties_lines_sample :
  split nl (utils.format_properties [("size", VInt 10); ("name", VStr "db"); ("spec", VNone)])
  = ["size : 10"; "name : db"; "spec : None"].
Proof.
  destruct (format_properties_lines
              [("size", VInt 10); ("name", VStr "db"); ("spec", VNone)]) as [H _].
  - simpl. repeat constructor; simpl; intuition discriminate.
  - repeat constructor.
  - repeat constructor.
  - rewrite H; [reflexivity|discriminate].
Defined.

(** ** The share-group managers *)

Lemma dict_set_keys_nodup {V} (k : string) (x : V) (d : list (string * V)) :
  List.NoDup (map fst d) -> List.NoDup (map fst (dict_set k x d)).
Proof.
  intros Hnd. destruct (dict_has k d) eqn:Hhas.
  - assert (Hkeys : map fst (dict_set k x d) = map fst d); [|now rewrite Hkeys].
    clear Hnd. revert Hhas. unfold dict_has.
    induction d as [|[k0 x0] d IH]; simpl; [discriminate|].
    destruct (String.eqb_spec k k0) as [->|Hne]; simpl; [reflexivity|].
    intros Hhas. f_equal. now apply IH.
  - rewrite (dict_has_false_set _ _ _ Hhas), map_app. simpl.
    apply (Permutation_NoDup (l := k :: map fst d)).
    + apply Permutation_cons_append.
    + constructor; [now apply dict_has_not_In|assumption].
Qed.

Lemma dict_get_del_eq {V} (k : string) (d : list (string * V)) :
  List.NoDup (map fst d) -> dict_get k (dict_del k d) = None.
Proof.
  induction d as [|[k0 x0] d IH]; simpl; [reflexivity|].
  intros Hnd. inversion Hnd as [|? ? Hnotin Hnd']; subst.
  destruct (String.eqb_spec k k0) as [->|Hne].
  - apply dict_has_get, dict_has_not_In. exact Hnotin.
  - simpl. destruct (String.eqb_spec k k0); [congruence|auto].
Qed.

Lemma dict_get_del_ne {V} (k k' : string) (d : list (string * V)) :
  k <> k' -> dict_get k (dict_del k' d) = dict_get k d.
Proof.
  intros Hne. induction d as [|[k0 x0] d IH]; simpl; [reflexivity|].
  destruct (String.eqb_spec k' k0) as [->|Hne'].
  - now destruct (String.eqb_spec k k0).
  - simpl. destruct (String.eqb k k0); [reflexivity|exact IH].
Qed.

Lemma with_sort_key_nodup (values : list string) (sk : option string)
    (so so' : list (string * pyval)) (w w' : world) :
  with_sort_key values sk so w = (Return so', w') ->
  List.NoDup (map fst so) -> List.NoDup (map fst so').
Proof.
  unfold with_sort_key, ret, raise. intros H Hnd.
  destruct sk as [s|]; [destruct (str_in s values)|]; inversion H; subst;
    try assumption.
  now apply dict_set_keys_nodup.
Qed.

Lemma with_sort_dir_nodup (sd : option string)
    (so so' : list (string * pyval)) (w w' : world) :
  with_sort_dir sd so w = (Return so', w') ->
  List.NoDup (map fst so) -> List.NoDup (map fst so').
Proof.
  unfold with_sort_dir, ret, raise. intros H Hnd.
  destruct sd as [s|]; [destruct (str_in s SORT_DIR_VALUES)|]; inversion H; subst;
    try assumption.
  now apply dict_set_keys_nodup.
Qed.

(** X18. The [list] function of [ShareGroupSnapshotInstanceManager] never
    sends the filter [share_group_instance]: when the caller's filters hold
    it, the filters of the request hold the id of its value under
    [share_group_instance_id] instead; when they do not,
    [share_group_instance_id] is as the caller had it. The wrapper
    [experimental_api] makes of the function sends the GET built from these
    filters. *)
Theorem snapshot_instance_filter_renamed
    (K : Constants) (self : Manager) (t : target) (detailed : bool)
    (search_opts : list (string * pyval))
    (sort_key sort_dir : option string) (w w' : world)
    (filters : list (string * pyval)) :
  List.NoDup (map fst search_opts) ->
  ShareGroupSnapshotInstanceManager.list_filters K t (Some search_opts)
    sort_key sort_dir w = (Return filters, w') ->
  dict_get "share_group_instance" filters = None
  /\ dict_get "share_group_instance_id" filters
     = match dict_get "share_group_instance" search_opts with
       | Some instance => Some (getid_value instance)
       | None => dict_get "share_group_instance_id" search_opts
       end
  /\ w_log (snd (ShareGroupSnapshotInstanceManager_list K
                   (list_args self t detailed (Some search_opts) sort_key sort_dir) w))
     = (w_log w'
        ++ [EvHttp (request_of self w' GET
                      (if detailed
                       then "/share-group-snapshot-instances" ++ "/detail"
                            ++ _build_query_string filters
                       else "/share-group-snapshot-instances"
                            ++ _build_query_string filters) None)])%list.
Proof.
  intros Hnd Hf.
  assert (Hdict :
    dict_get "share_group_instance" filters = None
    /\ dict_get "share_group_instance_id" filters
       = match dict_get "share_group_instance" search_opts with
         | Some instance => Some (getid_value instance)
         | None => dict_get "share_group_instance_id" search_opts
         end).
  { revert Hf. unfold ShareGroupSnapshotInstanceManager.list_filters, or_empty.
    set (so0 := if truthy_target t
                then dict_set "share_group_snapshot_id" (getid t) search_opts
                else search_opts).
    assert (Hnd0 : List.NoDup (map fst so0)).
    { unfold so0. destruct (truthy_target t); [now apply dict_set_keys_nodup|assumption]. }
    assert (Hget0 : forall k, k <> "share_group_snapshot_id" ->
                      dict_get k so0 = dict_get k search_opts).
    { intros k Hk. unfold so0. destruct (truthy_target t); [|reflexivity].
      now apply dict_get_set_ne. }
    unfold bind.
    destruct (with_sort_key _ sort_key so0 w) as [[so1|e1] w1] eqn:H1; [|discriminate].
    destruct (with_sort_dir sort_dir so1 w1) as [[so2|e2] w2] eqn:H2; [|discriminate].
    pose proof (with_sort_dir_nodup _ _ _ _ _ H2
                  (with_sort_key_nodup _ _ _ _ _ _ H1 Hnd0)) as Hnd2.
    assert (Hget2 : forall k, k <> "share_group_snapshot_id" -> k <> "sort_key" ->
                      k <> "sort_dir" -> dict_get k so2 = dict_get k search_opts).
    { intros k Hk Hsk Hsd.
      destruct (with_sort_dir_keeps _ _ _ _ _ k H2 Hsd) as [_ ->].
      destruct (with_sort_key_keeps _ _ _ _ _ _ k H1 Hsk) as [_ ->].
      now apply Hget0. }
    unfold ret. intros [= <- _].
    rewrite <- (Hget2 "share_group_instance") by discriminate.
    rewrite <- (Hget2 "share_group_instance_id") by discriminate.
    destruct (dict_get "share_group_instance" so2) as [instance|] eqn:Hinst.
    - split.
      + rewrite dict_get_set_ne by discriminate. now apply dict_get_del_eq.
      + apply dict_get_set_eq.
    - now split. }
  destruct Hdict as [Hgone Hid]. split; [exact Hgone|split; [exact Hid|]].
  unfold ShareGroupSnapshotInstanceManager_list.
  rewrite experimental_list_eq, snd_discard_result.
  unfold ShareGroupSnapshotInstanceManager.list. unfold bind at 1. rewrite Hf.
  apply list_log.
Qed.

(** The filter holds an instance object: its id is what is sent. *)
Lemma snapshot_instance_filter_renamed_sample :
  w_log (snd (ShareGroupSnapshotInstanceManager_list sample_constants
                (list_args (manager_at (v 2 56)) (TId VNone) false
                   (Some [("share_group_instance",
                           VDict [("id", VStr "i7"); ("status", VStr "ok")]);
                          ("status", VStr "error")])
                   None None) quiet_world))
  = [EvHttp (mkRequest GET
               "/share-group-snapshot-instances?share_group_instance_id=i7&status=error"
               None ∅)]
  /\ dict_get "share_group_instance"
       [("status", VStr "error"); ("share_group_instance_id", VStr "i7")] = None.
Proof.
  split; [reflexivity|].
  apply (snapshot_instance_filter_renamed sample_constants (manager_at (v 2 56))
           (TId VNone) false
           [("share_group_instance", VDict [("id", VStr "i7"); ("status", VStr "ok")]);
            ("status", VStr "error")]
           None None quiet_world quiet_world).
  - simpl. repeat constructor; simpl; intuition discriminate.
  - reflexivity.
Defined.
